(** * ADK-Google: the Wikipedia retrieval tool and the PowerPoint tool

    A shallow embedding of [tools.py]: the text cleaners of
    [WikipediaAgent], its retrieval methods over an explicit HTTP world,
    the batch helpers, and [PowerPointTool] over a model of the
    python-pptx object tree.

    Python [str] values are sequences of Unicode code points; a code point
    is an [N].  Character classes are those of CPython 3.11 (Unicode 14):
    [\s] and [str.strip] use the same whitespace table, [\d] is the
    decimal-digit table. *)

From Stdlib Require Import String Ascii NArith ZArith List Lia Bool.
From Stdlib Require Import DecimalString DecimalNat.
Import ListNotations.


(** ** Python strings *)

Definition char := N.
Definition str := list char.

(** A literal of the source, given as an ASCII string. *)
Definition lit (s : string) : str := map N_of_ascii (list_ascii_of_string s).

Definition chr_lt : char := 60%N.      (* '<' *)
Definition chr_gt : char := 62%N.      (* '>' *)
Definition chr_lbracket : char := 91%N. (* '[' *)
Definition chr_rbracket : char := 93%N. (* ']' *)
Definition chr_space : char := 32%N.   (* ' ' *)
Definition chr_quote : char := 34%N.   (* the double quote *)
Definition chr_amp : char := 38%N.     (* '&' *)
Definition chr_nl : char := 10%N.      (* line feed *)
Definition chr_vt : char := 11%N.      (* vertical tab *)

Definition str_eqb (a b : str) : bool :=
  if list_eq_dec N.eq_dec a b then true else false.

Module Unicode.

Definition in_range (c : char) (r : N * N) : bool :=
  (fst r <=? c)%N && (c <=? snd r)%N.

Definition in_table (t : list (N * N)) (c : char) : bool :=
  existsb (in_range c) t.

(** Code points for which [str.isspace] holds; [\s] matches the same. *)
Definition space_table : list (N * N) :=
  [(9, 13); (28, 32); (133, 133); (160, 160); (5760, 5760); (8192, 8202);
   (8232, 8233); (8239, 8239); (8287, 8287); (12288, 12288)]%N.

(** Code points of category Nd, matched by [\d]. *)
Definition decimal_table : list (N * N) :=
  [(48, 57); (1632, 1641); (1776, 1785); (1984, 1993); (2406, 2415);
   (2534, 2543); (2662, 2671); (2790, 2799); (2918, 2927); (3046, 3055);
   (3174, 3183); (3302, 3311); (3430, 3439); (3558, 3567); (3664, 3673);
   (3792, 3801); (3872, 3881); (4160, 4169); (4240, 4249); (6112, 6121);
   (6160, 6169); (6470, 6479); (6608, 6617); (6784, 6793); (6800, 6809);
   (6992, 7001); (7088, 7097); (7232, 7241); (7248, 7257); (42528, 42537);
   (43216, 43225); (43264, 43273); (43472, 43481); (43504, 43513);
   (43600, 43609); (44016, 44025); (65296, 65305); (66720, 66729);
   (68912, 68921); (69734, 69743); (69872, 69881); (69942, 69951);
   (70096, 70105); (70384, 70393); (70736, 70745); (70864, 70873);
   (71248, 71257); (71360, 71369); (71472, 71481); (71904, 71913);
   (72016, 72025); (72784, 72793); (73040, 73049); (73120, 73129);
   (92768, 92777); (92864, 92873); (93008, 93017); (120782, 120831);
   (123200, 123209); (123632, 123641); (125264, 125273);
   (130032, 130041)]%N.

Definition isspace : char -> bool := in_table space_table.
Definition isdecimal : char -> bool := in_table decimal_table.

End Unicode.

(** ** The regular-expression substitutions of the cleaners

    [re.sub(pattern, repl, s)] scans [s] from the left; where the pattern
    matches it emits [repl] and resumes after the match, elsewhere it
    copies one character.  A matcher gives the length of the match that
    starts at the head of its argument.  None of the three patterns of the
    source matches the empty string, and each has at most one match per
    start position (the greedy run is followed by a character outside its
    class), so no backtracking order is involved. *)

Module Re.

(** Length of the longest prefix whose characters satisfy [p]. *)
Fixpoint span (p : char -> bool) (s : str) : nat :=
  match s with
  | c :: r => if p c then S (span p r) else 0
  | [] => 0
  end.

Section Scan.
Variable m : str -> option nat.
Variable repl : str.

(** [skip] counts the characters of the current match still to drop. *)
Fixpoint scan (skip : nat) (s : str) : str :=
  match s with
  | [] => []
  | c :: r =>
      match skip with
      | S k => scan k r
      | O =>
          match m s with
          | Some (S k) => repl ++ scan k r
          | _ => c :: scan 0 r
          end
      end
  end.

Definition sub (s : str) : str := scan 0 s.

(** No position of [s] starts a match. *)
Fixpoint nomatch (s : str) : bool :=
  match s with
  | [] => true
  | _ :: r => match m s with
              | Some (S _) => false
              | _ => nomatch r
              end
  end.
End Scan.

(** The matcher finds a (non-empty) match at the head of [s]. *)
Definition matches (m : str -> option nat) (s : str) : bool :=
  match m s with Some (S _) => true | _ => false end.

(** A match inside [a] is still a match when text follows [a]. *)
Definition stable (m : str -> option nat) : Prop :=
  forall a b, matches m a = true -> matches m (a ++ b) = true.

(** A class run of length at least one, closed by [close]. *)
Definition run_then (p : char -> bool) (close : char) (r : str)
  : option nat :=
  let n := span p r in
  match n, skipn n r with
  | S _, g :: _ => if (g =? close)%N then Some (S (S n)) else None
  | _, _ => None
  end.

(** The class [[^>]]. *)
Definition not_gt (c : char) : bool := negb (c =? chr_gt)%N.

(** [<[^>]+>] *)
Definition match_tag (s : str) : option nat :=
  match s with
  | c :: r =>
      if (c =? chr_lt)%N then run_then not_gt chr_gt r else None
  | [] => None
  end.

(** [\s+] *)
Definition match_ws (s : str) : option nat :=
  match span Unicode.isspace s with
  | O => None
  | n => Some n
  end.

(** [\[\d+\]] *)
Definition match_ref (s : str) : option nat :=
  match s with
  | c :: r =>
      if (c =? chr_lbracket)%N
      then run_then Unicode.isdecimal chr_rbracket r
      else None
  | [] => None
  end.

(** A literal pattern, as [str.replace] searches it. *)
Fixpoint starts_with (p s : str) : bool :=
  match p, s with
  | [], _ => true
  | a :: p', b :: s' => (a =? b)%N && starts_with p' s'
  | _ :: _, [] => false
  end.

Definition match_lit (p : str) (s : str) : option nat :=
  if starts_with p s then Some (length p) else None.

(** [s.replace(old, new)] for a non-empty [old]. *)
Definition replace (old new : str) (s : str) : str :=
  sub (match_lit old) new s.

Fixpoint lstrip (s : str) : str :=
  match s with
  | c :: r => if Unicode.isspace c then lstrip r else s
  | [] => []
  end.

Definition rstrip (s : str) : str := rev (lstrip (rev s)).

(** [s.strip()] *)
Definition strip (s : str) : str := rstrip (lstrip s).

End Re.

(** ** The two cleaners of [WikipediaAgent] *)

Definition strip_tags : str -> str := Re.sub Re.match_tag [].
Definition collapse_ws : str -> str := Re.sub Re.match_ws [chr_space].
Definition remove_refs : str -> str := Re.sub Re.match_ref [].

Definition _extract_text_from_html (html : str) : str :=
  let text := strip_tags html in
  let text := collapse_ws text in
  let text := remove_refs text in
  Re.strip text.

Definition decode_entities (text : str) : str :=
  Re.replace (lit "&gt;") [chr_gt]
    (Re.replace (lit "&lt;") [chr_lt]
       (Re.replace (lit "&amp;") [chr_amp]
          (Re.replace (lit "&quot;") [chr_quote] text))).

Definition _clean_html (text : str) : str :=
  let text := strip_tags text in
  let text := decode_entities text in
  Re.strip text.

(** ** Properties of cleaned text *)

(** [s] contains no tag span: no position starts a match of [<[^>]+>]. *)
Definition tag_free (s : str) : bool := Re.nomatch Re.match_tag s.

(** [s] contains no reference marker [\[\d+\]]. *)
Definition ref_free (s : str) : bool := Re.nomatch Re.match_ref s.

(** [s] contains none of the four entities [_clean_html] decodes. *)
Definition entity_free (s : str) : bool :=
  Re.nomatch (Re.match_lit (lit "&quot;")) s
  && Re.nomatch (Re.match_lit (lit "&amp;")) s
  && Re.nomatch (Re.match_lit (lit "&lt;")) s
  && Re.nomatch (Re.match_lit (lit "&gt;")) s.

(** A tag span starts at the head of [c :: r]: [c] is '<', the next
    character is not '>', and a '>' occurs in [r]. *)
Definition tag_at (c : char) (r : str) : bool :=
  (c =? chr_lt)%N
  && negb (match r with [] => true | d :: _ => (d =? chr_gt)%N end)
  && existsb (N.eqb chr_gt) r.

(** Every whitespace character of [s] is a single space that no
    whitespace follows. *)
Fixpoint ws_normal (s : str) : bool :=
  match s with
  | [] => true
  | c :: r =>
      (if Unicode.isspace c
       then (c =? chr_space)%N
            && match r with d :: _ => negb (Unicode.isspace d) | [] => true end
       else true)
      && ws_normal r
  end.

(** [s] does not begin with whitespace. *)
Definition head_nonspace (s : str) : Prop :=
  match s with c :: _ => Unicode.isspace c = false | [] => True end.

(** ** The text-cleaning algorithm as the specification words it

    "Remove all tag spans; collapse any run of whitespace to a single
    space; remove bracketed all-digit reference markers; trim leading and
    trailing whitespace."  Each of the first three steps reads the text
    from the left and replaces every span it meets; the steps are stated
    here as relations between a text and its image, independently of the
    scan of [Re]. *)

Module CleanSpec.

Section Replaced.
(** [span_at t rest]: [t] is a span to replace when [rest] follows. *)
Variable span_at : str -> str -> Prop.
Variable repl : str.

Inductive replaced : str -> str -> Prop :=
| rp_nil : replaced [] []
| rp_span t rest out :
    span_at t rest -> replaced rest out ->
    replaced (t ++ rest) (repl ++ out)
| rp_keep c r out :
    (forall t rest, c :: r = t ++ rest -> ~ span_at t rest) ->
    replaced r out -> replaced (c :: r) (c :: out).
End Replaced.

(** A tag span: '<', one or more characters other than '>', then '>'. *)
Definition is_tag (t : str) : Prop :=
  exists body, t = chr_lt :: body ++ [chr_gt]
               /\ body <> [] /\ Forall (fun c => c <> chr_gt) body.

(** A reference marker: '[', one or more decimal digits, then ']'. *)
Definition is_marker (t : str) : Prop :=
  exists ds, t = chr_lbracket :: ds ++ [chr_rbracket]
             /\ ds <> [] /\ Forall (fun c => Unicode.isdecimal c = true) ds.

Definition all_space (t : str) : Prop :=
  Forall (fun c => Unicode.isspace c = true) t.

(** A whole run of whitespace: non-empty, and no whitespace follows. *)
Definition is_ws_run (t rest : str) : Prop :=
  t <> [] /\ all_space t /\ head_nonspace rest.

Definition tags_removed : str -> str -> Prop :=
  replaced (fun t _ => is_tag t) [].
Definition ws_collapsed : str -> str -> Prop :=
  replaced is_ws_run [chr_space].
Definition refs_removed : str -> str -> Prop :=
  replaced (fun t _ => is_marker t) [].

Definition trimmed (s out : str) : Prop :=
  exists a b, s = a ++ out ++ b /\ all_space a /\ all_space b
              /\ head_nonspace out /\ head_nonspace (rev out).

(** The four steps, in the order the specification lists them. *)
Definition cleaned (s out : str) : Prop :=
  exists t1 t2 t3,
    tags_removed s t1 /\ ws_collapsed t1 t2 /\ refs_removed t2 t3
    /\ trimmed t3 out.

(** Each occurrence of the literal [old] replaced by [new]. *)
Definition literal_replaced (old new : str) : str -> str -> Prop :=
  replaced (fun t _ => t = old) new.

(** The snippet cleaning of [search]: markup stripped, the four
    entities decoded, the result trimmed. *)
Definition snippet_cleaned (s out : str) : Prop :=
  exists t1 t2 t3 t4 t5,
    tags_removed s t1
    /\ literal_replaced (lit "&quot;") [chr_quote] t1 t2
    /\ literal_replaced (lit "&amp;") [chr_amp] t2 t3
    /\ literal_replaced (lit "&lt;") [chr_lt] t3 t4
    /\ literal_replaced (lit "&gt;") [chr_gt] t4 t5
    /\ trimmed t5 out.

(** No part of [s] is a span of the kind [P]. *)
Definition contains_no (P : str -> Prop) (s : str) : Prop :=
  forall a t b, s = a ++ t ++ b -> ~ P t.

(** The matcher [m] finds exactly the spans [span_at] describes. *)
Definition implements (m : str -> option nat)
           (span_at : str -> str -> Prop) : Prop :=
  (forall t rest, span_at t rest ->
                  t <> [] /\ m (t ++ rest) = Some (length t))
  /\ (forall s k, m s = Some (S k) ->
                  exists t rest, s = t ++ rest /\ span_at t rest
                                 /\ length t = S k).

End CleanSpec.

(** ** The Python run time the tools rely on *)

Module Py.

(** The exception classes that can occur.  [RequestException] stands
    for [requests.RequestException] and its subclasses ([ConnectionError],
    [Timeout], [HTTPError], [JSONDecodeError]); every class here derives
    from [Exception]. *)
Inductive exn_class :=
| RequestException | Exception | AttributeError | KeyError | TypeError
| IndexError | ValueError | UnicodeEncodeError | PackageNotFoundError.

(** An exception object; [exn_msg] is what [str(e)] returns. *)
Record exn := mk_exn { exn_cls : exn_class; exn_msg : str }.

Definition is_request_exception (e : exn) : bool :=
  match exn_cls e with RequestException => true | _ => false end.

(** [except Exception] *)
Definition is_exception (e : exn) : bool := true.

Inductive res (A : Type) : Type :=
| Ok (a : A)
| Raise (e : exn).
Arguments Ok {A} a.
Arguments Raise {A} e.

(** A computation over a state [S]: it returns or raises, and the state
    it reached is kept in both cases. *)
Definition M (S A : Type) : Type := S -> res A * S.

Definition ret {S A} (a : A) : M S A := fun st => (Ok a, st).
Definition raise {S A} (e : exn) : M S A := fun st => (Raise e, st).
Definition lift {S A} (r : res A) : M S A := fun st => (r, st).

Definition bind {S A B} (m : M S A) (k : A -> M S B) : M S B :=
  fun st =>
    match m st with
    | (Ok a, st') => k a st'
    | (Raise e, st') => (Raise e, st')
    end.

Declare Scope py_scope.
Delimit Scope py_scope with py.
Notation "x <- m ;; k" := (bind m (fun x => k))
  (at level 61, m at next level, right associativity) : py_scope.
Notation "m ;;; k" := (bind m (fun _ => k))
  (at level 61, right associativity) : py_scope.

(** [try: body / except <catches>: handler] *)
Definition try_except {S A} (body : M S A) (catches : exn -> bool)
           (handler : exn -> M S A) : M S A :=
  fun st =>
    match body st with
    | (Ok a, st') => (Ok a, st')
    | (Raise e, st') => if catches e then handler e st' else (Raise e, st')
    end.

(** [for x in xs: acc = body(x, acc)] *)
Fixpoint for_each {S A B} (xs : list A) (acc : B) (body : A -> B -> M S B)
  : M S B :=
  match xs with
  | [] => ret acc
  | x :: xs' => bind (body x acc) (fun acc' => for_each xs' acc' body)
  end.

(** Run a computation on a component [T] of the state [S]. *)
Definition zoom {S T A} (proj : S -> T) (put : T -> S -> S) (m : M T A)
  : M S A :=
  fun st => let (r, t) := m (proj st) in (r, put t st).

(** A list comprehension [[f(x) for x in xs]]. *)
Fixpoint comprehension {A B} (f : A -> res B) (xs : list A) : res (list B) :=
  match xs with
  | [] => Ok []
  | x :: xs' =>
      match f x with
      | Raise e => Raise e
      | Ok y => match comprehension f xs' with
                | Raise e => Raise e
                | Ok ys => Ok (y :: ys)
                end
      end
  end.

(** Values decoded from JSON.  A float keeps its literal text; the
    tools never compute with numbers.  A [JDict] lists its items in
    order, each key once. *)
#[local] Unset Elimination Schemes.
Inductive json :=
| JNone
| JBool (b : bool)
| JInt (z : Z)
| JFloat (literal : str)
| JStr (s : str)
| JList (l : list json)
| JDict (d : list (str * json)).
#[local] Set Elimination Schemes.

Definition type_name (v : json) : str :=
  match v with
  | JNone => lit "NoneType"
  | JBool _ => lit "bool"
  | JInt _ => lit "int"
  | JFloat _ => lit "float"
  | JStr _ => lit "str"
  | JList _ => lit "list"
  | JDict _ => lit "dict"
  end.

Definition attribute_error {A} (v : json) (attr : string) : res A :=
  Raise (mk_exn AttributeError
           (lit "'" ++ type_name v ++ lit "' object has no attribute '"
                ++ lit attr ++ lit "'")).

Definition type_error {A} (msg : str) : res A :=
  Raise (mk_exn TypeError msg).

Fixpoint lookup {V} (d : list (str * V)) (k : str) : option V :=
  match d with
  | [] => None
  | (k', v) :: d' => if str_eqb k' k then Some v else lookup d' k
  end.

(** [d[k] = v] on a dict: the item keeps its place when the key is
    there, and goes last otherwise. *)
Fixpoint dict_set {V} (d : list (str * V)) (k : str) (v : V)
  : list (str * V) :=
  match d with
  | [] => [(k, v)]
  | (k', v') :: d' =>
      if str_eqb k' k then (k', v) :: d' else (k', v') :: dict_set d' k v
  end.

(** [v.get(k, default)] *)
Definition get (v : json) (k : string) (default : json) : res json :=
  match v with
  | JDict d => Ok (match lookup d (lit k) with
                   | Some x => x
                   | None => default
                   end)
  | _ => attribute_error v "get"
  end.

(** [v[k]] for a string key [k] *)
Definition getitem (v : json) (k : string) : res json :=
  match v with
  | JDict d => match lookup d (lit k) with
               | Some x => Ok x
               | None => Raise (mk_exn KeyError (lit "'" ++ lit k ++ lit "'"))
               end
  | JStr _ => type_error (lit "string indices must be integers, not 'str'")
  | JList _ =>
      type_error (lit "list indices must be integers or slices, not str")
  | _ => type_error (lit "'" ++ type_name v ++ lit "' object is not subscriptable")
  end.

(** [sub in s] for strings *)
Fixpoint is_infix (sub s : str) : bool :=
  Re.starts_with sub s
  || match s with
     | [] => false
     | _ :: s' => is_infix sub s'
     end.

(** [k in v] for a string [k] *)
Definition contains (k : string) (v : json) : res bool :=
  match v with
  | JDict d => Ok (match lookup d (lit k) with Some _ => true | None => false end)
  | JStr s => Ok (is_infix (lit k) s)
  | JList l =>
      Ok (existsb (fun x => match x with
                            | JStr s => str_eqb s (lit k)
                            | _ => false
                            end) l)
  | _ => type_error (lit "argument of type '" ++ type_name v
                         ++ lit "' is not iterable")
  end.

(** [v.values()] and [v.items()] *)
Definition values (v : json) : res (list json) :=
  match v with
  | JDict d => Ok (map snd d)
  | _ => attribute_error v "values"
  end.

Definition items (v : json) : res (list (str * json)) :=
  match v with
  | JDict d => Ok d
  | _ => attribute_error v "items"
  end.

(** The elements [for x in v] visits. *)
Definition iter (v : json) : res (list json) :=
  match v with
  | JList l => Ok l
  | JDict d => Ok (map (fun kv => JStr (fst kv)) d)
  | JStr s => Ok (map (fun c => JStr [c]) s)
  | _ => type_error (lit "'" ++ type_name v ++ lit "' object is not iterable")
  end.

(** [v.replace(old, new)] *)
Definition replace (v : json) (old new : str) : res str :=
  match v with
  | JStr s => Ok (Re.replace old new s)
  | _ => attribute_error v "replace"
  end.

(** A sequence index as Python resolves it: negative indices count
    from the end; [what] names the sequence in the error message. *)
Definition list_index {A} (what : string) (l : list A) (i : Z) : res A :=
  let n := Z.of_nat (length l) in
  let j := if (i <? 0)%Z then (i + n)%Z else i in
  let out_of_range :=
    Raise (mk_exn IndexError (lit what ++ lit " index out of range")) in
  if ((j <? 0) || (n <=? j))%Z then out_of_range
  else match nth_error l (Z.to_nat j) with
       | Some x => Ok x
       | None => out_of_range
       end.

(** [s.split(sep)] for a separator class of single characters: the
    pieces between separators, empty ones included. *)
Fixpoint split_on (is_sep : char -> bool) (s : str) : list str :=
  match s with
  | [] => [[]]
  | c :: r =>
      if is_sep c then [] :: split_on is_sep r
      else match split_on is_sep r with
           | piece :: pieces => (c :: piece) :: pieces
           | [] => [[c]]
           end
  end.

(** [sep.join(parts)] *)
Fixpoint join (sep : str) (parts : list str) : str :=
  match parts with
  | [] => []
  | [p] => p
  | p :: ps => p ++ sep ++ join sep ps
  end.

End Py.

(** ** [urllib.parse.quote] with its default [safe='/'] *)

Module Urllib.

Definition is_surrogate (c : char) : bool :=
  (55296 <=? c)%N && (c <=? 57343)%N.

(** UTF-8, [errors='strict']: surrogates have no encoding. *)
Definition utf8 (c : char) : option (list N) :=
  if (c <? 128)%N then Some [c]
  else if (c <? 2048)%N then
    Some [192 + c / 64; 128 + c mod 64]%N
  else if is_surrogate c then None
  else if (c <? 65536)%N then
    Some [224 + c / 4096; 128 + (c / 64) mod 64; 128 + c mod 64]%N
  else if (c <? 1114112)%N then
    Some [240 + c / 262144; 128 + (c / 4096) mod 64;
          128 + (c / 64) mod 64; 128 + c mod 64]%N
  else None.

(** Letters, digits and [_.-~] are always safe; '/' is safe by default. *)
Definition is_safe (b : N) : bool :=
  ((65 <=? b) && (b <=? 90) || (97 <=? b) && (b <=? 122)
   || (48 <=? b) && (b <=? 57)
   || (b =? 95) || (b =? 46) || (b =? 45) || (b =? 126) || (b =? 47))%N.

Definition hex_digit (d : N) : char :=
  if (d <? 10)%N then (48 + d)%N else (55 + d)%N.

Definition quote_byte (b : N) : str :=
  if is_safe b then [b] else [37; hex_digit (b / 16); hex_digit (b mod 16)]%N.

Fixpoint quote (s : str) : Py.res str :=
  match s with
  | [] => Py.Ok []
  | c :: r =>
      match utf8 c with
      | None =>
          Py.Raise (Py.mk_exn Py.UnicodeEncodeError
                      (lit "surrogates not allowed"))
      | Some bytes =>
          match quote r with
          | Py.Ok q => Py.Ok (flat_map quote_byte bytes ++ q)
          | Py.Raise e => Py.Raise e
          end
      end
  end.

End Urllib.

(** ** The HTTP boundary ([requests]) *)

Module Requests.

Inductive param := PStr (s : str) | PInt (z : Z) | PBool (b : bool).

Record request := mk_request {
  req_url : str;
  req_params : list (str * param);
  req_headers : list (str * str)
}.

(** What the tools read of a response.  [json_body] is the outcome of
    [response.json()]: the decoded value, or the message of the
    [JSONDecodeError] it raises.  [http_error_msg] is the message
    [raise_for_status()] gives its [HTTPError]. *)
Record response := mk_response {
  status_code : Z;
  text : str;
  json_body : str + Py.json;
  http_error_msg : str
}.

(** [requests.get] returns a response or raises a [RequestException]
    (connection error, timeout, ...) with the given message. *)
Inductive outcome :=
| Responds (r : response)
| Fails (msg : str).

(** [response.raise_for_status()] *)
Definition raise_for_status (r : response) : Py.res unit :=
  if ((400 <=? status_code r) && (status_code r <? 600))%Z
  then Py.Raise (Py.mk_exn Py.RequestException (http_error_msg r))
  else Py.Ok tt.

(** [response.json()] *)
Definition response_json (r : response) : Py.res Py.json :=
  match json_body r with
  | inl msg => Py.Raise (Py.mk_exn Py.RequestException msg)
  | inr v => Py.Ok v
  end.

End Requests.

(** ** [WikipediaAgent] *)

(** The state a retrieval runs in: the remote source and what has been
    printed. *)
Record wiki_state (World : Type) := mk_wiki_state {
  world : World;
  stdout : list str
}.
Arguments mk_wiki_state {World} _ _.
Arguments world {World} _.
Arguments stdout {World} _.

Record WikipediaPage := mk_WikipediaPage {
  title : str;
  content : str;
  url : str;
  summary : Py.json;
  categories : list str;
  links : list Py.json
}.

Record WikipediaAgent := mk_WikipediaAgent {
  language : str;
  base_url : str;
  api_url : str;
  headers : list (str * str)
}.

(** An entry of the list [search] returns. *)
Record SearchResult := mk_SearchResult {
  sr_title : str;
  sr_snippet : str;
  sr_size : Py.json;
  sr_timestamp : Py.json;
  sr_url : str
}.


Section Wikipedia.
Import Py Requests.
Local Open Scope py_scope.

Context {World : Type}.
(** The remote source: each request is answered and may change it. *)
Variable http_get : request -> World -> outcome * World.

Local Abbreviation M := (Py.M (wiki_state World)).

Definition print (line : str) : M unit :=
  fun st => (Ok tt, mk_wiki_state (world st) (stdout st ++ [line])).

Definition requests_get (rq : request) : M response :=
  fun st =>
    match http_get rq (world st) with
    | (Responds r, w) => (Ok r, mk_wiki_state w (stdout st))
    | (Fails msg, w) =>
        (Raise (mk_exn RequestException msg), mk_wiki_state w (stdout st))
    end.

Definition __init__ (language user_agent : str) : WikipediaAgent :=
  {| language := language;
     base_url := lit "https://" ++ language ++ lit ".wikipedia.org/api/rest_v1";
     api_url := lit "https://" ++ language ++ lit ".wikipedia.org/w/api.php";
     headers := [(lit "User-Agent", user_agent);
                 (lit "Accept", lit "application/json")] |}.

(** [f"https://{self.language}.wikipedia.org/wiki/{quoted}"] *)
Definition wiki_url (self : WikipediaAgent) (quoted : str) : str :=
  lit "https://" ++ language self ++ lit ".wikipedia.org/wiki/" ++ quoted.

(** [_clean_html] on a value that need not be a string: [re.sub]
    rejects anything else. *)
Definition clean_html_value (v : json) : res str :=
  match v with
  | JStr s => Ok (_clean_html s)
  | _ => type_error (lit "expected string or bytes-like object, got '"
                         ++ type_name v ++ lit "'")
  end.

(** The dict [search] builds for one item of the response. *)
Definition search_item (self : WikipediaAgent) (item : json)
  : M SearchResult :=
  t <- lift (getitem item "title") ;;
  raw <- lift (get item "snippet" (JStr [])) ;;
  snippet <- lift (clean_html_value raw) ;;
  size <- lift (get item "size" (JInt 0)) ;;
  timestamp <- lift (get item "timestamp" (JStr [])) ;;
  match t with
  | JStr ts =>
      q <- lift (Urllib.quote ts) ;;
      ret (mk_SearchResult ts snippet size timestamp (wiki_url self q))
  | _ => lift (type_error (lit "quote_from_bytes() expected bytes"))
  end.

Definition search (self : WikipediaAgent) (query : str) (limit : Z)
  : M (list SearchResult) :=
  let params :=
    [(lit "action", PStr (lit "query"));
     (lit "format", PStr (lit "json"));
     (lit "list", PStr (lit "search"));
     (lit "srsearch", PStr query);
     (lit "srlimit", PInt limit);
     (lit "srprop", PStr (lit "snippet|titlesnippet|size|timestamp"))] in
  try_except
    (response <- requests_get (mk_request (api_url self) params (headers self)) ;;
     lift (raise_for_status response) ;;;
     data <- lift (response_json response) ;;
     query_v <- lift (get data "query" (JDict [])) ;;
     search_v <- lift (get query_v "search" (JList [])) ;;
     items <- lift (iter search_v) ;;
     for_each items []
       (fun item results =>
          r <- search_item self item ;; ret (results ++ [r])))
    is_request_exception
    (fun e => raise (mk_exn Exception (lit "Search failed: " ++ exn_msg e))).

(** The loop of [_get_page_links]: the titles of every page's links. *)
Fixpoint collect_links (pages : list json) (links : list json)
  : res (list json) :=
  match pages with
  | [] => Ok links
  | page_data :: rest =>
      match contains "links" page_data with
      | Raise e => Raise e
      | Ok false => collect_links rest links
      | Ok true =>
          match getitem page_data "links" with
          | Raise e => Raise e
          | Ok lv =>
              match iter lv with
              | Raise e => Raise e
              | Ok ls =>
                  match comprehension (fun link => getitem link "title") ls with
                  | Raise e => Raise e
                  | Ok ts => collect_links rest (links ++ ts)
                  end
              end
          end
      end
  end.

Definition _get_page_links (self : WikipediaAgent) (title : str) (limit : Z)
  : M (list json) :=
  try_except
    (let params :=
       [(lit "action", PStr (lit "query"));
        (lit "format", PStr (lit "json"));
        (lit "prop", PStr (lit "links"));
        (lit "titles", PStr title);
        (lit "pllimit", PInt limit);
        (lit "plnamespace", PInt 0)] in
     response <- requests_get (mk_request (api_url self) params (headers self)) ;;
     lift (raise_for_status response) ;;;
     data <- lift (response_json response) ;;
     query_v <- lift (get data "query" (JDict [])) ;;
     pages <- lift (get query_v "pages" (JDict [])) ;;
     page_list <- lift (values pages) ;;
     lift (collect_links page_list []))
    is_request_exception
    (fun _ => ret []).

(** The loop of [_get_page_categories]. *)
Fixpoint collect_categories (pages : list json) (cats : list str)
  : res (list str) :=
  match pages with
  | [] => Ok cats
  | page_data :: rest =>
      match contains "categories" page_data with
      | Raise e => Raise e
      | Ok false => collect_categories rest cats
      | Ok true =>
          match getitem page_data "categories" with
          | Raise e => Raise e
          | Ok cv =>
              match iter cv with
              | Raise e => Raise e
              | Ok cs =>
                  match comprehension
                          (fun cat =>
                             match getitem cat "title" with
                             | Raise e => Raise e
                             | Ok t => replace t (lit "Category:") []
                             end) cs with
                  | Raise e => Raise e
                  | Ok ts => collect_categories rest (cats ++ ts)
                  end
              end
          end
      end
  end.

Definition _get_page_categories (self : WikipediaAgent) (title : str)
  : M (list str) :=
  try_except
    (let params :=
       [(lit "action", PStr (lit "query"));
        (lit "format", PStr (lit "json"));
        (lit "prop", PStr (lit "categories"));
        (lit "titles", PStr title);
        (lit "cllimit", PInt 50)] in
     response <- requests_get (mk_request (api_url self) params (headers self)) ;;
     lift (raise_for_status response) ;;;
     data <- lift (response_json response) ;;
     query_v <- lift (get data "query" (JDict [])) ;;
     pages <- lift (get query_v "pages" (JDict [])) ;;
     page_list <- lift (values pages) ;;
     lift (collect_categories page_list []))
    is_request_exception
    (fun _ => ret []).

Definition get_page_links (self : WikipediaAgent) (title : str) (limit : Z)
  : M (list json) := _get_page_links self title limit.

Definition get_page_categories (self : WikipediaAgent) (title : str)
  : M (list str) := _get_page_categories self title.

(** The request of the primary content fetch, once the title is quoted. *)
Definition content_request (self : WikipediaAgent) (quoted : str) : request :=
  mk_request (base_url self ++ lit "/page/html/" ++ quoted) [] (headers self).

Definition summary_request (self : WikipediaAgent) (quoted : str) : request :=
  mk_request (base_url self ++ lit "/page/summary/" ++ quoted) [] (headers self).

Definition get_page (self : WikipediaAgent) (title : str)
           (include_links : bool) : M (option WikipediaPage) :=
  try_except
    (q <- lift (Urllib.quote title) ;;
     content_response <- requests_get (content_request self q) ;;
     if (status_code content_response =? 404)%Z then ret None
     else
       lift (raise_for_status content_response) ;;;
       let html_content := text content_response in
       q <- lift (Urllib.quote title) ;;
       summary_response <- requests_get (summary_request self q) ;;
       summary_data <-
         (if (status_code summary_response =? 200)%Z
          then lift (response_json summary_response)
          else ret (JDict [])) ;;
       let plain_text := _extract_text_from_html html_content in
       categories <- _get_page_categories self title ;;
       links <- (if include_links then _get_page_links self title 50
                 else ret []) ;;
       q <- lift (Urllib.quote title) ;;
       extract <- lift (get summary_data "extract" (JStr [])) ;;
       ret (Some (mk_WikipediaPage title plain_text (wiki_url self q)
                    extract categories links)))
    is_request_exception
    (fun e => raise (mk_exn Exception
                       (lit "Failed to retrieve page '" ++ title
                            ++ lit "': " ++ exn_msg e))).

(** The loop of [get_summary]: the extract of the first page whose id
    is not the sentinel "-1". *)
Fixpoint first_extract (pages : list (str * json)) : res (option json) :=
  match pages with
  | [] => Ok None
  | (page_id, page_data) :: rest =>
      if negb (str_eqb page_id (lit "-1"))
      then match get page_data "extract" (JStr []) with
           | Raise e => Raise e
           | Ok v => Ok (Some v)
           end
      else first_extract rest
  end.

Definition get_summary (self : WikipediaAgent) (title : str) (sentences : Z)
  : M (option json) :=
  try_except
    (let params :=
       [(lit "action", PStr (lit "query"));
        (lit "format", PStr (lit "json"));
        (lit "prop", PStr (lit "extracts"));
        (lit "exintro", PBool true);
        (lit "explaintext", PBool true);
        (lit "exsentences", PInt sentences);
        (lit "titles", PStr title)] in
     response <- requests_get (mk_request (api_url self) params (headers self)) ;;
     lift (raise_for_status response) ;;;
     data <- lift (response_json response) ;;
     query_v <- lift (get data "query" (JDict [])) ;;
     pages <- lift (get query_v "pages" (JDict [])) ;;
     page_items <- lift (items pages) ;;
     lift (first_extract page_items))
    is_request_exception
    (fun e => raise (mk_exn Exception
                       (lit "Failed to get summary for '" ++ title
                            ++ lit "': " ++ exn_msg e))).

(** *** The batch helpers *)

(** The body of the loop of [create_knowledge_base] for one topic. *)
Definition add_topic (agent : WikipediaAgent) (topic : str)
           (knowledge_base : list (str * WikipediaPage))
  : M (list (str * WikipediaPage)) :=
  try_except
    (page <- get_page agent topic true ;;
     match page with
     | Some p =>
         print (lit "Added: " ++ topic) ;;;
         ret (dict_set knowledge_base topic p)
     | None =>
         print (lit "Not found: " ++ topic) ;;;
         ret knowledge_base
     end)
    is_exception
    (fun e =>
       print (lit "Error with " ++ topic ++ lit ": " ++ exn_msg e) ;;;
       ret knowledge_base).

Definition create_knowledge_base (agent : WikipediaAgent) (topics : list str)
  : M (list (str * WikipediaPage)) :=
  for_each topics [] (add_topic agent).



End Wikipedia.

(** ** The python-pptx object tree

    The part of the library [PowerPointTool] drives: a presentation holds
    slide layouts and slides, a slide holds shapes, a text-bearing shape
    holds a text frame of paragraphs, a paragraph holds runs and line
    breaks.  Text assignment follows the library's documented contract:
    [TextFrame.text] starts a paragraph at every line feed and a line
    break at every vertical tab; [_Paragraph.text] turns line feeds and
    vertical tabs alike into line breaks; a line break reads back as a
    vertical tab; other control characters are stored escaped
    ("_x001B_"); text that XML cannot hold is refused. *)

Module Pptx.
Import Py.
Local Open Scope py_scope.

Inductive inline :=
| Run (t : str)   (* a:r *)
| Br.             (* a:br *)

Record paragraph := mk_paragraph {
  p_content : list inline;
  p_level : Z
}.

Definition text_frame := list paragraph.

Inductive ph_type := Title | CenterTitle | Subtitle | Body | Object | Pic.

Inductive shape :=
| Placeholder (idx : nat) (ty : ph_type) (tf : text_frame)
| TextBox (tf : text_frame)
| Picture.

Record slide := mk_slide { shapes : list shape }.

(** A layout, by the placeholders a new slide inherits from it. *)
Record slide_layout := mk_layout {
  layout_name : str;
  layout_placeholders : list (nat * ph_type)
}.

Record presentation := mk_presentation {
  slide_layouts : list slide_layout;
  slides : list slide
}.

(** The layouts of the template [Presentation()] opens. *)
Definition title_and_content : slide_layout :=
  mk_layout (lit "Title and Content") [(0, Title); (1, Object)].

Definition default_layouts : list slide_layout :=
  [ mk_layout (lit "Title Slide") [(0, CenterTitle); (1, Subtitle)];
    title_and_content;
    mk_layout (lit "Section Header") [(0, Title); (1, Body)];
    mk_layout (lit "Two Content") [(0, Title); (1, Object); (2, Object)];
    mk_layout (lit "Comparison")
      [(0, Title); (1, Body); (2, Object); (3, Body); (4, Object)];
    mk_layout (lit "Title Only") [(0, Title)];
    mk_layout (lit "Blank") [];
    mk_layout (lit "Content with Caption") [(0, Title); (1, Object); (2, Body)];
    mk_layout (lit "Picture with Caption") [(0, Title); (1, Pic); (2, Body)];
    mk_layout (lit "Title and Vertical Text") [(0, Title); (1, Body)];
    mk_layout (lit "Vertical Title and Text") [(0, Title); (1, Body)] ].

(** [Presentation()] *)
Definition new_presentation : presentation :=
  mk_presentation default_layouts [].

Definition empty_paragraph : paragraph := mk_paragraph [] 0.

(** *** Storing text *)

(** The class [[\x00-\x08\x0B-\x1F]] that a run escapes. *)
Definition is_ctrl (c : char) : bool :=
  ((c <=? 8) || (11 <=? c) && (c <=? 31))%N.

(** ["_x%04X_" % ord(c)] for a control character *)
Definition escape_char (c : char) : str :=
  lit "_x00" ++ [Urllib.hex_digit (c / 16); Urllib.hex_digit (c mod 16)]%N
      ++ lit "_".

Definition escape_ctrl_chars (s : str) : str :=
  flat_map (fun c => if is_ctrl c then escape_char c else [c]) s.

Definition is_noncharacter (c : char) : bool :=
  ((c =? 65534) || (c =? 65535) || (1114112 <=? c))%N.

(** What the XML layer accepts as element text. *)
Definition xml_text (s : str) : res str :=
  if existsb Urllib.is_surrogate s then
    Raise (mk_exn UnicodeEncodeError (lit "surrogates not allowed"))
  else if existsb is_noncharacter s then
    Raise (mk_exn ValueError
             (lit "All strings must be XML compatible: Unicode or ASCII, no NULL bytes or control characters"))
  else Ok s.

Definition is_nl (c : char) : bool := (c =? chr_nl)%N.
Definition is_nl_or_vt (c : char) : bool := ((c =? chr_nl) || (c =? chr_vt))%N.

(** [a:p.append_text]: the pieces between line feeds and vertical tabs
    become runs, with a line break between consecutive pieces.  A run
    is added before its text is set, so a refused text leaves an empty
    run behind. *)
Fixpoint append_pieces (first : bool) (pieces : list str)
  : M (list inline) unit :=
  match pieces with
  | [] => ret tt
  | piece :: rest =>
      fun content =>
        let content := if first then content else content ++ [Br] in
        match piece with
        | [] => append_pieces false rest content
        | _ =>
            match xml_text (escape_ctrl_chars piece) with
            | Ok t => append_pieces false rest (content ++ [Run t])
            | Raise e => (Raise e, content ++ [Run []])
            end
        end
  end.

Definition append_text (text : str) : M (list inline) unit :=
  append_pieces true (split_on is_nl_or_vt text).

Definition on_content (m : M (list inline) unit) : M paragraph unit :=
  zoom p_content (fun c p => mk_paragraph c (p_level p)) m.

(** [_Paragraph.text] *)
Definition inline_text (i : inline) : str :=
  match i with Run t => t | Br => [chr_vt] end.

Definition paragraph_text (p : paragraph) : str :=
  flat_map inline_text (p_content p).

(** [paragraph.text = text]: the content is replaced, the properties
    stay. *)
Definition set_paragraph_text (text : str) : M paragraph unit :=
  fun p => on_content (append_text text) (mk_paragraph [] (p_level p)).

(** The paragraph that holds [text] after [append_text] on an empty
    one. *)
Definition stored_paragraph (text : str) : paragraph :=
  snd (on_content (append_text text) empty_paragraph).

(** [paragraph.level = level] *)
Definition set_level (level : Z) : M paragraph unit :=
  fun p => (Ok tt, mk_paragraph (p_content p) level).

(** [TextFrame.text] *)
Definition frame_text (tf : text_frame) : str :=
  join [chr_nl] (map paragraph_text tf).

(** [text_frame.text = text]: one new paragraph per line. *)
Fixpoint add_lines (lines : list str) : M text_frame unit :=
  match lines with
  | [] => ret tt
  | line :: rest =>
      fun tf =>
        match on_content (append_text line) empty_paragraph with
        | (Ok _, p) => add_lines rest (tf ++ [p])
        | (Raise e, p) => (Raise e, tf ++ [p])
        end
  end.

Definition set_frame_text (text : str) : M text_frame unit :=
  fun _ => add_lines (split_on is_nl text) [].

(** [text_frame.clear()]: all paragraphs but the first go, and the
    first loses its content; a frame without paragraph has no first. *)
Definition clear : M text_frame unit :=
  fun tf =>
    match tf with
    | [] => (Raise (mk_exn IndexError (lit "tuple index out of range")), tf)
    | p :: _ => (Ok tt, [mk_paragraph [] (p_level p)])
    end.

(** *** Shapes and slides *)

(** The text frame of a shape that has one; [hasattr(shape, "text")]
    holds exactly for these. *)
Definition shape_frame (s : shape) : option text_frame :=
  match s with
  | Placeholder _ _ tf => Some tf
  | TextBox tf => Some tf
  | Picture => None
  end.

Definition with_frame (s : shape) (tf : text_frame) : shape :=
  match s with
  | Placeholder idx ty _ => Placeholder idx ty tf
  | TextBox _ => TextBox tf
  | Picture => Picture
  end.

(** [shape.text] *)
Definition shape_text (s : shape) : option str :=
  option_map frame_text (shape_frame s).

Definition ph_idx (s : shape) : option nat :=
  match s with Placeholder idx _ _ => Some idx | _ => None end.

(** The position, among the shapes of a slide, of the first
    placeholder whose idx is [idx]. *)
Fixpoint find_placeholder (idx : nat) (l : list shape) : option nat :=
  match l with
  | [] => None
  | s :: r =>
      match ph_idx s with
      | Some i => if Nat.eqb i idx then Some 0
                  else option_map S (find_placeholder idx r)
      | None => option_map S (find_placeholder idx r)
      end
  end.

(** [slides.add_slide(layout)]: the new slide carries one empty
    placeholder for each placeholder of the layout. *)
Definition new_slide (layout : slide_layout) : slide :=
  mk_slide (map (fun ph => Placeholder (fst ph) (snd ph) [empty_paragraph])
                (layout_placeholders layout)).

(** Replace the element at position [n]. *)
Fixpoint update {A} (n : nat) (x : A) (l : list A) : list A :=
  match l, n with
  | [], _ => []
  | _ :: r, O => x :: r
  | y :: r, S n' => y :: update n' x r
  end.

End Pptx.

(** ** [PowerPointTool] *)

Module PowerPointTool.
Import Py Pptx.
Local Open Scope py_scope.

(** What a path of the local file system holds: a presentation
    package, or something [Presentation(path)] cannot open. *)
Inductive file :=
| Package (p : presentation)
| NotAPackage.

(** The tool object ([self.prs]) with the files it can see and what it
    has printed. *)
Record state := mk_state {
  prs : presentation;
  files : list (str * file);
  printed : list str
}.

Local Abbreviation M := (Py.M state).

Definition print (line : str) : M unit :=
  fun st => (Ok tt, mk_state (prs st) (files st) (printed st ++ [line])).

Definition set_prs (p : presentation) : M unit :=
  fun st => (Ok tt, mk_state p (files st) (printed st)).

(** [PowerPointTool()] *)
Definition __init__ (fs : list (str * file)) : state :=
  mk_state new_presentation fs [].

Definition create_new_presentation : M unit := set_prs new_presentation.




(** *** Handles

    A slide is referred to by its position in the presentation, a
    shape by its position on its slide, a paragraph by its position
    in its text frame. *)

Definition put_slides (l : list slide) (st : state) : state :=
  mk_state (mk_presentation (slide_layouts (prs st)) l) (files st) (printed st).

Definition on_slide {A} (h : nat) (m : Py.M slide A) : M A :=
  zoom (fun st => nth h (slides (prs st)) (mk_slide []))
       (fun s st => put_slides (update h s (slides (prs st))) st) m.

Definition on_shape {A} (j : nat) (m : Py.M shape A) : Py.M slide A :=
  zoom (fun s => nth j (shapes s) Picture)
       (fun sh s => mk_slide (update j sh (shapes s))) m.

Definition on_frame {A} (m : Py.M text_frame A) : Py.M shape A :=
  zoom (fun sh => match shape_frame sh with Some tf => tf | None => [] end)
       (fun tf sh => with_frame sh tf) m.

Definition on_paragraph {A} (i : nat) (m : Py.M paragraph A)
  : Py.M text_frame A :=
  zoom (fun tf => nth i tf empty_paragraph) (fun p tf => update i p tf) m.

(** [self.prs.slide_layouts[i]] *)
Definition slide_layout_at (i : Z) : M slide_layout :=
  fun st => (list_index "slide layout" (slide_layouts (prs st)) i, st).

(** [self.prs.slides.add_slide(layout)] *)
Definition add_slide (layout : slide_layout) : M nat :=
  fun st =>
    (Ok (length (slides (prs st))),
     put_slides (slides (prs st) ++ [new_slide layout]) st).

(** [slide.shapes.title]: the placeholder with idx 0, or [None]. *)
Definition shapes_title (h : nat) : M (option nat) :=
  on_slide h (fun s => (Ok (find_placeholder 0 (shapes s)), s)).

(** [slide.placeholders[idx]] *)
Definition placeholder_at (h : nat) (idx : nat) (idx_text : string) : M nat :=
  on_slide h
    (fun s =>
       match find_placeholder idx (shapes s) with
       | Some j => (Ok j, s)
       | None =>
           (Raise (mk_exn KeyError
                     (lit "'no placeholder on this slide with idx == "
                          ++ lit idx_text ++ lit "'")), s)
       end).

(** [shape.text = text], where [shape] may be [None]. *)
Definition set_shape_text (h : nat) (shape : option nat) (text : str)
  : M unit :=
  match shape with
  | Some j => on_slide h (on_shape j (on_frame (set_frame_text text)))
  | None =>
      raise (mk_exn AttributeError
               (lit "'NoneType' object has no attribute 'text'"))
  end.

(** [text_frame.paragraphs[0]] *)
Definition first_paragraph : Py.M text_frame nat :=
  fun tf =>
    match tf with
    | [] => (Raise (mk_exn IndexError (lit "tuple index out of range")), tf)
    | _ => (Ok 0, tf)
    end.

(** [text_frame.add_paragraph()] *)
Definition add_paragraph : Py.M text_frame nat :=
  fun tf => (Ok (length tf), tf ++ [empty_paragraph]).

Definition add_title_slide (title subtitle : str) : M nat :=
  slide_layout <- slide_layout_at 0 ;;
  slide <- add_slide slide_layout ;;
  title_shape <- shapes_title slide ;;
  subtitle_shape <- placeholder_at slide 1 "1" ;;
  set_shape_text slide title_shape title ;;;
  set_shape_text slide (Some subtitle_shape) subtitle ;;;
  ret slide.

(** The body of the loop of [add_content_slide]. *)
Definition add_point (ip : nat * str) (_ : unit) : Py.M text_frame unit :=
  let (i, point) := ip in
  p <- (if Nat.eqb i 0 then first_paragraph else add_paragraph) ;;
  on_paragraph p (set_paragraph_text point) ;;;
  on_paragraph p (set_level 0).

(** [enumerate(xs)] *)
Definition enumerate {A} (xs : list A) : list (nat * A) :=
  combine (seq 0 (length xs)) xs.

Definition add_content_slide (title : str) (content_points : list str)
  : M nat :=
  slide_layout <- slide_layout_at 1 ;;
  slide <- add_slide slide_layout ;;
  title_shape <- shapes_title slide ;;
  content_shape <- placeholder_at slide 1 "1" ;;
  set_shape_text slide title_shape title ;;;
  on_slide slide
    (on_shape content_shape
       (on_frame
          (clear ;;;
           for_each (enumerate content_points) tt add_point))) ;;;
  ret slide.

Definition add_blank_slide : M nat :=
  slide_layout <- slide_layout_at 6 ;;
  add_slide slide_layout.


(** The texts of the shapes that have a [text] attribute. *)
Fixpoint shape_texts (l : list shape) : list str :=
  match l with
  | [] => []
  | s :: r => match shape_text s with
              | Some t => t :: shape_texts r
              | None => shape_texts r
              end
  end.

Definition out_of_range_message : str := lit "Slide index out of range".

Definition get_slide_text (slide_index : Z) : M str :=
  fun st =>
    if (Z.of_nat (length (slides (prs st))) <=? slide_index)%Z
    then (Ok out_of_range_message, st)
    else
      match list_index "slide" (slides (prs st)) slide_index with
      | Raise e => (Raise e, st)
      | Ok slide => (Ok (join [chr_nl] (shape_texts (shapes slide))), st)
      end.

Definition save_presentation (filename : str) : M unit :=
  fun st =>
    print (lit "Presentation saved as: " ++ filename)
      (mk_state (prs st) (dict_set (files st) filename (Package (prs st)))
                (printed st)).

End PowerPointTool.

(** ** What the claims speak of *)

(** [parts] occur in [text] one after the other, in this order. *)
Fixpoint occurs_in_order (parts : list str) (text : str) : Prop :=
  match parts with
  | [] => True
  | p :: ps => exists a b, text = a ++ p ++ b /\ occurs_in_order ps b
  end.

(** Text that python-pptx stores and returns unchanged: no control
    character that a run escapes, nothing XML refuses. *)
Definition stored_verbatim (c : char) : bool :=
  negb (Pptx.is_ctrl c) && negb (Urllib.is_surrogate c)
  && negb (Pptx.is_noncharacter c).

(** A title may also hold line feeds and vertical tabs. *)
Definition title_char (c : char) : bool :=
  stored_verbatim c || (c =? chr_vt)%N.

(** A point may hold vertical tabs, but no line feed. *)
Definition point_char (c : char) : bool :=
  title_char c && negb (c =? chr_nl)%N.


(** A remote source that answers from a script, one outcome per
    request, whatever is asked; past the script no connection is made. *)
Definition scripted (rq : Requests.request) (w : list Requests.outcome)
  : Requests.outcome * list Requests.outcome :=
  match w with
  | [] => (Requests.Fails (lit "connection refused"), [])
  | o :: w' => (o, w')
  end.


(** A computation that prints nothing. *)
Definition quiet {World A} (m : Py.M (wiki_state World) A) : Prop :=
  forall st, stdout (snd (m st)) = stdout st.

(** The agent and the responses of the examples. *)
Definition en_agent : WikipediaAgent :=
  __init__ (lit "en") (lit "WikipediaAgent/1.0").

Definition html_response (status : Z) (body : str) : Requests.response :=
  Requests.mk_response status body (inl (lit "Expecting value")) (lit "HTTP error").

Definition json_response (v : Py.json) : Requests.response :=
  Requests.mk_response 200 [] (inr v) [].

Definition search_response : Requests.response :=
  json_response
    (Py.JDict
       [(lit "query",
         Py.JDict
           [(lit "search",
             Py.JList
               [Py.JDict [(lit "title", Py.JStr (lit "Alan Turing"));
                          (lit "snippet", Py.JStr (lit "<b>Alan</b> Turing"))]])])]).

Definition summary_response : Requests.response :=
  json_response
    (Py.JDict
       [(lit "query",
         Py.JDict
           [(lit "pages",
             Py.JDict
               [(lit "1208",
                 Py.JDict [(lit "extract",
                            Py.JStr (lit "Alan Turing was a mathematician."))])])])]).

Definition page_summary_response : Requests.response :=
  json_response
    (Py.JDict [(lit "extract", Py.JStr (lit "Alan Turing was a mathematician."))]).

Definition categories_response : Requests.response :=
  json_response
    (Py.JDict
       [(lit "query",
         Py.JDict
           [(lit "pages",
             Py.JDict
               [(lit "1208",
                 Py.JDict
                   [(lit "categories",
                     Py.JList
                       [Py.JDict [(lit "title",
                                   Py.JStr (lit "Category:1912 births"))]])])])])]).

Definition links_response : Requests.response :=
  json_response
    (Py.JDict
       [(lit "query",
         Py.JDict
           [(lit "pages",
             Py.JDict
               [(lit "1208",
                 Py.JDict
                   [(lit "links",
                     Py.JList
                       [Py.JDict [(lit "title", Py.JStr (lit "Enigma machine"))]])])])])]).

Definition start (script : list Requests.outcome)
  : wiki_state (list Requests.outcome) :=
  mk_wiki_state script [].

Definition turing_page : WikipediaPage :=
  mk_WikipediaPage (lit "Alan Turing") (lit "Alan Turing")
    (lit "https://en.wikipedia.org/wiki/Alan%20Turing")
    (Py.JStr (lit "Alan Turing was a mathematician."))
    [lit "1912 births"] [Py.JStr (lit "Enigma machine")].


Definition turing_result : SearchResult :=
  mk_SearchResult (lit "Alan Turing") (lit "Alan Turing") (Py.JInt 0)
    (Py.JStr []) (lit "https://en.wikipedia.org/wiki/Alan%20Turing").


(** The tool of the examples: just constructed, no file in sight. *)
Definition fresh : PowerPointTool.state := PowerPointTool.__init__ [].

(** The point "a", line feed, "b". *)
Definition two_line_point : str := [97; 10; 98]%N.

Definition after_two_line_point : PowerPointTool.state :=
  snd (PowerPointTool.add_content_slide (lit "T") [two_line_point] fresh).


(** ** The requests the methods send *)

(** The query [search] sends. *)
Definition search_request (self : WikipediaAgent) (query : str) (limit : Z)
  : Requests.request :=
  Requests.mk_request (api_url self)
    [(lit "action", Requests.PStr (lit "query"));
     (lit "format", Requests.PStr (lit "json"));
     (lit "list", Requests.PStr (lit "search"));
     (lit "srsearch", Requests.PStr query);
     (lit "srlimit", Requests.PInt limit);
     (lit "srprop", Requests.PStr (lit "snippet|titlesnippet|size|timestamp"))]
    (headers self).

(** The query [get_summary] sends. *)
Definition extract_request (self : WikipediaAgent) (t : str) (sentences : Z)
  : Requests.request :=
  Requests.mk_request (api_url self)
    [(lit "action", Requests.PStr (lit "query"));
     (lit "format", Requests.PStr (lit "json"));
     (lit "prop", Requests.PStr (lit "extracts"));
     (lit "exintro", Requests.PBool true);
     (lit "explaintext", Requests.PBool true);
     (lit "exsentences", Requests.PInt sentences);
     (lit "titles", Requests.PStr t)]
    (headers self).

(** The query [_get_page_links] sends. *)
Definition links_request (self : WikipediaAgent) (t : str) (limit : Z)
  : Requests.request :=
  Requests.mk_request (api_url self)
    [(lit "action", Requests.PStr (lit "query"));
     (lit "format", Requests.PStr (lit "json"));
     (lit "prop", Requests.PStr (lit "links"));
     (lit "titles", Requests.PStr t);
     (lit "pllimit", Requests.PInt limit);
     (lit "plnamespace", Requests.PInt 0)]
    (headers self).

(** The query [_get_page_categories] sends. *)
Definition categories_request (self : WikipediaAgent) (t : str)
  : Requests.request :=
  Requests.mk_request (api_url self)
    [(lit "action", Requests.PStr (lit "query"));
     (lit "format", Requests.PStr (lit "json"));
     (lit "prop", Requests.PStr (lit "categories"));
     (lit "titles", Requests.PStr t);
     (lit "cllimit", Requests.PInt 50)]
    (headers self).

(** A status for which [raise_for_status] raises. *)
Definition error_status (status : Z) : Prop := (400 <= status < 600)%Z.

(** The url of a search result is the page address of its title, and its
    snippet went through [_clean_html]. *)
Definition result_well_formed (self : WikipediaAgent) (r : SearchResult)
  : Prop :=
  (exists q, Urllib.quote (sr_title r) = Py.Ok q /\ sr_url r = wiki_url self q)
  /\ exists raw, sr_snippet r = _clean_html raw.

(** The page stored under a topic is the page of that topic. *)
Definition entry_well_formed (agent : WikipediaAgent)
           (entry : str * WikipediaPage) : Prop :=
  title (snd entry) = fst entry
  /\ exists q, Urllib.quote (fst entry) = Py.Ok q
               /\ url (snd entry) = wiki_url agent q.

(** What holds of the dict of [create_knowledge_base] all along: no topic
    twice, every page under its own topic. *)
Definition kb_invariant (agent : WikipediaAgent)
           (kb : list (str * WikipediaPage)) : Prop :=
  NoDup (map fst kb) /\ Forall (entry_well_formed agent) kb.


(** The request [rq], sent to the source in state [w0], fails with
    [cause] and leaves the source in state [w]: the transport raises, or
    the answer has an error status. *)
Definition request_fails {World}
           (http_get : Requests.request -> World -> Requests.outcome * World)
           (rq : Requests.request) (w0 : World) (cause : str) (w : World)
  : Prop :=
  http_get rq w0 = (Requests.Fails cause, w)
  \/ exists r, http_get rq w0 = (Requests.Responds r, w)
               /\ error_status (Requests.status_code r)
               /\ Requests.http_error_msg r = cause.

(** The page id by which the source says that a page does not exist. *)
Definition is_sentinel (entry : str * Py.json) : Prop := fst entry = lit "-1".

(** Every whitespace character of [t] is a space. *)
Definition only_spaces (t : str) : Prop :=
  forall c, In c t -> Unicode.isspace c = true -> c = chr_space.

(** A source that cannot be reached, and one that is down. *)
Definition unreachable : wiki_state (list Requests.outcome) :=
  start [Requests.Fails (lit "Read timed out")].

Definition unavailable : wiki_state (list Requests.outcome) :=
  start [Requests.Responds (html_response 503 (lit "Service Unavailable"))].

(** The answer for a title the source does not know. *)
Definition missing_page_response : Requests.response :=
  json_response
    (Py.JDict
       [(lit "query",
         Py.JDict
           [(lit "pages",
             Py.JDict
               [(lit "-1", Py.JDict [(lit "title", Py.JStr (lit "Nosuch"))])])])]).

(** ** More of [PowerPointTool] *)

Module PowerPointMore.
Import Py Pptx PowerPointTool.

(** [str(n)] for a natural number *)
Definition decimal (n : nat) : str :=
  lit (NilEmpty.string_of_uint (Nat.to_uint n)).

(** [f"Slide {i+1}"] *)
Definition slide_label (i : nat) : str := lit "Slide " ++ decimal (i + 1).

(** The inner loop of [extract_all_text]: the texts of the shapes that
    have a text, and one that is not blank. *)
Fixpoint nonblank_texts (l : list shape) : list str :=
  match l with
  | [] => []
  | s :: r =>
      match shape_text s with
      | Some t => match Re.strip t with
                  | [] => nonblank_texts r
                  | _ => t :: nonblank_texts r
                  end
      | None => nonblank_texts r
      end
  end.

(** The outer loop of [extract_all_text] over [enumerate(slides)]. *)
Fixpoint collect_texts (numbered : list (nat * slide))
         (all_text : list (str * list str)) : list (str * list str) :=
  match numbered with
  | [] => all_text
  | (i, s) :: r =>
      collect_texts r
        (dict_set all_text (slide_label i) (nonblank_texts (shapes s)))
  end.

Definition extract_all_text : Py.M state (list (str * list str)) :=
  fun st => (Ok (collect_texts (enumerate (slides (prs st))) []), st).

End PowerPointMore.

(** The layout of the template's title slide. *)
Definition title_slide_layout : Pptx.slide_layout :=
  Pptx.mk_layout (lit "Title Slide") [(0, Pptx.CenterTitle); (1, Pptx.Subtitle)].

(** What [get_slide_text] returns for a slide. *)
Definition slide_text (s : Pptx.slide) : str :=
  Py.join [chr_nl] (PowerPointTool.shape_texts (Pptx.shapes s)).

(** [st'] differs from [st] at most by one slide added at the end. *)
Definition at_most_one_slide_added (st st' : PowerPointTool.state) : Prop :=
  PowerPointTool.files st' = PowerPointTool.files st
  /\ PowerPointTool.printed st' = PowerPointTool.printed st
  /\ Pptx.slide_layouts (PowerPointTool.prs st')
     = Pptx.slide_layouts (PowerPointTool.prs st)
  /\ (Pptx.slides (PowerPointTool.prs st') = Pptx.slides (PowerPointTool.prs st)
      \/ exists s, Pptx.slides (PowerPointTool.prs st')
                   = Pptx.slides (PowerPointTool.prs st) ++ [s]).

(** [st'] is [st] with exactly one slide added at the end. *)
Definition one_slide_added (st st' : PowerPointTool.state) : Prop :=
  PowerPointTool.files st' = PowerPointTool.files st
  /\ PowerPointTool.printed st' = PowerPointTool.printed st
  /\ Pptx.slide_layouts (PowerPointTool.prs st')
     = Pptx.slide_layouts (PowerPointTool.prs st)
  /\ exists s, Pptx.slides (PowerPointTool.prs st')
               = Pptx.slides (PowerPointTool.prs st) ++ [s].

(** A step that keeps [P] of the tool, whether it returns or raises. *)
Definition keeps {A} (P : PowerPointTool.state -> Prop)
           (m : Py.M PowerPointTool.state A) : Prop :=
  forall st, P st -> P (snd (m st)).

(** The entry of [extract_all_text] for the slide at position [i]. *)
Definition text_entry (numbered : nat * Pptx.slide) : str * list str :=
  (PowerPointMore.slide_label (fst numbered),
   PowerPointMore.nonblank_texts (Pptx.shapes (snd numbered))).

(** A step that can return nothing but [v]. *)
Definition returns_only {A} (v : A) (m : Py.M PowerPointTool.state A) : Prop :=
  forall st a, fst (m st) = Py.Ok a -> a = v.

(** [not text.strip()] *)
Definition blank (t : str) : bool :=
  match Re.strip t with [] => true | _ => false end.

(** A layout without the placeholder [1] that the title slide needs. *)
Definition title_only_layout : Pptx.slide_layout :=
  Pptx.mk_layout (lit "Title Only") [(0, Pptx.Title)].

(** A tool whose presentation has only "Title Only" layouts. *)
Definition title_only_tool : PowerPointTool.state :=
  PowerPointTool.mk_state
    (Pptx.mk_presentation [title_only_layout; title_only_layout] []) [] [].

(** A tool whose presentation has no layout at all. *)
Definition no_layouts : PowerPointTool.state :=
  PowerPointTool.mk_state (Pptx.mk_presentation [] []) [] [].

(** The fresh tool after [add_title_slide("Hi", "there")]. *)
Definition titled : PowerPointTool.state :=
  snd (PowerPointTool.add_title_slide (lit "Hi") (lit "there") fresh).

Definition hi_there : str := lit "Hi" ++ chr_nl :: lit "there".

(** * Facts about the scan *)

Module ReFacts.
Import Re.

Section Generic.
Variable m : str -> option nat.
Variable repl : str.

Lemma scan_skip (n : nat) (s : str) :
  scan m repl n s = sub m repl (skipn n s).
Proof.
  revert n; induction s as [|c r IH]; intros [|n]; simpl; auto.
Qed.

Lemma sub_nil : sub m repl [] = [].
Proof. reflexivity. Qed.

Lemma sub_cons (c : char) (r : str) :
  sub m repl (c :: r) =
  match m (c :: r) with
  | Some (S k) => repl ++ sub m repl (skipn k r)
  | _ => c :: sub m repl r
  end.
Proof.
  unfold sub at 1; simpl.
  destruct (m (c :: r)) as [[|k]|]; auto.
  now rewrite scan_skip.
Qed.

Lemma sub_hit c r k :
  m (c :: r) = Some (S k) ->
  sub m repl (c :: r) = repl ++ sub m repl (skipn k r).
Proof. intros H; now rewrite sub_cons, H. Qed.

Lemma sub_miss c r :
  matches m (c :: r) = false ->
  sub m repl (c :: r) = c :: sub m repl r.
Proof.
  unfold matches; intros H; rewrite sub_cons.
  destruct (m (c :: r)) as [[|k]|]; auto; discriminate.
Qed.

Lemma nomatch_cons c r :
  nomatch m (c :: r) = negb (matches m (c :: r)) && nomatch m r.
Proof.
  unfold matches; simpl; destruct (m (c :: r)) as [[|k]|]; auto.
Qed.

Lemma nomatch_skipn k s : nomatch m s = true -> nomatch m (skipn k s) = true.
Proof.
  revert s; induction k as [|k IH]; intros [|c r]; simpl skipn; auto.
  rewrite nomatch_cons; intros H; apply andb_prop in H; apply IH, H.
Qed.

(** The scan, by cases on what the matcher finds at the head. *)
Lemma sub_ind (P : str -> str -> Prop) :
  P [] [] ->
  (forall c r k, m (c :: r) = Some (S k) ->
                 P (skipn k r) (sub m repl (skipn k r)) ->
                 P (c :: r) (repl ++ sub m repl (skipn k r))) ->
  (forall c r, matches m (c :: r) = false ->
               P r (sub m repl r) -> P (c :: r) (c :: sub m repl r)) ->
  forall s, P s (sub m repl s).
Proof.
  intros Hnil Hhit Hmiss s.
  remember (length s) as n eqn:Hn.
  revert s Hn; induction n as [n IH] using lt_wf_ind; intros [|c r] Hn.
  - exact Hnil.
  - simpl in Hn.
    destruct (m (c :: r)) as [[|k]|] eqn:E.
    + rewrite sub_miss by (unfold matches; now rewrite E).
      apply Hmiss; [unfold matches; now rewrite E|].
      apply (IH (length r)); [lia | reflexivity].
    + rewrite (sub_hit _ _ _ E). apply Hhit; auto.
      apply (IH (length (skipn k r))); [|reflexivity].
      rewrite length_skipn; lia.
    + rewrite sub_miss by (unfold matches; now rewrite E).
      apply Hmiss; [unfold matches; now rewrite E|].
      apply (IH (length r)); [lia | reflexivity].
Qed.

Lemma sub_nomatch s : nomatch m s = true -> sub m repl s = s.
Proof.
  induction s as [|c r IH]; auto.
  rewrite nomatch_cons; intros H; apply andb_prop in H; destruct H as [H1 H2].
  rewrite sub_miss by (now apply negb_true_iff).
  now rewrite IH.
Qed.

Lemma In_skipn (x : char) k (s : str) : In x (skipn k s) -> In x s.
Proof.
  intros H; rewrite <- (firstn_skipn k s); apply in_or_app; now right.
Qed.

(** The scan invents no character: what it emits was in the input or
    in the replacement. *)
Lemma sub_In x s : In x (sub m repl s) -> In x s \/ In x repl.
Proof.
  revert x; pattern s, (sub m repl s); apply sub_ind; clear s.
  - intros x [].
  - intros c r k _ IH x Hx. apply in_app_or in Hx as [Hx|Hx]; auto.
    destruct (IH x Hx) as [H|H]; auto. left; right; eapply In_skipn; eauto.
  - intros c r _ IH x [Hx|Hx]; [left; now left|].
    destruct (IH x Hx); auto. left; now right.
Qed.

Lemma nomatch_app_l a b :
  stable m -> nomatch m (a ++ b) = true -> nomatch m a = true.
Proof.
  intros Hst; induction a as [|c a IH]; auto.
  change ((c :: a) ++ b) with (c :: (a ++ b)).
  rewrite !nomatch_cons; intros H; apply andb_prop in H; destruct H as [H1 H2].
  apply andb_true_intro; split; auto.
  apply negb_true_iff. apply negb_true_iff in H1.
  destruct (matches m (c :: a)) eqn:E; auto.
  apply (Hst _ b) in E. simpl app in E. congruence.
Qed.

Lemma nomatch_app_r a b : nomatch m (a ++ b) = true -> nomatch m b = true.
Proof.
  intros H. apply (nomatch_skipn (length a)) in H.
  now rewrite skipn_app, skipn_all, Nat.sub_diag in H.
Qed.
End Generic.

(** ** Runs *)

Lemma span_le p s : span p s <= length s.
Proof.
  induction s as [|a s IH]; simpl; [lia | destruct (p a); simpl; lia].
Qed.

Lemma span_all p s : forallb p s = true -> span p s = length s.
Proof.
  induction s as [|c r IH]; simpl; auto.
  intros H; apply andb_prop in H as [H1 H2]. now rewrite H1, IH.
Qed.

Lemma span_app p body g rest :
  forallb p body = true -> p g = false ->
  span p (body ++ g :: rest) = length body.
Proof.
  intros Hb Hg; induction body as [|c r IH]; simpl.
  - now rewrite Hg.
  - simpl in Hb; apply andb_prop in Hb as [H1 H2]. now rewrite H1, IH.
Qed.

Lemma span_split p s :
  s = firstn (span p s) s ++ skipn (span p s) s /\
  forallb p (firstn (span p s) s) = true /\
  match skipn (span p s) s with g :: _ => p g = false | [] => True end.
Proof.
  induction s as [|c r (IH1 & IH2 & IH3)]; simpl; auto.
  destruct (p c) eqn:E; simpl.
  - rewrite E; simpl. repeat split; auto. now rewrite <- IH1.
  - auto.
Qed.

Lemma run_then_Some p close r k :
  run_then p close r = Some k ->
  exists body rest,
    r = body ++ close :: rest /\ body <> [] /\
    forallb p body = true /\ p close = false /\ k = S (S (length body)).
Proof.
  unfold run_then.
  destruct (span_split p r) as (H1 & H2 & H3).
  destruct (span p r) as [|n] eqn:En; [discriminate|].
  destruct (skipn (S n) r) as [|g t] eqn:Es; [discriminate|].
  destruct (N.eqb_spec g close) as [->|]; [|discriminate].
  intros [= <-].
  exists (firstn (S n) r), t. repeat split; auto.
  - intros E0. apply (f_equal (@length _)) in E0.
    rewrite length_firstn in E0. simpl length in E0.
    pose proof (span_le p r). lia.
  - rewrite length_firstn. pose proof (span_le p r). lia.
Qed.

Lemma run_then_intro p close body rest :
  p close = false -> body <> [] -> forallb p body = true ->
  run_then p close (body ++ close :: rest) = Some (S (S (length body))).
Proof.
  intros Hc Hne Hb. unfold run_then.
  rewrite (span_app _ _ _ _ Hb Hc). cbv zeta.
  destruct body as [|c b]; [congruence|]. simpl.
  rewrite skipn_app, skipn_all, Nat.sub_diag. simpl.
  now rewrite N.eqb_refl.
Qed.

Lemma skipn_body (body : str) g rest :
  skipn (S (length body)) (body ++ g :: rest) = rest.
Proof.
  induction body; simpl; auto.
Qed.

(** ** The tag pattern *)

Lemma span_not_gt r :
  match skipn (span not_gt r) r with
  | g :: _ => (g =? chr_gt)%N
  | [] => false
  end = existsb (N.eqb chr_gt) r.
Proof.
  induction r as [|d r IH]; [reflexivity|].
  cbn [span existsb]. unfold not_gt at 1.
  destruct (N.eqb_spec d chr_gt) as [->|Hne].
  - reflexivity.
  - assert (E : (chr_gt =? d)%N = false) by (apply N.eqb_neq; congruence).
    rewrite E. cbn [negb skipn orb]. exact IH.
Qed.

Lemma matches_tag c r : matches match_tag (c :: r) = tag_at c r.
Proof.
  unfold matches, match_tag, tag_at.
  destruct (c =? chr_lt)%N; [|reflexivity].
  unfold run_then.
  destruct r as [|d r]; [reflexivity|].
  cbn [span existsb].
  destruct (N.eqb_spec d chr_gt) as [->|Hne]; [reflexivity|].
  assert (Hd : not_gt d = true)
    by (unfold not_gt; apply negb_true_iff, N.eqb_neq; auto).
  assert (E : (chr_gt =? d)%N = false) by (apply N.eqb_neq; congruence).
  rewrite Hd, E. cbn [negb skipn orb andb].
  rewrite <- span_not_gt.
  destruct (skipn (span not_gt r) r) as [|g t]; auto.
  destruct (g =? chr_gt)%N; auto.
Qed.

Lemma stable_tag : stable match_tag.
Proof.
  intros [|c a] b; [discriminate|].
  simpl app. rewrite !matches_tag. unfold tag_at.
  intros H. apply andb_prop in H as [H H3]. apply andb_prop in H as [H1 H2].
  apply andb_true_intro; split; [apply andb_true_intro; split|]; auto.
  - destruct a as [|d a]; [discriminate|]. exact H2.
  - rewrite existsb_app. apply orb_true_intro; left; exact H3.
Qed.

(** ** Tag-free text *)

Lemma tag_free_cons c r : tag_free (c :: r) = negb (tag_at c r) && tag_free r.
Proof. unfold tag_free. now rewrite nomatch_cons, matches_tag. Qed.

Lemma existsb_gt_In (s : str) :
  existsb (N.eqb chr_gt) s = true <-> In chr_gt s.
Proof.
  rewrite existsb_exists; split.
  - intros (x & Hx & E). apply N.eqb_eq in E. now subst.
  - intros H. exists chr_gt; split; auto.
Qed.

Section Preserve.
Variable m : str -> option nat.
Variable repl : str.
Hypothesis m_gt : forall r, matches m (chr_gt :: r) = false.
Hypothesis repl_gt : ~ In chr_gt repl.

(** Dropping matches that do not begin at a '>' and inserting text
    without '>' cannot complete a tag span. *)
Lemma tag_at_sub c r :
  tag_at c r = false -> tag_at c (sub m repl r) = false.
Proof.
  unfold tag_at. destruct (c =? chr_lt)%N; [|reflexivity].
  cbn [andb]. intros H. apply andb_false_iff in H as [H|H].
  - destruct r as [|d r]; [reflexivity|].
    apply negb_false_iff in H. apply N.eqb_eq in H; subst d.
    rewrite sub_miss by apply m_gt. reflexivity.
  - apply andb_false_iff; right.
    destruct (existsb (N.eqb chr_gt) (sub m repl r)) eqn:E; [|reflexivity].
    apply existsb_gt_In in E. apply sub_In in E as [E|E]; [|contradiction].
    apply existsb_gt_In in E. congruence.
Qed.
End Preserve.

Lemma matches_tag_gt r : matches match_tag (chr_gt :: r) = false.
Proof. reflexivity. Qed.

Lemma tag_free_strip_tags s : tag_free (strip_tags s) = true.
Proof.
  unfold strip_tags. pattern s, (sub match_tag [] s); apply sub_ind; clear s.
  - reflexivity.
  - intros c r k _ IH. exact IH.
  - intros c r Hm IH. rewrite tag_free_cons, IH, andb_true_r.
    apply negb_true_iff.
    apply (tag_at_sub match_tag [] matches_tag_gt (fun H => H)).
    now rewrite <- matches_tag.
Qed.

Lemma tag_free_app_l (a b : str) :
  ~ In chr_lt a -> tag_free b = true -> tag_free (a ++ b) = true.
Proof.
  intros Ha Hb; induction a as [|c a IH]; [exact Hb|].
  simpl app. rewrite tag_free_cons, IH by (intros H; apply Ha; now right).
  rewrite andb_true_r. unfold tag_at.
  destruct (N.eqb_spec c chr_lt) as [->|]; [|reflexivity].
  exfalso; apply Ha; now left.
Qed.

(** A substitution that neither matches at a '>' nor inserts an angle
    bracket keeps tag-free text tag-free. *)
Lemma tag_free_sub m repl s :
  (forall r, matches m (chr_gt :: r) = false) ->
  ~ In chr_lt repl -> ~ In chr_gt repl ->
  tag_free s = true -> tag_free (sub m repl s) = true.
Proof.
  intros Hm Hlt Hgt.
  pattern s, (sub m repl s); apply sub_ind; clear s.
  - auto.
  - intros c r k _ IH H. apply tag_free_app_l; auto. apply IH.
    rewrite tag_free_cons in H. apply andb_prop in H as [_ H].
    now apply nomatch_skipn.
  - intros c r _ IH H. rewrite tag_free_cons in H |- *.
    apply andb_prop in H as [H1 H2]. rewrite (IH H2), andb_true_r.
    apply negb_true_iff. apply tag_at_sub; auto. now apply negb_true_iff.
Qed.

(** ** Trimming *)

Lemma lstrip_split s :
  exists a, s = a ++ lstrip s /\ forallb Unicode.isspace a = true.
Proof.
  induction s as [|c r (a & E & Ha)]; [now exists []|].
  simpl. destruct (Unicode.isspace c) eqn:Ec.
  - exists (c :: a); simpl; rewrite Ec, Ha. split; auto. now rewrite <- E.
  - now exists [].
Qed.

Lemma forallb_rev_true (p : char -> bool) (a : str) :
  forallb p a = true -> forallb p (rev a) = true.
Proof.
  rewrite !forallb_forall. intros H x Hx. apply H. now apply in_rev.
Qed.

Lemma rstrip_split s :
  exists b, s = rstrip s ++ b /\ forallb Unicode.isspace b = true.
Proof.
  unfold rstrip. destruct (lstrip_split (rev s)) as (a & E & Ha).
  exists (rev a); split.
  - rewrite <- rev_app_distr, <- E. now rewrite rev_involutive.
  - now apply forallb_rev_true.
Qed.

Lemma strip_split s :
  exists a b, s = a ++ strip s ++ b
              /\ forallb Unicode.isspace a = true
              /\ forallb Unicode.isspace b = true.
Proof.
  unfold strip. destruct (lstrip_split s) as (a & Ea & Ha).
  destruct (rstrip_split (lstrip s)) as (b & Eb & Hb).
  exists a, b; repeat split; auto. now rewrite <- Eb.
Qed.

Lemma nomatch_strip m s :
  stable m -> nomatch m s = true -> nomatch m (strip s) = true.
Proof.
  intros Hst H. destruct (strip_split s) as (a & b & E & _).
  rewrite E in H. apply nomatch_app_r in H. now apply nomatch_app_l in H.
Qed.

Lemma lstrip_head s : head_nonspace (lstrip s).
Proof.
  induction s as [|c r IH]; simpl; auto.
  destruct (Unicode.isspace c) eqn:E; simpl; auto.
Qed.

Lemma lstrip_id s : head_nonspace s -> lstrip s = s.
Proof. destruct s as [|c r]; simpl; auto. now intros ->. Qed.



Lemma rstrip_head s : head_nonspace s -> head_nonspace (rstrip s).
Proof.
  destruct (rstrip_split s) as (b & E & _).
  destruct (rstrip s) as [|c t]; simpl; auto.
  rewrite E; simpl; auto.
Qed.


(** ** Whitespace runs *)

Lemma matches_ws c r : matches match_ws (c :: r) = Unicode.isspace c.
Proof.
  unfold matches, match_ws; cbn [span]. now destruct (Unicode.isspace c).
Qed.

Lemma match_ws_hit c r k :
  match_ws (c :: r) = Some (S k) ->
  Unicode.isspace c = true /\ k = span Unicode.isspace r.
Proof.
  unfold match_ws; cbn [span]. destruct (Unicode.isspace c); [|discriminate].
  now intros [= <-].
Qed.

Lemma span_rest_head r : head_nonspace (skipn (span Unicode.isspace r) r).
Proof.
  destruct (span_split Unicode.isspace r) as (_ & _ & H).
  unfold head_nonspace. now destruct (skipn (span Unicode.isspace r) r).
Qed.

Lemma collapse_head s : head_nonspace s -> head_nonspace (collapse_ws s).
Proof.
  destruct s as [|c r]; [auto|]. simpl; intros H.
  unfold collapse_ws. rewrite sub_miss by now rewrite matches_ws. exact H.
Qed.

Lemma ws_normal_cons c r :
  ws_normal (c :: r) =
  (if Unicode.isspace c
   then (c =? chr_space)%N
        && match r with d :: _ => negb (Unicode.isspace d) | [] => true end
   else true) && ws_normal r.
Proof. reflexivity. Qed.

Lemma head_nonspace_b r :
  head_nonspace r ->
  match r with d :: _ => negb (Unicode.isspace d) | [] => true end = true.
Proof. destruct r; simpl; auto. now intros ->. Qed.

Lemma ws_normal_collapse s : ws_normal (collapse_ws s) = true.
Proof.
  unfold collapse_ws.
  pattern s, (sub match_ws [chr_space] s); apply sub_ind; clear s.
  - reflexivity.
  - intros c r k Hm IH. apply match_ws_hit in Hm as [_ ->].
    cbn [app]. rewrite ws_normal_cons, IH, andb_true_r.
    change (Unicode.isspace chr_space) with true. cbn iota.
    rewrite N.eqb_refl. cbn [andb].
    apply head_nonspace_b. apply collapse_head, span_rest_head.
  - intros c r Hm IH. rewrite matches_ws in Hm.
    now rewrite ws_normal_cons, Hm, IH.
Qed.

Lemma collapse_id s : ws_normal s = true -> collapse_ws s = s.
Proof.
  unfold collapse_ws. induction s as [|c r IH]; [reflexivity|].
  rewrite ws_normal_cons. intros H; apply andb_prop in H as [H1 H2].
  destruct (Unicode.isspace c) eqn:Ec.
  - apply andb_prop in H1 as [Hc Hr]. apply N.eqb_eq in Hc; subst c.
    assert (Hs : span Unicode.isspace r = 0).
    { destruct r as [|d r]; [reflexivity|]. cbn [span].
      apply negb_true_iff in Hr. now rewrite Hr. }
    assert (Hm : match_ws (chr_space :: r) = Some 1).
    { unfold match_ws. cbn [span]. rewrite Ec, Hs. reflexivity. }
    rewrite (sub_hit _ _ _ _ _ Hm). cbn [skipn app]. now rewrite IH.
  - rewrite sub_miss by now rewrite matches_ws. now rewrite IH.
Qed.




(** ** Reference markers and literals *)

Lemma decimal_rbracket : Unicode.isdecimal chr_rbracket = false.
Proof. reflexivity. Qed.




Lemma matches_ref_gt r : matches match_ref (chr_gt :: r) = false.
Proof. reflexivity. Qed.


Lemma decode_entities_id s : entity_free s = true -> decode_entities s = s.
Proof.
  unfold entity_free, decode_entities, replace. intros H.
  apply andb_prop in H as [H H4]. apply andb_prop in H as [H H3].
  apply andb_prop in H as [H1 H2].
  rewrite (sub_nomatch _ _ _ H1), (sub_nomatch _ _ _ H2),
    (sub_nomatch _ _ _ H3), (sub_nomatch _ _ _ H4). reflexivity.
Qed.

(** ** The cleaners, step by step *)

Lemma tag_free_collapse s : tag_free s = true -> tag_free (collapse_ws s) = true.
Proof.
  apply tag_free_sub.
  - intros r. now rewrite matches_ws.
  - intros [H|[]]; discriminate.
  - intros [H|[]]; discriminate.
Qed.

Lemma tag_free_remove_refs s : tag_free s = true -> tag_free (remove_refs s) = true.
Proof.
  apply tag_free_sub; auto using matches_ref_gt.
Qed.

Lemma tag_free_strip s : tag_free s = true -> tag_free (strip s) = true.
Proof. apply nomatch_strip; apply stable_tag. Qed.

Lemma strip_tags_id s : tag_free s = true -> strip_tags s = s.
Proof. apply sub_nomatch. Qed.

Lemma remove_refs_id s : ref_free s = true -> remove_refs s = s.
Proof. apply sub_nomatch. Qed.

Lemma tag_free_extract s : tag_free (_extract_text_from_html s) = true.
Proof.
  unfold _extract_text_from_html.
  apply tag_free_strip, tag_free_remove_refs, tag_free_collapse,
    tag_free_strip_tags.
Qed.




(** ** The scan refines the specification's relations *)

Section Refines.
Import CleanSpec.
Variable m : str -> option nat.
Variable span_at : str -> str -> Prop.
Variable repl : str.
Hypothesis Himpl : implements m span_at.

Lemma skipn_length_app (t' rest : str) :
  skipn (length t') (t' ++ rest) = rest.
Proof. now rewrite skipn_app, skipn_all, Nat.sub_diag. Qed.

Lemma replaced_sub s out :
  replaced span_at repl s out -> out = sub m repl s.
Proof.
  destruct Himpl as [Hfwd Hbwd].
  induction 1 as [|t rest out Hs _ IH|c r out Hno _ IH].
  - reflexivity.
  - destruct (Hfwd _ _ Hs) as [Hne Hm].
    destruct t as [|c t']; [congruence|].
    simpl app in *. simpl length in Hm.
    rewrite (sub_hit _ _ _ _ _ Hm), skipn_length_app. now subst.
  - rewrite sub_miss; [now subst|].
    unfold matches. destruct (m (c :: r)) as [[|k]|] eqn:E; auto.
    destruct (Hbwd _ _ E) as (t & rest & Es & Hs & _).
    exfalso; eapply Hno; eauto.
Qed.

Lemma sub_replaced s : replaced span_at repl s (sub m repl s).
Proof.
  destruct Himpl as [Hfwd Hbwd].
  pattern s, (sub m repl s); apply sub_ind; clear s.
  - constructor.
  - intros c r k Hm IH.
    destruct (Hbwd _ _ Hm) as (t & rest & Es & Hs & Hl).
    destruct t as [|c' t']; [discriminate|].
    simpl in Es, Hl. injection Es as <- ->. injection Hl as <-.
    rewrite skipn_length_app in *.
    change (c :: t' ++ rest) with ((c :: t') ++ rest).
    now constructor.
  - intros c r Hm IH. constructor; auto.
    intros t rest Es Hs. destruct (Hfwd _ _ Hs) as [Hne Ht].
    rewrite <- Es in Ht. unfold matches in Hm. rewrite Ht in Hm.
    destruct t; [congruence | discriminate].
Qed.

Lemma replaced_iff s out :
  replaced span_at repl s out <-> out = sub m repl s.
Proof.
  split; [apply replaced_sub | intros ->; apply sub_replaced].
Qed.
End Refines.

Lemma Forall_forallb (p : char -> bool) (l : str) :
  Forall (fun c => p c = true) l <-> forallb p l = true.
Proof. now rewrite Forall_forall, forallb_forall. Qed.

Lemma not_gt_Forall (l : str) :
  Forall (fun c => c <> chr_gt) l <-> forallb not_gt l = true.
Proof.
  rewrite Forall_forall, forallb_forall.
  split; intros H x Hx; specialize (H x Hx); unfold not_gt in *.
  - now apply negb_true_iff, N.eqb_neq.
  - now apply negb_true_iff, N.eqb_neq in H.
Qed.

Lemma not_gt_gt : not_gt chr_gt = false.
Proof. reflexivity. Qed.

Lemma implements_tag :
  CleanSpec.implements match_tag (fun t _ => CleanSpec.is_tag t).
Proof.
  split.
  - intros t rest (body & -> & Hne & Hb). split; [discriminate|].
    apply not_gt_Forall in Hb.
    cbn [app match_tag]. rewrite N.eqb_refl, <- app_assoc. cbn [app].
    rewrite (run_then_intro _ _ _ rest not_gt_gt Hne Hb).
    cbn [length]. now rewrite length_app, Nat.add_comm.
  - intros [|c r] k; [discriminate|]. unfold match_tag.
    destruct (N.eqb_spec c chr_lt) as [->|]; [|discriminate].
    intros E. apply run_then_Some in E as (body & rest & -> & Hne & Hb & _ & E).
    exists (chr_lt :: body ++ [chr_gt]), rest. repeat split.
    + cbn [app]. now rewrite <- app_assoc.
    + exists body; repeat split; auto. now apply not_gt_Forall.
    + cbn [length]. rewrite length_app, Nat.add_comm. cbn [length plus]. lia.
Qed.

Lemma implements_ref :
  CleanSpec.implements match_ref (fun t _ => CleanSpec.is_marker t).
Proof.
  split.
  - intros t rest (body & -> & Hne & Hb). split; [discriminate|].
    apply Forall_forallb in Hb.
    cbn [app match_ref]. rewrite N.eqb_refl, <- app_assoc. cbn [app].
    rewrite (run_then_intro _ _ _ rest decimal_rbracket Hne Hb).
    cbn [length]. now rewrite length_app, Nat.add_comm.
  - intros [|c r] k; [discriminate|]. unfold match_ref.
    destruct (N.eqb_spec c chr_lbracket) as [->|]; [|discriminate].
    intros E. apply run_then_Some in E as (body & rest & -> & Hne & Hb & _ & E).
    exists (chr_lbracket :: body ++ [chr_rbracket]), rest. repeat split.
    + cbn [app]. now rewrite <- app_assoc.
    + exists body; repeat split; auto. now apply Forall_forallb.
    + cbn [length]. rewrite length_app, Nat.add_comm. cbn [length plus]. lia.
Qed.

Lemma span_app_head p (run rest : str) :
  forallb p run = true ->
  match rest with c :: _ => p c = false | [] => True end ->
  span p (run ++ rest) = length run.
Proof.
  intros Hr Hh. destruct rest as [|g rest].
  - rewrite app_nil_r. now apply span_all.
  - now apply span_app.
Qed.

Lemma implements_ws : CleanSpec.implements match_ws CleanSpec.is_ws_run.
Proof.
  split.
  - intros t rest (Hne & Ht & Hr). split; auto.
    apply Forall_forallb in Ht. unfold match_ws.
    rewrite (span_app_head _ _ _ Ht Hr).
    destruct t; [congruence | reflexivity].
  - intros s k E. unfold match_ws in E.
    destruct (span Unicode.isspace s) as [|n] eqn:En; [discriminate|].
    injection E as E; subst n.
    destruct (span_split Unicode.isspace s) as (H1 & H2 & H3).
    pose proof (span_le Unicode.isspace s) as Hle.
    rewrite En in H1, H2, H3, Hle.
    exists (firstn (S k) s), (skipn (S k) s). repeat split; auto.
    + intros E0. apply (f_equal (@length _)) in E0.
      rewrite length_firstn in E0. cbn [length] in E0. lia.
    + now apply Forall_forallb.
    + rewrite length_firstn. lia.
Qed.

Lemma lstrip_spaces a x :
  forallb Unicode.isspace a = true -> lstrip (a ++ x) = lstrip x.
Proof.
  induction a as [|c a IH]; [reflexivity|]. simpl.
  intros H; apply andb_prop in H as [H1 H2]. now rewrite H1, IH.
Qed.

Lemma trimmed_iff s out : CleanSpec.trimmed s out <-> out = strip s.
Proof.
  split.
  - intros (a & b & -> & Ha & Hb & Ho & Hr).
    apply Forall_forallb in Ha, Hb. unfold strip, rstrip.
    rewrite (lstrip_spaces _ _ Ha).
    destruct out as [|c out].
    + cbn [app]. rewrite <- (app_nil_r b), (lstrip_spaces _ _ Hb). reflexivity.
    + rewrite (lstrip_id ((c :: out) ++ b)) by exact Ho.
      rewrite rev_app_distr, lstrip_spaces by now apply forallb_rev_true.
      now rewrite (lstrip_id _ Hr), rev_involutive.
  - intros ->. destruct (strip_split s) as (a & b & E & Ha & Hb).
    exists a, b. repeat split; auto; try now apply Forall_forallb.
    + apply rstrip_head, lstrip_head.
    + unfold strip, rstrip. rewrite rev_involutive. apply lstrip_head.
Qed.

Lemma cleaned_iff s out :
  CleanSpec.cleaned s out <-> out = _extract_text_from_html s.
Proof.
  unfold CleanSpec.cleaned, CleanSpec.tags_removed, CleanSpec.ws_collapsed,
    CleanSpec.refs_removed, _extract_text_from_html.
  split.
  - intros (t1 & t2 & t3 & H1 & H2 & H3 & H4).
    apply (replaced_iff _ _ _ implements_tag) in H1.
    apply (replaced_iff _ _ _ implements_ws) in H2.
    apply (replaced_iff _ _ _ implements_ref) in H3.
    apply trimmed_iff in H4. now subst.
  - intros ->.
    exists (strip_tags s), (collapse_ws (strip_tags s)),
      (remove_refs (collapse_ws (strip_tags s))).
    repeat split.
    + now apply (replaced_iff _ _ _ implements_tag).
    + now apply (replaced_iff _ _ _ implements_ws).
    + now apply (replaced_iff _ _ _ implements_ref).
    + now apply trimmed_iff.
Qed.

(** ** Spans anywhere in a text *)

Lemma nomatch_contains_no m (P : str -> Prop) s :
  CleanSpec.implements m (fun t _ => P t) ->
  nomatch m s = true <-> CleanSpec.contains_no P s.
Proof.
  intros [Hfwd Hbwd]. split.
  - intros H a t b -> Ht.
    apply nomatch_app_r in H.
    destruct (Hfwd t b Ht) as [Hne Hm].
    destruct t as [|c t]; [congruence|].
    simpl app in *. rewrite nomatch_cons in H.
    unfold matches in H. rewrite Hm in H. discriminate.
  - induction s as [|c r IH]; [reflexivity|]. intros H.
    rewrite nomatch_cons. apply andb_true_intro; split.
    + apply negb_true_iff. unfold matches.
      destruct (m (c :: r)) as [[|k]|] eqn:E; auto.
      destruct (Hbwd _ _ E) as (t & rest & Es & Ht & _).
      exfalso. apply (H [] t rest); auto.
    + apply IH. intros a t b -> Ht. apply (H (c :: a) t b); auto.
Qed.

Lemma tag_free_iff s :
  tag_free s = true <-> CleanSpec.contains_no CleanSpec.is_tag s.
Proof. apply nomatch_contains_no, implements_tag. Qed.

Lemma ref_free_iff s :
  ref_free s = true <-> CleanSpec.contains_no CleanSpec.is_marker s.
Proof. apply nomatch_contains_no, implements_ref. Qed.

Lemma starts_with_iff p s :
  starts_with p s = true <-> exists rest, s = p ++ rest.
Proof.
  revert s; induction p as [|x p IH]; intros s; simpl.
  - split; eauto.
  - destruct s as [|y s].
    + split; [discriminate | intros (rest & E); discriminate].
    + rewrite andb_true_iff, N.eqb_eq, IH. split.
      * intros (-> & rest & ->). eauto.
      * intros (rest & E). injection E as -> ->. eauto.
Qed.

Lemma implements_lit p :
  p <> [] -> CleanSpec.implements (match_lit p) (fun t _ => t = p).
Proof.
  intros Hne. split.
  - intros t rest ->. split; auto. unfold match_lit.
    assert (H : starts_with p (p ++ rest) = true)
      by (apply starts_with_iff; eauto).
    now rewrite H.
  - intros s k. unfold match_lit.
    destruct (starts_with p s) eqn:E; [|discriminate].
    intros [= Hk]. apply starts_with_iff in E as (rest & ->).
    exists p, rest. auto.
Qed.

Lemma snippet_cleaned_iff s out :
  CleanSpec.snippet_cleaned s out <-> out = _clean_html s.
Proof.
  unfold CleanSpec.snippet_cleaned, CleanSpec.tags_removed,
    CleanSpec.literal_replaced, _clean_html, decode_entities, replace.
  assert (Hq : lit "&quot;" <> []) by discriminate.
  assert (Ha : lit "&amp;" <> []) by discriminate.
  assert (Hl : lit "&lt;" <> []) by discriminate.
  assert (Hg : lit "&gt;" <> []) by discriminate.
  split.
  - intros (t1 & t2 & t3 & t4 & t5 & H1 & H2 & H3 & H4 & H5 & H6).
    apply (replaced_iff _ _ _ implements_tag) in H1.
    apply (replaced_iff _ _ _ (implements_lit _ Hq)) in H2.
    apply (replaced_iff _ _ _ (implements_lit _ Ha)) in H3.
    apply (replaced_iff _ _ _ (implements_lit _ Hl)) in H4.
    apply (replaced_iff _ _ _ (implements_lit _ Hg)) in H5.
    apply trimmed_iff in H6. now subst.
  - intros ->. do 5 eexists. repeat split.
    + now apply (replaced_iff _ _ _ implements_tag).
    + now apply (replaced_iff _ _ _ (implements_lit _ Hq)).
    + now apply (replaced_iff _ _ _ (implements_lit _ Ha)).
    + now apply (replaced_iff _ _ _ (implements_lit _ Hl)).
    + now apply (replaced_iff _ _ _ (implements_lit _ Hg)).
    + now apply trimmed_iff.
Qed.

Lemma clean_eq_extract s :
  ws_normal (strip_tags s) = true -> ref_free (strip_tags s) = true ->
  entity_free (strip_tags s) = true ->
  _clean_html s = _extract_text_from_html s.
Proof.
  intros Hw Hr He. unfold _clean_html, _extract_text_from_html.
  now rewrite (decode_entities_id _ He), (collapse_id _ Hw),
    (remove_refs_id _ Hr).
Qed.

(** ** Lengths, characters and fixed points of the cleaners *)

Lemma sub_length m repl s :
  length repl <= 1 -> length (sub m repl s) <= length s.
Proof.
  intros Hr. pattern s, (sub m repl s); apply sub_ind; clear s.
  - auto.
  - intros c r k _ IH. rewrite length_app. rewrite length_skipn in IH.
    cbn [length]. lia.
  - intros c r _ IH. cbn [length]. lia.
Qed.

Lemma strip_length s : length (strip s) <= length s.
Proof.
  destruct (strip_split s) as (a & b & E & _).
  rewrite E at 2. rewrite !length_app. lia.
Qed.

Lemma strip_In c s : In c (strip s) -> In c s.
Proof.
  destruct (strip_split s) as (a & b & E & _). intros H.
  rewrite E. apply in_or_app; right. apply in_or_app; now left.
Qed.

Lemma strip_trimmed s :
  head_nonspace (strip s) /\ head_nonspace (rev (strip s)).
Proof.
  destruct (proj2 (trimmed_iff s (strip s)) eq_refl)
    as (a & b & _ & _ & _ & H1 & H2). auto.
Qed.

Lemma strip_id s :
  head_nonspace s -> head_nonspace (rev s) -> strip s = s.
Proof.
  intros H1 H2. unfold strip, rstrip.
  now rewrite (lstrip_id s H1), (lstrip_id (rev s) H2), rev_involutive.
Qed.

Lemma ws_normal_space s c :
  ws_normal s = true -> In c s -> Unicode.isspace c = true -> c = chr_space.
Proof.
  induction s as [|d r IH]; [intros _ []|].
  rewrite ws_normal_cons. intros H; apply andb_prop in H as [Hd Hr].
  intros [<-|Hc] Hs; [|now apply IH].
  rewrite Hs in Hd. apply andb_prop in Hd as [Hd _]. now apply N.eqb_eq.
Qed.

Lemma extract_length s : length (_extract_text_from_html s) <= length s.
Proof.
  unfold _extract_text_from_html, strip_tags, collapse_ws, remove_refs.
  pose proof (sub_length match_tag [] s (Nat.le_0_l 1)) as H1.
  pose proof (sub_length match_ws [chr_space] (sub match_tag [] s)
                (Nat.le_refl 1)) as H2.
  pose proof (sub_length match_ref []
                (sub match_ws [chr_space] (sub match_tag [] s))
                (Nat.le_0_l 1)) as H3.
  pose proof (strip_length
                (sub match_ref []
                   (sub match_ws [chr_space] (sub match_tag [] s)))) as H4.
  lia.
Qed.

Lemma clean_length s : length (_clean_html s) <= length s.
Proof.
  unfold _clean_html, decode_entities, replace, strip_tags.
  set (t0 := sub match_tag [] s).
  set (t1 := sub (match_lit (lit "&quot;")) [chr_quote] t0).
  set (t2 := sub (match_lit (lit "&amp;")) [chr_amp] t1).
  set (t3 := sub (match_lit (lit "&lt;")) [chr_lt] t2).
  set (t4 := sub (match_lit (lit "&gt;")) [chr_gt] t3).
  pose proof (sub_length match_tag [] s (Nat.le_0_l 1)) as H0.
  pose proof (sub_length (match_lit (lit "&quot;")) [chr_quote] t0
                (Nat.le_refl 1)) as H1.
  pose proof (sub_length (match_lit (lit "&amp;")) [chr_amp] t1
                (Nat.le_refl 1)) as H2.
  pose proof (sub_length (match_lit (lit "&lt;")) [chr_lt] t2
                (Nat.le_refl 1)) as H3.
  pose proof (sub_length (match_lit (lit "&gt;")) [chr_gt] t3
                (Nat.le_refl 1)) as H4.
  pose proof (strip_length t4) as H5.
  fold t0 in H0, H1. fold t1 in H1, H2. fold t2 in H2, H3.
  fold t3 in H3, H4. fold t4 in H4, H5. lia.
Qed.

Lemma extract_In c s :
  In c (_extract_text_from_html s) -> In c s \/ c = chr_space.
Proof.
  unfold _extract_text_from_html, strip_tags, collapse_ws, remove_refs.
  intros H. apply strip_In in H.
  apply sub_In in H as [H|[]].
  apply sub_In in H as [H|[<-|[]]]; [|now right].
  apply sub_In in H as [H|[]]. now left.
Qed.

Lemma clean_In c s :
  In c (_clean_html s) ->
  In c s \/ In c [chr_quote; chr_amp; chr_lt; chr_gt].
Proof.
  unfold _clean_html, decode_entities, replace, strip_tags.
  intros H. apply strip_In in H.
  apply sub_In in H as [H|[<-|[]]]; [|right; simpl; tauto].
  apply sub_In in H as [H|[<-|[]]]; [|right; simpl; tauto].
  apply sub_In in H as [H|[<-|[]]]; [|right; simpl; tauto].
  apply sub_In in H as [H|[<-|[]]]; [|right; simpl; tauto].
  apply sub_In in H as [H|[]]. now left.
Qed.

Lemma extract_spaces s c :
  In c (_extract_text_from_html s) -> Unicode.isspace c = true ->
  c = chr_space.
Proof.
  unfold _extract_text_from_html, remove_refs. intros H Hs.
  apply strip_In in H. apply sub_In in H as [H|[]].
  exact (ws_normal_space _ c (ws_normal_collapse (strip_tags s)) H Hs).
Qed.

Lemma extract_id s :
  tag_free s = true -> ws_normal s = true -> ref_free s = true ->
  head_nonspace s -> head_nonspace (rev s) ->
  _extract_text_from_html s = s.
Proof.
  intros Ht Hw Hr H1 H2. unfold _extract_text_from_html.
  rewrite (strip_tags_id s Ht), (collapse_id s Hw), (remove_refs_id s Hr).
  now apply strip_id.
Qed.

Lemma clean_id s :
  tag_free s = true -> entity_free s = true ->
  head_nonspace s -> head_nonspace (rev s) ->
  _clean_html s = s.
Proof.
  intros Ht He H1 H2. unfold _clean_html.
  rewrite (strip_tags_id s Ht), (decode_entities_id s He).
  now apply strip_id.
Qed.

End ReFacts.

(** * Facts about the retrieval methods *)

Module WikiFacts.
Import Py Requests.

Section Monad.
Context {S : Type}.

Lemma bind_Ok {A B} (m : M S A) (k : A -> M S B) st b st' :
  bind m k st = (Ok b, st') ->
  exists a st1, m st = (Ok a, st1) /\ k a st1 = (Ok b, st').
Proof.
  unfold bind. destruct (m st) as [[a|e] st1]; [eauto | discriminate].
Qed.


End Monad.

Section Quiet.
Context {World : Type}.
Variable http_get : request -> World -> outcome * World.
Local Abbreviation W := (wiki_state World).

Lemma quiet_ret {A} (a : A) : quiet (ret (S := W) a).
Proof. intros st; reflexivity. Qed.

Lemma quiet_raise {A} e : quiet (raise (S := W) (A := A) e).
Proof. intros st; reflexivity. Qed.

Lemma quiet_lift {A} (r : res A) : quiet (lift (S := W) r).
Proof. intros st; reflexivity. Qed.

Lemma quiet_bind {A B} (m : M W A) (k : A -> M W B) :
  quiet m -> (forall a, quiet (k a)) -> quiet (bind m k).
Proof.
  intros Hm Hk st. unfold bind. specialize (Hm st).
  destruct (m st) as [[a|e] st1]; simpl in *; auto.
  now rewrite Hk.
Qed.

Lemma quiet_try {A} (m : M W A) c (h : exn -> M W A) :
  quiet m -> (forall e, quiet (h e)) -> quiet (try_except m c h).
Proof.
  intros Hm Hh st. unfold try_except. specialize (Hm st).
  destruct (m st) as [[a|e] st1]; simpl in *; auto.
  destruct (c e); simpl; auto. now rewrite Hh.
Qed.

Lemma quiet_requests_get rq : quiet (requests_get http_get rq).
Proof.
  intros st. unfold requests_get.
  now destruct (http_get rq (world st)) as [[r|msg] w].
Qed.

Create HintDb quiet.
Hint Resolve quiet_ret quiet_raise quiet_lift quiet_requests_get : quiet.

Ltac quiet_step :=
  first [ apply quiet_bind; [|intros ?]
        | apply quiet_try; [|intros ?]
        | solve [auto with quiet]
        | match goal with
          | |- quiet (if ?b then _ else _) => destruct b
          | |- quiet (match ?x with _ => _ end) => destruct x
          end ].

Lemma quiet_get_page_categories self t :
  quiet (_get_page_categories http_get self t).
Proof. unfold _get_page_categories. repeat quiet_step. Qed.

Lemma quiet_get_page_links self t n :
  quiet (_get_page_links http_get self t n).
Proof. unfold _get_page_links. repeat quiet_step. Qed.

Hint Resolve quiet_get_page_categories quiet_get_page_links : quiet.


(** *** One topic of [create_knowledge_base] *)




(** *** The loop of [search_and_summarize] *)

End Quiet.

End WikiFacts.

(** * Further facts about the retrieval methods *)

Module WikiMore.
Import Py Requests.

Section Methods.
Context {World : Type}.
Variable http_get : request -> World -> outcome * World.
Local Abbreviation W := (wiki_state World).

(** What leaves a [try] whose handler catches every [RequestException]
    and raises none itself is no [RequestException]. *)
Lemma try_except_filters {A} (m : M W A) (h : exn -> M W A) st e st' :
  (forall e0 s0 e1 s1, h e0 s0 = (Raise e1, s1) ->
                       is_request_exception e1 = false) ->
  try_except m is_request_exception h st = (Raise e, st') ->
  is_request_exception e = false.
Proof.
  intros Hh. unfold try_except.
  destruct (m st) as [[a|e0] s0]; [discriminate|].
  destruct (is_request_exception e0) eqn:E.
  - apply Hh.
  - now intros [= <- _].
Qed.

Lemma raise_Exception_no_request {A} msg (s0 : W) e1 s1 :
  raise (A := A) (mk_exn Exception msg) s0 = (Raise e1, s1) ->
  is_request_exception e1 = false.
Proof. now intros [= <- _]. Qed.

Lemma ret_no_raise {A} (a : A) (s0 : W) e1 s1 :
  ret a s0 = (Raise e1, s1) -> is_request_exception e1 = false.
Proof. discriminate. Qed.

(** *** The single request of a method *)

Lemma requests_get_fails rq st msg w :
  http_get rq (world st) = (Fails msg, w) ->
  requests_get http_get rq st
  = (Raise (mk_exn RequestException msg), mk_wiki_state w (stdout st)).
Proof. intros H. unfold requests_get. now rewrite H. Qed.

Lemma requests_get_responds rq st r w :
  http_get rq (world st) = (Responds r, w) ->
  requests_get http_get rq st = (Ok r, mk_wiki_state w (stdout st)).
Proof. intros H. unfold requests_get. now rewrite H. Qed.

Lemma raise_for_status_error r :
  error_status (status_code r) ->
  raise_for_status r = Raise (mk_exn RequestException (http_error_msg r)).
Proof.
  unfold error_status, raise_for_status. intros [H1 H2].
  apply Z.leb_le in H1. apply Z.ltb_lt in H2. now rewrite H1, H2.
Qed.

Lemma raise_for_status_ok r :
  ~ error_status (status_code r) -> raise_for_status r = Ok tt.
Proof.
  unfold error_status, raise_for_status. intros H.
  destruct (400 <=? status_code r)%Z eqn:E1; [|reflexivity].
  destruct (status_code r <? 600)%Z eqn:E2; [|reflexivity].
  apply Z.leb_le in E1. apply Z.ltb_lt in E2. exfalso; apply H; lia.
Qed.

(** *** What [get_page] returns *)

Lemma get_page_record self t il st page st' :
  get_page http_get self t il st = (Ok (Some page), st') ->
  title page = t
  /\ (exists q, Urllib.quote t = Ok q /\ url page = wiki_url self q)
  /\ (exists html, content page = _extract_text_from_html html)
  /\ (il = false -> links page = []).
Proof.
  unfold get_page, try_except. intros H.
  match type of H with
  | context [match ?body st with _ => _ end] =>
      destruct (body st) as [[a|e] st1] eqn:E
  end.
  2:{ destruct (is_request_exception e); discriminate H. }
  injection H as -> ->.
  apply WikiFacts.bind_Ok in E as (q & s1 & Hq & E).
  apply WikiFacts.bind_Ok in E as (cr & s2 & _ & E).
  destruct (status_code cr =? 404)%Z; [discriminate E|].
  apply WikiFacts.bind_Ok in E as (? & s3 & _ & E).
  apply WikiFacts.bind_Ok in E as (q2 & s4 & _ & E).
  apply WikiFacts.bind_Ok in E as (sr & s5 & _ & E).
  apply WikiFacts.bind_Ok in E as (sd & s6 & _ & E).
  apply WikiFacts.bind_Ok in E as (cats & s7 & _ & E).
  apply WikiFacts.bind_Ok in E as (ls & s8 & Hl & E).
  apply WikiFacts.bind_Ok in E as (q3 & s9 & Hq3 & E).
  apply WikiFacts.bind_Ok in E as (ex & s10 & _ & E).
  injection E as <- _.
  unfold lift in Hq3. injection Hq3 as Hq3 _.
  cbn [title url content links].
  split; [reflexivity|]. split; [eauto|]. split; [eauto|].
  intros ->. now injection Hl as <- _.
Qed.

(** *** The dict of [create_knowledge_base] *)

Lemma dict_set_keys {V} (d : list (str * V)) k v :
  map fst (dict_set d k v)
  = if existsb (fun k' => str_eqb k' k) (map fst d)
    then map fst d else map fst d ++ [k].
Proof.
  induction d as [|[k' v'] d IH]; [reflexivity|].
  cbn [dict_set map fst existsb].
  destruct (str_eqb k' k); [reflexivity|].
  cbn [map fst orb]. rewrite IH.
  now destruct (existsb (fun k'0 => str_eqb k'0 k) (map fst d)).
Qed.

Lemma str_eqb_eq a b : str_eqb a b = true <-> a = b.
Proof.
  unfold str_eqb. destruct (list_eq_dec N.eq_dec a b); split;
    congruence.
Qed.

Lemma dict_set_NoDup {V} (d : list (str * V)) k v :
  NoDup (map fst d) -> NoDup (map fst (dict_set d k v)).
Proof.
  intros H. rewrite dict_set_keys.
  destruct (existsb (fun k' => str_eqb k' k) (map fst d)) eqn:E; [exact H|].
  apply NoDup_app; [exact H | repeat constructor; intros [] |].
  intros x Hx [Hk|[]]. subst x.
  assert (Ht : existsb (fun k' => str_eqb k' k) (map fst d) = true).
  { apply existsb_exists. exists k. split; [exact Hx|]. now apply str_eqb_eq. }
  congruence.
Qed.

Lemma dict_set_Forall {V} (P : str * V -> Prop) (d : list (str * V)) k v :
  Forall P d -> (forall k', k' = k -> P (k', v)) -> Forall P (dict_set d k v).
Proof.
  intros Hd Hv. induction d as [|[k' v'] d IH].
  - repeat constructor. now apply Hv.
  - cbn [dict_set]. inversion Hd as [|? ? H1 H2]; subst.
    destruct (str_eqb k' k) eqn:E.
    + constructor; [|exact H2]. apply Hv. now apply str_eqb_eq.
    + constructor; [exact H1 | now apply IH].
Qed.

Lemma lookup_dict_set {V} (d : list (str * V)) k v :
  lookup (dict_set d k v) k = Some v.
Proof.
  assert (Hk : str_eqb k k = true) by now apply str_eqb_eq.
  induction d as [|[k' v'] d IH]; cbn [dict_set lookup].
  - now rewrite Hk.
  - destruct (str_eqb k' k) eqn:E; cbn [lookup]; now rewrite E.
Qed.

Lemma add_topic_invariant agent topic kb st kb' st' :
  kb_invariant agent kb ->
  add_topic http_get agent topic kb st = (Ok kb', st') ->
  kb_invariant agent kb'.
Proof.
  intros [Hn Hf]. unfold add_topic, try_except, bind.
  destruct (get_page http_get agent topic true st) as [[[p|]|e] st1] eqn:E;
    unfold print; cbn.
  - intros [= <- _]. split; [now apply dict_set_NoDup|].
    apply dict_set_Forall; [exact Hf|]. intros k' ->.
    destruct (get_page_record _ _ _ _ _ _ E) as (Ht & Hu & _).
    split; [exact Ht | exact Hu].
  - intros [= <- _]. now split.
  - intros [= <- _]. now split.
Qed.

Lemma knowledge_base_invariant agent topics :
  forall kb st kb' st',
    kb_invariant agent kb ->
    for_each topics kb (add_topic http_get agent) st = (Ok kb', st') ->
    kb_invariant agent kb'.
Proof.
  induction topics as [|t ts IH]; intros kb st kb' st' Hinv H.
  - now injection H as <- _.
  - cbn [for_each] in H. apply WikiFacts.bind_Ok in H as (kb1 & st1 & H1 & H2).
    eapply IH; [|exact H2]. eapply add_topic_invariant; eauto.
Qed.

(** *** The list of [search] *)

Lemma search_item_well_formed self item (st : W) r st' :
  search_item self item st = (Ok r, st') -> result_well_formed self r.
Proof.
  unfold search_item. intros H.
  apply WikiFacts.bind_Ok in H as (t & s1 & _ & H).
  apply WikiFacts.bind_Ok in H as (raw & s2 & _ & H).
  apply WikiFacts.bind_Ok in H as (sn & s3 & Hsn & H).
  apply WikiFacts.bind_Ok in H as (sz & s4 & _ & H).
  apply WikiFacts.bind_Ok in H as (ts & s5 & _ & H).
  destruct t; try discriminate H.
  apply WikiFacts.bind_Ok in H as (q & s6 & Hq & H).
  injection H as <- _. injection Hq as Hq _.
  unfold lift, clean_html_value in Hsn.
  destruct raw; try discriminate Hsn. injection Hsn as <- _.
  split; cbn; eauto.
Qed.

Lemma search_loop self items :
  forall acc st out st',
    for_each items acc
      (fun item results =>
         bind (search_item (World := World) self item)
              (fun r => ret (results ++ [r]))) st = (Ok out, st') ->
    Forall (result_well_formed self) acc ->
    Forall (result_well_formed self) out /\
    length out = length acc + length items.
Proof.
  induction items as [|item items IH]; intros acc st out st' H Hacc.
  - injection H as <- _. split; [exact Hacc | cbn; lia].
  - cbn [for_each] in H. apply WikiFacts.bind_Ok in H as (acc1 & s1 & H1 & H2).
    apply WikiFacts.bind_Ok in H1 as (r & s2 & Hr & H1).
    injection H1 as <- _.
    assert (Hacc1 : Forall (result_well_formed self) (acc ++ [r])).
    { apply Forall_app. split; [exact Hacc|].
      constructor; [|constructor].
      eapply search_item_well_formed; eauto. }
    destruct (IH _ _ _ _ H2 Hacc1) as [Hf Hl]. split; [exact Hf|].
    rewrite Hl, length_app. cbn [length]. lia.
Qed.

(** *** The loop of [get_summary] *)

Lemma first_extract_sentinel pages :
  Forall is_sentinel pages -> first_extract pages = Ok None.
Proof.
  induction 1 as [|[id d] rest Hs _ IH]; [reflexivity|].
  cbn [first_extract]. unfold is_sentinel in Hs. cbn [fst] in Hs. subst id.
  assert (E : str_eqb (lit "-1") (lit "-1") = true) by reflexivity.
  now rewrite E.
Qed.

Lemma first_extract_first pre id d rest :
  Forall is_sentinel pre -> id <> lit "-1" ->
  first_extract (pre ++ (id, JDict d) :: rest)
  = Ok (Some (match lookup d (lit "extract") with
              | Some x => x
              | None => JStr []
              end)).
Proof.
  intros Hpre Hid. induction Hpre as [|[id0 d0] pre Hs _ IH].
  - cbn [app first_extract get].
    destruct (str_eqb id (lit "-1")) eqn:E; [|reflexivity].
    apply str_eqb_eq in E. contradiction.
  - cbn [app first_extract]. unfold is_sentinel in Hs. cbn [fst] in Hs.
    subst id0.
    assert (E : str_eqb (lit "-1") (lit "-1") = true) by reflexivity.
    now rewrite E.
Qed.

(** A request that fails makes [requests.get] or [raise_for_status]
    raise a [RequestException] with the cause. *)
Lemma request_fails_raises {A} rq st cause w (k : response -> M W A) :
  request_fails http_get rq (world st) cause w ->
  bind (requests_get http_get rq)
       (fun r => bind (lift (raise_for_status r)) (fun _ => k r)) st
  = (Raise (mk_exn RequestException cause), mk_wiki_state w (stdout st)).
Proof.
  intros [H|(r & H & Hs & Hm)]; unfold bind.
  - now rewrite (requests_get_fails _ _ _ _ H).
  - rewrite (requests_get_responds _ _ _ _ H). unfold lift.
    now rewrite (raise_for_status_error _ Hs), Hm.
Qed.
End Methods.

End WikiMore.

(** * Facts about stored text and slides *)

Module PptxFacts.
Import Py Pptx PowerPointTool.

(** ** Splitting and joining *)

Lemma split_on_nonempty p s : split_on p s <> [].
Proof.
  induction s as [|c r IH]; simpl; [discriminate|].
  destruct (p c); [discriminate|].
  destruct (split_on p r); [congruence | discriminate].
Qed.

Lemma join_cons sep p ps :
  ps <> [] -> join sep (p :: ps) = p ++ sep ++ join sep ps.
Proof. destruct ps; [congruence | reflexivity]. Qed.

Lemma split_on_join is_sep c0 s :
  (forall c, In c s -> is_sep c = true -> c = c0) ->
  join [c0] (split_on is_sep s) = s.
Proof.
  induction s as [|c r IH]; intros H; [reflexivity|].
  assert (IH' := IH (fun x Hx => H x (or_intror Hx))).
  cbn [split_on]. destruct (is_sep c) eqn:E.
  - rewrite join_cons by apply split_on_nonempty. rewrite IH'.
    cbn [app]. f_equal. symmetry. apply H; [now left | exact E].
  - pose proof (split_on_nonempty is_sep r) as Hne.
    destruct (split_on is_sep r) as [|piece pieces]; [congruence|].
    destruct pieces as [|p2 pieces].
    + cbn [join] in *. now rewrite IH'.
    + rewrite join_cons in IH' |- * by discriminate.
      rewrite <- IH'. reflexivity.
Qed.

Lemma split_on_pieces is_sep (Q : char -> bool) s :
  (forall c, In c s -> is_sep c = false -> Q c = true) ->
  Forall (fun p => forallb Q p = true) (split_on is_sep s).
Proof.
  induction s as [|c r IH]; intros H; [repeat constructor|].
  assert (IH' := IH (fun x Hx => H x (or_intror Hx))).
  cbn [split_on]. destruct (is_sep c) eqn:E.
  - constructor; auto.
  - destruct (split_on is_sep r) as [|piece pieces].
    + repeat constructor. cbn. rewrite H; auto. now left.
    + inversion IH' as [|? ? Hp Hps]; subst. constructor; auto.
      cbn [forallb]. rewrite Hp, H; auto. now left.
Qed.

(** ** Text that is stored as it is *)

Lemma escape_verbatim s :
  forallb stored_verbatim s = true -> escape_ctrl_chars s = s.
Proof.
  induction s as [|c r IH]; [reflexivity|]. cbn [forallb].
  intros H; apply andb_prop in H as [Hc Hr].
  unfold escape_ctrl_chars in *. cbn [flat_map]. rewrite (IH Hr).
  unfold stored_verbatim in Hc.
  apply andb_prop in Hc as [Hc _]. apply andb_prop in Hc as [Hc _].
  apply negb_true_iff in Hc. now rewrite Hc.
Qed.

Lemma xml_verbatim s :
  forallb stored_verbatim s = true -> xml_text s = Ok s.
Proof.
  intros H. unfold xml_text.
  assert (H1 : existsb Urllib.is_surrogate s = false).
  { induction s as [|c r IH]; [reflexivity|]. cbn [forallb existsb] in *.
    apply andb_prop in H as [Hc Hr]. rewrite (IH Hr), orb_false_r.
    unfold stored_verbatim in Hc.
    apply andb_prop in Hc as [Hc _]. apply andb_prop in Hc as [_ Hc].
    now apply negb_true_iff. }
  assert (H2 : existsb is_noncharacter s = false).
  { induction s as [|c r IH]; [reflexivity|]. cbn [forallb existsb] in *.
    apply andb_prop in H as [Hc Hr].
    apply orb_false_elim in H1 as [_ H1].
    rewrite (IH Hr H1), orb_false_r.
    unfold stored_verbatim in Hc. apply andb_prop in Hc as [_ Hc].
    now apply negb_true_iff. }
  now rewrite H1, H2.
Qed.

Lemma append_pieces_verbatim pieces :
  Forall (fun p => forallb stored_verbatim p = true) pieces ->
  forall first content,
  exists added,
    append_pieces first pieces content = (Ok tt, content ++ added)
    /\ flat_map inline_text added =
       match pieces with
       | [] => []
       | _ => (if first then [] else [chr_vt]) ++ join [chr_vt] pieces
       end.
Proof.
  induction 1 as [|piece rest Hp _ IH]; intros first content.
  - exists []. now rewrite app_nil_r.
  - cbn [append_pieces].
    set (c0 := if first then content else content ++ [Br]).
    assert (Hc0 : c0 = content ++ (if first then [] else [Br]))
      by (unfold c0; destruct first; now rewrite ?app_nil_r).
    assert (Hstep :
      exists mid,
        (match piece with
         | [] => append_pieces false rest c0
         | _ :: _ =>
             match xml_text (escape_ctrl_chars piece) with
             | Ok t => append_pieces false rest (c0 ++ [Run t])
             | Raise e => (Raise e, c0 ++ [Run []])
             end
         end) = append_pieces false rest (c0 ++ mid)
        /\ flat_map inline_text mid = piece).
    { destruct piece as [|c piece].
      - exists []. now rewrite app_nil_r.
      - exists [Run (c :: piece)].
        rewrite (escape_verbatim _ Hp), (xml_verbatim _ Hp).
        split; [reflexivity|]. cbn. now rewrite app_nil_r. }
    destruct Hstep as (mid & -> & Hmid).
    destruct (IH false (c0 ++ mid)) as (added & E & Ht).
    exists ((if first then [] else [Br]) ++ mid ++ added).
    split.
    + rewrite E, Hc0. now rewrite <- !app_assoc.
    + rewrite !flat_map_app, Hmid, Ht.
      destruct rest as [|p2 rest].
      * cbn [join]. rewrite app_nil_r. now destruct first.
      * rewrite (join_cons [chr_vt] piece) by discriminate.
        now destruct first.
Qed.

(** A point without line feed is stored in one paragraph and read
    back unchanged. *)
Lemma stored_paragraph_text s :
  forallb point_char s = true ->
  on_content (append_text s) empty_paragraph = (Ok tt, stored_paragraph s)
  /\ paragraph_text (stored_paragraph s) = s
  /\ p_level (stored_paragraph s) = 0%Z.
Proof.
  intros H.
  assert (Hpieces :
    Forall (fun p => forallb stored_verbatim p = true)
           (split_on is_nl_or_vt s)).
  { apply split_on_pieces. intros c Hc Hsep.
    rewrite forallb_forall in H. specialize (H c Hc).
    unfold point_char, title_char in H. unfold is_nl_or_vt in Hsep.
    apply orb_false_elim in Hsep as [_ Hvt].
    apply andb_prop in H as [H _]. rewrite Hvt, orb_false_r in H. exact H. }
  destruct (append_pieces_verbatim _ Hpieces true []) as (added & E & Ht).
  assert (Hjoin : join [chr_vt] (split_on is_nl_or_vt s) = s).
  { apply split_on_join. intros c Hc Hsep.
    rewrite forallb_forall in H. specialize (H c Hc).
    unfold point_char in H. apply andb_prop in H as [_ H].
    apply negb_true_iff in H. unfold is_nl_or_vt in Hsep.
    rewrite H in Hsep. now apply N.eqb_eq in Hsep. }
  assert (Hs : on_content (append_text s) empty_paragraph
               = (Ok tt, mk_paragraph added 0)).
  { unfold on_content, zoom, append_text. cbn [p_content empty_paragraph].
    rewrite E. reflexivity. }
  unfold stored_paragraph. rewrite Hs. cbn [snd].
  split; [reflexivity|]. split; [|reflexivity].
  unfold paragraph_text. cbn [p_content]. rewrite Ht.
  pose proof (split_on_nonempty is_nl_or_vt s) as Hne.
  destruct (split_on is_nl_or_vt s); [congruence | exact Hjoin].
Qed.

Lemma map_stored_text l :
  Forall (fun p => forallb point_char p = true) l ->
  map paragraph_text (map stored_paragraph l) = l.
Proof.
  induction 1 as [|p l Hp _ IH]; [reflexivity|]. cbn [map].
  now rewrite IH, (proj1 (proj2 (stored_paragraph_text p Hp))).
Qed.

Lemma add_lines_stored lines :
  Forall (fun p => forallb point_char p = true) lines ->
  forall tf, add_lines lines tf = (Ok tt, tf ++ map stored_paragraph lines).
Proof.
  induction 1 as [|line rest Hl _ IH]; intros tf.
  - cbn. now rewrite app_nil_r.
  - cbn [add_lines map].
    rewrite (proj1 (stored_paragraph_text line Hl)), IH.
    now rewrite <- app_assoc.
Qed.

(** A title is stored line by line and read back unchanged. *)
Lemma set_frame_text_title t tf :
  forallb title_char t = true ->
  set_frame_text t tf = (Ok tt, map stored_paragraph (split_on is_nl t))
  /\ frame_text (map stored_paragraph (split_on is_nl t)) = t.
Proof.
  intros H.
  assert (Hlines : Forall (fun p => forallb point_char p = true)
                          (split_on is_nl t)).
  { apply split_on_pieces. intros c Hc Hsep.
    rewrite forallb_forall in H. specialize (H c Hc).
    unfold point_char. unfold is_nl in Hsep. now rewrite H, Hsep. }
  split.
  - unfold set_frame_text. now rewrite (add_lines_stored _ Hlines).
  - unfold frame_text. rewrite (map_stored_text _ Hlines).
    apply split_on_join. intros c _ Hc. now apply N.eqb_eq in Hc.
Qed.

(** ** Handles *)

Lemma nth_app_end {A} (l : list A) x d : nth (length l) (l ++ [x]) d = x.
Proof. induction l; simpl; auto. Qed.

Lemma update_app_end {A} (l : list A) x y :
  update (length l) y (l ++ [x]) = l ++ [y].
Proof. induction l; simpl; [reflexivity | now f_equal]. Qed.

Lemma nth_error_app_end {A} (l : list A) x :
  nth_error (l ++ [x]) (length l) = Some x.
Proof. induction l; simpl; auto. Qed.

Lemma list_index_nat {A} what (l : list A) i x :
  nth_error l i = Some x -> list_index what l (Z.of_nat i) = Ok x.
Proof.
  intros H. unfold list_index.
  assert (Hi : i < length l) by (apply nth_error_Some; congruence).
  assert (E1 : (Z.of_nat i <? 0)%Z = false) by (apply Z.ltb_ge; lia).
  assert (E2 : (Z.of_nat (length l) <=? Z.of_nat i)%Z = false)
    by (apply Z.leb_gt; lia).
  cbv zeta. rewrite E1. cbv iota. rewrite E1, E2. cbn [orb].
  now rewrite Nat2Z.id, H.
Qed.

Lemma on_slide_last {A} (m : Py.M slide A) st sl x :
  slides (prs st) = sl ++ [x] ->
  on_slide (length sl) m st
  = (fst (m x), put_slides (sl ++ [snd (m x)]) st).
Proof.
  intros E. unfold on_slide, zoom. rewrite E, nth_app_end.
  destruct (m x) as [r x']. cbn [fst snd]. now rewrite update_app_end.
Qed.

Lemma put_slides_twice l l' st :
  put_slides l (put_slides l' st) = put_slides l st.
Proof. reflexivity. Qed.

(** ** The loop over the points *)

Lemma relevel p : p_level p = 0%Z -> mk_paragraph (p_content p) 0 = p.
Proof. destruct p; simpl; now intros ->. Qed.

Lemma on_paragraph_end {A} (m : Py.M paragraph A) tf x :
  on_paragraph (length tf) m (tf ++ [x])
  = (fst (m x), tf ++ [snd (m x)]).
Proof.
  unfold on_paragraph, zoom. rewrite nth_app_end.
  destruct (m x) as [r x']. cbn [fst snd]. now rewrite update_app_end.
Qed.

Lemma set_paragraph_text_empty point :
  forallb point_char point = true ->
  set_paragraph_text point empty_paragraph = (Ok tt, stored_paragraph point).
Proof.
  intros H. unfold set_paragraph_text. cbn [p_level empty_paragraph].
  exact (proj1 (stored_paragraph_text point H)).
Qed.

Lemma set_level_stored point :
  forallb point_char point = true ->
  set_level 0 (stored_paragraph point) = (Ok tt, stored_paragraph point).
Proof.
  intros H. unfold set_level.
  now rewrite (relevel _ (proj2 (proj2 (stored_paragraph_text point H)))).
Qed.

Lemma add_point_next i point tf :
  forallb point_char point = true ->
  add_point (S i, point) tt tf = (Ok tt, tf ++ [stored_paragraph point]).
Proof.
  intros H. unfold add_point, bind, add_paragraph. cbn [Nat.eqb].
  rewrite on_paragraph_end, (set_paragraph_text_empty _ H). cbn [fst snd].
  rewrite on_paragraph_end, (set_level_stored _ H). reflexivity.
Qed.

Lemma add_point_first point :
  forallb point_char point = true ->
  add_point (0, point) tt [empty_paragraph]
  = (Ok tt, [stored_paragraph point]).
Proof.
  intros H. unfold add_point, bind, first_paragraph. cbn [Nat.eqb].
  rewrite (on_paragraph_end _ [] empty_paragraph : on_paragraph 0 _ [_] = _).
  rewrite (set_paragraph_text_empty _ H). cbn [fst snd app].
  rewrite (on_paragraph_end _ [] (stored_paragraph point)
           : on_paragraph 0 _ [_] = _).
  now rewrite (set_level_stored _ H).
Qed.

Lemma add_points_next points :
  Forall (fun p => forallb point_char p = true) points ->
  forall k tf,
    for_each (combine (seq (S k) (length points)) points) tt add_point tf
    = (Ok tt, tf ++ map stored_paragraph points).
Proof.
  induction 1 as [|p rest Hp _ IH]; intros k tf.
  - cbn. now rewrite app_nil_r.
  - cbn [length seq combine for_each map]. unfold bind.
    rewrite (add_point_next k p tf Hp), IH. now rewrite <- app_assoc.
Qed.

(** The paragraphs of the body once the loop has run. *)
Lemma add_points points :
  Forall (fun p => forallb point_char p = true) points ->
  for_each (enumerate points) tt add_point [empty_paragraph]
  = (Ok tt, match points with
            | [] => [empty_paragraph]
            | _ => map stored_paragraph points
            end).
Proof.
  intros H. destruct H as [|p rest Hp Hrest]; [reflexivity|].
  unfold enumerate. cbn [length seq combine for_each]. unfold bind.
  rewrite (add_point_first p Hp), (add_points_next _ Hrest). reflexivity.
Qed.

Lemma body_text points :
  Forall (fun p => forallb point_char p = true) points ->
  frame_text match points with
             | [] => [empty_paragraph]
             | _ => map stored_paragraph points
             end = join [chr_nl] points.
Proof.
  intros H. unfold frame_text. destruct points as [|p rest]; [reflexivity|].
  now rewrite (map_stored_text _ H).
Qed.

(** ** [is_infix] decides containment *)

Lemma is_infix_complete p a b : is_infix p (a ++ p ++ b) = true.
Proof.
  induction a as [|c a IH].
  - assert (H : Re.starts_with p (p ++ b) = true)
      by (apply ReFacts.starts_with_iff; eauto).
    cbn [app]. destruct (p ++ b); cbn [is_infix]; now rewrite H.
  - cbn [app is_infix]. rewrite IH. apply orb_true_r.
Qed.

Lemma occurs_in_order_lines points :
  occurs_in_order points (chr_nl :: join [chr_nl] points).
Proof.
  induction points as [|p rest IH]; [exact I|].
  destruct rest as [|p2 rest].
  - exists [chr_nl], []. cbn [join occurs_in_order].
    split; [now rewrite app_nil_r | exact I].
  - rewrite join_cons by discriminate.
    exists [chr_nl], (chr_nl :: join [chr_nl] (p2 :: rest)).
    split; [reflexivity | exact IH].
Qed.

Lemma occurs_in_order_join t points :
  occurs_in_order (t :: points) (t ++ chr_nl :: join [chr_nl] points).
Proof.
  exists [], (chr_nl :: join [chr_nl] points).
  split; [reflexivity | apply occurs_in_order_lines].
Qed.

(** ** The two placeholders of a new "Title and Content" slide *)

Lemma new_content_slide :
  new_slide title_and_content
  = mk_slide [Placeholder 0 Title [empty_paragraph];
              Placeholder 1 Object [empty_paragraph]].
Proof. reflexivity. Qed.

Lemma set_title_text t body :
  forallb title_char t = true ->
  on_shape 0 (on_frame (set_frame_text t))
    (mk_slide [Placeholder 0 Title [empty_paragraph]; body])
  = (Ok tt, mk_slide [Placeholder 0 Title
                        (map stored_paragraph (split_on is_nl t)); body]).
Proof.
  intros H. unfold on_shape, on_frame, zoom.
  cbn [shapes nth shape_frame].
  rewrite (proj1 (set_frame_text_title t [empty_paragraph] H)).
  reflexivity.
Qed.

Lemma set_body_points points title :
  Forall (fun p => forallb point_char p = true) points ->
  on_shape 1
    (on_frame
       (bind clear (fun _ => for_each (enumerate points) tt add_point)))
    (mk_slide [title; Placeholder 1 Object [empty_paragraph]])
  = (Ok tt,
     mk_slide [title;
               Placeholder 1 Object
                 match points with
                 | [] => [empty_paragraph]
                 | _ => map stored_paragraph points
                 end]).
Proof.
  intros H. unfold on_shape, on_frame, zoom, bind.
  cbn [shapes nth shape_frame clear p_level empty_paragraph].
  change (mk_paragraph [] 0) with empty_paragraph.
  rewrite (add_points _ H). reflexivity.
Qed.
End PptxFacts.

(** * Further facts about slides *)

Module PptxMore.
Import Py Pptx PowerPointTool PowerPointMore.

(** ** Indexing *)

Lemma list_index_negative {A} what (l : list A) k x :
  nth_error l k = Some x ->
  list_index what l (Z.of_nat k - Z.of_nat (length l)) = Ok x.
Proof.
  intros H. unfold list_index.
  assert (Hk : k < length l) by (apply nth_error_Some; congruence).
  assert (E1 : (Z.of_nat k - Z.of_nat (length l) <? 0)%Z = true)
    by (apply Z.ltb_lt; lia).
  cbv zeta. rewrite E1. cbv iota.
  replace (Z.of_nat k - Z.of_nat (length l) + Z.of_nat (length l))%Z
    with (Z.of_nat k) by lia.
  assert (E2 : (Z.of_nat k <? 0)%Z = false) by (apply Z.ltb_ge; lia).
  assert (E3 : (Z.of_nat (length l) <=? Z.of_nat k)%Z = false)
    by (apply Z.leb_gt; lia).
  rewrite E2, E3. cbn [orb]. now rewrite Nat2Z.id, H.
Qed.

Lemma list_index_below {A} what (l : list A) i :
  (i < - Z.of_nat (length l))%Z ->
  list_index what l i
  = Raise (mk_exn IndexError (lit what ++ lit " index out of range")).
Proof.
  intros H. unfold list_index.
  assert (E1 : (i <? 0)%Z = true) by (apply Z.ltb_lt; lia).
  cbv zeta. rewrite E1. cbv iota.
  assert (E2 : (i + Z.of_nat (length l) <? 0)%Z = true)
    by (apply Z.ltb_lt; lia).
  now rewrite E2.
Qed.

(** ** Steps on the slide just added *)

Lemma keeps_bind {A B} P (m : Py.M state A) (k : A -> Py.M state B) :
  keeps P m -> (forall a, keeps P (k a)) -> keeps P (bind m k).
Proof.
  intros Hm Hk st H. unfold bind. specialize (Hm st H).
  destruct (m st) as [[a|e] st1]; cbn [snd] in *; auto.
  now apply Hk.
Qed.

Lemma keeps_ret {A} P (a : A) : keeps P (ret a).
Proof. intros st H. exact H. Qed.

Lemma keeps_raise {A} P e : keeps P (raise (A := A) e).
Proof. intros st H. exact H. Qed.

Lemma keeps_on_slide {A} st0 (m : Py.M slide A) :
  keeps (one_slide_added st0) (on_slide (length (slides (prs st0))) m).
Proof.
  intros st (Hf & Hp & Hl & s & Hs).
  rewrite (PptxFacts.on_slide_last m st _ _ Hs). cbn [snd].
  repeat split; auto. now exists (snd (m s)).
Qed.

Lemma one_slide_at_most st st' :
  one_slide_added st st' -> at_most_one_slide_added st st'.
Proof. intros (Hf & Hp & Hl & Hs). repeat split; auto. Qed.

Lemma at_most_refl st : at_most_one_slide_added st st.
Proof. repeat split; auto. Qed.

Lemma add_slide_adds layout st :
  add_slide layout st
  = (Ok (length (slides (prs st))),
     put_slides (slides (prs st) ++ [new_slide layout]) st)
  /\ one_slide_added st
       (put_slides (slides (prs st) ++ [new_slide layout]) st).
Proof.
  split; [reflexivity|]. repeat split. now exists (new_slide layout).
Qed.

Lemma keeps_set_shape_text st0 shape text :
  keeps (one_slide_added st0)
        (set_shape_text (length (slides (prs st0))) shape text).
Proof.
  destruct shape as [j|]; [apply keeps_on_slide | apply keeps_raise].
Qed.

Lemma returns_only_bind {A B} (v : B) (m : Py.M state A)
      (k : A -> Py.M state B) :
  (forall a, returns_only v (k a)) -> returns_only v (bind m k).
Proof.
  intros Hk st b. unfold bind.
  destruct (m st) as [[a|e] st1]; [apply Hk | discriminate].
Qed.

Lemma returns_only_ret {A} (v : A) : returns_only v (ret v).
Proof. intros st a H. now injection H. Qed.

(** A method that picks layout [i], adds a slide and then works on that
    slide alone, to return it. *)
Lemma adds_then_fills i (rest : nat -> Py.M state nat) st :
  (forall st0, keeps (one_slide_added st0)
                     (rest (length (slides (prs st0))))) ->
  (forall h, returns_only h (rest h)) ->
  at_most_one_slide_added st
    (snd (bind (slide_layout_at i)
               (fun l => bind (add_slide l) rest) st))
  /\ (forall h,
         fst (bind (slide_layout_at i)
                   (fun l => bind (add_slide l) rest) st) = Ok h ->
         h = length (slides (prs st))
         /\ one_slide_added st
              (snd (bind (slide_layout_at i)
                         (fun l => bind (add_slide l) rest) st))).
Proof.
  intros Hrest Hret. unfold bind at 1 3 5, slide_layout_at.
  destruct (list_index "slide layout" (slide_layouts (prs st)) i) as [l|e].
  - unfold bind. destruct (add_slide_adds l st) as [-> Hadd].
    pose proof (Hrest st _ Hadd) as H.
    split; [now apply one_slide_at_most|].
    intros h Hh. split; [|exact H].
    exact (Hret _ _ _ Hh).
  - cbn [fst snd]. split; [apply at_most_refl | discriminate].
Qed.

Ltac keeps_chain :=
  repeat first
    [ apply keeps_ret
    | apply keeps_on_slide
    | apply keeps_set_shape_text
    | apply keeps_bind; [|intros ?] ].

Ltac returns_chain :=
  repeat first
    [ apply returns_only_ret
    | apply returns_only_bind; intros ? ].

Lemma add_title_slide_appends t sub st :
  at_most_one_slide_added st (snd (add_title_slide t sub st))
  /\ (forall h, fst (add_title_slide t sub st) = Ok h ->
                h = length (slides (prs st))
                /\ one_slide_added st (snd (add_title_slide t sub st))).
Proof.
  unfold add_title_slide. apply adds_then_fills.
  - intros st0. keeps_chain.
  - intros h. returns_chain.
Qed.

Lemma add_content_slide_appends t points st :
  at_most_one_slide_added st (snd (add_content_slide t points st))
  /\ (forall h, fst (add_content_slide t points st) = Ok h ->
                h = length (slides (prs st))
                /\ one_slide_added st (snd (add_content_slide t points st))).
Proof.
  unfold add_content_slide. apply adds_then_fills.
  - intros st0. keeps_chain.
  - intros h. returns_chain.
Qed.

Lemma add_blank_slide_appends st :
  at_most_one_slide_added st (snd (add_blank_slide st))
  /\ (forall h, fst (add_blank_slide st) = Ok h ->
                h = length (slides (prs st))
                /\ one_slide_added st (snd (add_blank_slide st))).
Proof.
  unfold add_blank_slide, bind, slide_layout_at.
  destruct (list_index "slide layout" (slide_layouts (prs st)) 6) as [l|e].
  - destruct (add_slide_adds l st) as [-> Hadd]. cbn [fst snd].
    split; [now apply one_slide_at_most|].
    intros h [= <-]. split; [reflexivity | exact Hadd].
  - cbn [fst snd]. split; [apply at_most_refl | discriminate].
Qed.

(** ** Reading a slide *)

Lemma get_slide_text_at k s st :
  nth_error (slides (prs st)) k = Some s ->
  get_slide_text (Z.of_nat k) st = (Ok (slide_text s), st).
Proof.
  intros H. unfold get_slide_text.
  assert (Hk : k < length (slides (prs st)))
    by (apply nth_error_Some; congruence).
  assert (E : (Z.of_nat (length (slides (prs st))) <=? Z.of_nat k)%Z = false)
    by (apply Z.leb_gt; lia).
  rewrite E, (PptxFacts.list_index_nat "slide" _ _ _ H). reflexivity.
Qed.

Lemma get_slide_text_from_end k s st :
  nth_error (slides (prs st)) k = Some s ->
  get_slide_text (Z.of_nat k - Z.of_nat (length (slides (prs st)))) st
  = (Ok (slide_text s), st).
Proof.
  intros H. unfold get_slide_text.
  assert (Hk : k < length (slides (prs st)))
    by (apply nth_error_Some; congruence).
  assert (E : (Z.of_nat (length (slides (prs st)))
               <=? Z.of_nat k - Z.of_nat (length (slides (prs st))))%Z = false)
    by (apply Z.leb_gt; lia).
  rewrite E, (list_index_negative "slide" _ _ _ H). reflexivity.
Qed.

Lemma get_slide_text_below i st :
  (i < - Z.of_nat (length (slides (prs st))))%Z ->
  get_slide_text i st
  = (Raise (mk_exn IndexError (lit "slide index out of range")), st).
Proof.
  intros H. unfold get_slide_text.
  assert (E : (Z.of_nat (length (slides (prs st))) <=? i)%Z = false)
    by (apply Z.leb_gt; lia).
  rewrite E, (list_index_below "slide" _ _ H). reflexivity.
Qed.

Lemma at_most_keeps_slide st st' k s :
  at_most_one_slide_added st st' ->
  nth_error (slides (prs st)) k = Some s ->
  nth_error (slides (prs st')) k = Some s.
Proof.
  intros (_ & _ & _ & [->|(x & ->)]) H; [exact H|].
  rewrite nth_error_app1; [exact H|]. apply nth_error_Some. congruence.
Qed.

Lemma list_index_missing {A} what (l : list A) i :
  (Z.of_nat (length l) <= i)%Z ->
  list_index what l i
  = Raise (mk_exn IndexError (lit what ++ lit " index out of range")).
Proof.
  intros H. unfold list_index.
  assert (E1 : (i <? 0)%Z = false) by (apply Z.ltb_ge; lia).
  assert (E2 : (Z.of_nat (length l) <=? i)%Z = true) by (apply Z.leb_le; lia).
  cbv zeta. rewrite E1. cbv iota. rewrite E1, E2. reflexivity.
Qed.

Lemma nonblank_texts_filter l :
  nonblank_texts l = filter (fun t => negb (blank t)) (shape_texts l).
Proof.
  induction l as [|s r IH]; [reflexivity|].
  cbn [nonblank_texts shape_texts].
  destruct (shape_text s) as [x|]; [|exact IH].
  cbn [filter]. unfold blank at 1.
  destruct (Re.strip x); cbn [negb]; now rewrite IH.
Qed.

(** ** The title slide *)

Lemma new_title_slide :
  new_slide title_slide_layout
  = mk_slide [Placeholder 0 CenterTitle [empty_paragraph];
              Placeholder 1 Subtitle [empty_paragraph]].
Proof. reflexivity. Qed.

Lemma set_text_first t i ty tf b :
  forallb title_char t = true ->
  on_shape 0 (on_frame (set_frame_text t)) (mk_slide [Placeholder i ty tf; b])
  = (Ok tt, mk_slide [Placeholder i ty
                        (map stored_paragraph (split_on is_nl t)); b]).
Proof.
  intros H. unfold on_shape, on_frame, zoom. cbn [shapes nth shape_frame].
  rewrite (proj1 (PptxFacts.set_frame_text_title t tf H)). reflexivity.
Qed.

Lemma set_text_second t i ty tf a :
  forallb title_char t = true ->
  on_shape 1 (on_frame (set_frame_text t)) (mk_slide [a; Placeholder i ty tf])
  = (Ok tt, mk_slide [a; Placeholder i ty
                           (map stored_paragraph (split_on is_nl t))]).
Proof.
  intros H. unfold on_shape, on_frame, zoom. cbn [shapes nth shape_frame].
  rewrite (proj1 (PptxFacts.set_frame_text_title t tf H)). reflexivity.
Qed.

(** ** The labels of [extract_all_text] *)

Lemma lit_inj a b : lit a = lit b -> a = b.
Proof.
  unfold lit. intros H.
  rewrite <- (string_of_list_ascii_of_string a),
    <- (string_of_list_ascii_of_string b). f_equal.
  revert H. generalize (list_ascii_of_string a), (list_ascii_of_string b).
  induction l as [|x l IH]; intros [|y l'] H; try discriminate; auto.
  cbn [map] in H. injection H as Hx Hl.
  rewrite <- (ascii_N_embedding x), <- (ascii_N_embedding y), Hx.
  f_equal. now apply IH.
Qed.

Lemma decimal_inj n m : decimal n = decimal m -> n = m.
Proof.
  unfold decimal. intros H. apply lit_inj in H.
  apply Unsigned.to_uint_inj.
  assert (Hs : Some (Nat.to_uint n) = Some (Nat.to_uint m))
    by (rewrite <- !NilEmpty.usu; now rewrite H).
  now injection Hs.
Qed.

Lemma slide_label_inj i j : slide_label i = slide_label j -> i = j.
Proof.
  unfold slide_label. intros H. apply app_inv_head in H.
  apply decimal_inj in H. lia.
Qed.

Lemma dict_set_fresh {V} (d : list (str * V)) k v :
  (forall k', In k' (map fst d) -> k' <> k) ->
  dict_set d k v = d ++ [(k, v)].
Proof.
  induction d as [|[k' v'] d IH]; intros H; [reflexivity|].
  cbn [dict_set app].
  destruct (str_eqb k' k) eqn:E.
  - apply WikiMore.str_eqb_eq in E. exfalso. apply (H k'); [now left | exact E].
  - rewrite IH; [reflexivity|]. intros k0 Hk0. apply H. now right.
Qed.

Lemma collect_texts_appends sl :
  forall k acc,
    (forall key, In key (map fst acc) ->
                 exists j, j < k /\ key = slide_label j) ->
    collect_texts (combine (seq k (length sl)) sl) acc
    = acc ++ map text_entry (combine (seq k (length sl)) sl).
Proof.
  induction sl as [|s sl IH]; intros k acc Hacc.
  - cbn. now rewrite app_nil_r.
  - cbn [length seq combine collect_texts map].
    rewrite dict_set_fresh.
    + rewrite IH.
      * now rewrite <- app_assoc.
      * intros key Hkey. rewrite map_app in Hkey.
        apply in_app_or in Hkey as [Hkey|[<-|[]]].
        -- destruct (Hacc key Hkey) as (j & Hj & ->). exists j. split; [lia|auto].
        -- exists k. split; [lia | reflexivity].
    + intros key Hkey E. destruct (Hacc key Hkey) as (j & Hj & ->).
      apply slide_label_inj in E. lia.
Qed.

Lemma nonblank_texts_spec l t :
  In t (nonblank_texts l) -> Re.strip t <> [] /\ In t (shape_texts l).
Proof.
  induction l as [|s r IH]; [intros []|].
  cbn [nonblank_texts shape_texts].
  destruct (shape_text s) as [x|]; [|exact IH].
  destruct (Re.strip x) eqn:E.
  - intros H. destruct (IH H). split; [auto | now right].
  - intros [<-|H].
    + split; [rewrite E; discriminate | now left].
    + destruct (IH H). split; [auto | now right].
Qed.

Lemma nth_error_numbered {A} (l : list A) :
  forall k i x,
    nth_error l i = Some x ->
    nth_error (combine (seq k (length l)) l) i = Some (k + i, x).
Proof.
  induction l as [|y l IH]; intros k [|i] x H; try discriminate.
  - injection H as ->. cbn. now rewrite Nat.add_0_r.
  - cbn [length seq combine nth_error] in *.
    rewrite (IH (S k) i x H). f_equal. f_equal. lia.
Qed.

Lemma nth_error_enumerate {A} (l : list A) i x :
  nth_error l i = Some x -> nth_error (enumerate l) i = Some (i, x).
Proof. intros H. exact (nth_error_numbered l 0 i x H). Qed.
End PptxMore.

(** * The cleaners: what holds of their output *)




(** C2, as stated, fails: the snippet cleaner is another transform.  It
    neither collapses whitespace nor removes markers, and it decodes
    entities, which the four steps do not. *)
Lemma clean_html_is_not_the_four_steps :
  _clean_html (lit "a  b[1] &amp;") = lit "a  b[1] &"
  /\ _extract_text_from_html (lit "a  b[1] &amp;") = lit "a b &amp;"
  /\ ~ CleanSpec.cleaned (lit "a  b[1] &amp;") (_clean_html (lit "a  b[1] &amp;"))
  /\ _clean_html (lit "a  b[1] &amp;")
     <> _extract_text_from_html (lit "a  b[1] &amp;").
Proof.
  split; [reflexivity|]. split; [reflexivity|]. split.
  - intros H. apply ReFacts.cleaned_iff in H. discriminate H.
  - discriminate.
Qed.

(** C2, amended: [_extract_text_from_html] computes exactly the four
    steps of the specification; [_clean_html] computes exactly tag
    removal, decoding of the four entities and trimming; the two agree on
    every input whose tag-stripped text has no whitespace to collapse, no
    reference marker and no entity. *)
Theorem cleaners_refine_their_steps (s : str) :
  (forall out, CleanSpec.cleaned s out <-> out = _extract_text_from_html s)
  /\ (forall out, CleanSpec.snippet_cleaned s out <-> out = _clean_html s)
  /\ (ws_normal (strip_tags s) = true ->
      ref_free (strip_tags s) = true ->
      entity_free (strip_tags s) = true ->
      _clean_html s = _extract_text_from_html s).
Proof.
  split; [intros out; apply ReFacts.cleaned_iff|].
  split; [intros out; apply ReFacts.snippet_cleaned_iff|].
  apply ReFacts.clean_eq_extract.
Qed.

Lemma cleaners_refine_their_steps_witness :
  ws_normal (strip_tags (lit " <b>Alan</b> Turing ")) = true
  /\ ref_free (strip_tags (lit " <b>Alan</b> Turing ")) = true
  /\ entity_free (strip_tags (lit " <b>Alan</b> Turing ")) = true
  /\ _clean_html (lit " <b>Alan</b> Turing ")
     = _extract_text_from_html (lit " <b>Alan</b> Turing ").
Proof.
  split; [reflexivity|]. split; [reflexivity|]. split; [reflexivity|].
  apply (cleaners_refine_their_steps (lit " <b>Alan</b> Turing "));
    reflexivity.
Defined.




(** * Retrieval: not-found, degraded fetches, batches *)

Section RetrievalClaims.
Import Py Requests.
Context {World : Type}.
Variable http_get : request -> World -> outcome * World.

(** C4: when the source answers the primary content fetch with status
    404, [get_page] returns [None]; nothing is raised, no further
    request is made and nothing is printed. *)
Theorem get_page_not_found_returns_none
        (self : WikipediaAgent) (t : str) (include_links : bool)
        (st : wiki_state World) (q : str) (r : response) (w : World) :
  Urllib.quote t = Ok q ->
  http_get (content_request self q) (world st) = (Responds r, w) ->
  status_code r = 404%Z ->
  get_page http_get self t include_links st
  = (Ok None, mk_wiki_state w (stdout st)).
Proof.
  intros Hq Hget Hs.
  unfold get_page, try_except, bind, lift, requests_get.
  rewrite Hq, Hget, Hs. reflexivity.
Qed.

(** C10: whenever [get_page] returns a record, its title is the title
    asked for, unchanged, and its url is the language-scoped base
    address followed by the percent-encoding of that title. *)
Theorem get_page_title_and_url
        (self : WikipediaAgent) (t : str) (include_links : bool)
        (st st' : wiki_state World) (page : WikipediaPage) :
  get_page http_get self t include_links st = (Ok (Some page), st') ->
  title page = t
  /\ exists q, Urllib.quote t = Ok q
               /\ url page = lit "https://" ++ language self
                                 ++ lit ".wikipedia.org/wiki/" ++ q.
Proof.
  unfold get_page, try_except. intros H.
  match type of H with
  | context [match ?body st with _ => _ end] =>
      destruct (body st) as [[a|e] st1] eqn:E
  end.
  2:{ destruct (is_request_exception e); discriminate H. }
  injection H as -> ->.
  apply WikiFacts.bind_Ok in E as (q & s1 & Hq & E).
  apply WikiFacts.bind_Ok in E as (cr & s2 & _ & E).
  destruct (status_code cr =? 404)%Z; [discriminate E|].
  apply WikiFacts.bind_Ok in E as (? & s3 & _ & E).
  apply WikiFacts.bind_Ok in E as (q2 & s4 & _ & E).
  apply WikiFacts.bind_Ok in E as (sr & s5 & _ & E).
  apply WikiFacts.bind_Ok in E as (sd & s6 & _ & E).
  apply WikiFacts.bind_Ok in E as (cats & s7 & _ & E).
  apply WikiFacts.bind_Ok in E as (ls & s8 & _ & E).
  apply WikiFacts.bind_Ok in E as (q3 & s9 & Hq3 & E).
  apply WikiFacts.bind_Ok in E as (ex & s10 & _ & E).
  injection E as <- _.
  unfold lift in Hq3. injection Hq3 as Hq3 _.
  split; [reflexivity|]. exists q3. split; [exact Hq3 | reflexivity].
Qed.

(** Transport failures of the categories and links calls do degrade:
    with the content fetched and the summary call answered by a status
    other than 200, the record has an empty summary, no category and no
    link. *)
Lemma get_page_degrades_categories_and_links
      (self : WikipediaAgent) (t q : str) (st : wiki_state World)
      (cr sr : response) (w1 w2 w3 w4 : World) (m3 m4 : str) :
  Urllib.quote t = Ok q ->
  http_get (content_request self q) (world st) = (Responds cr, w1) ->
  status_code cr = 200%Z ->
  http_get (summary_request self q) w1 = (Responds sr, w2) ->
  status_code sr <> 200%Z ->
  (forall rq, http_get rq w2 = (Fails m3, w3)) ->
  (forall rq, http_get rq w3 = (Fails m4, w4)) ->
  get_page http_get self t true st
  = (Ok (Some (mk_WikipediaPage t (_extract_text_from_html (text cr))
                 (wiki_url self q) (JStr []) [] [])),
     mk_wiki_state w4 (stdout st)).
Proof.
  intros Hq H1 Hs1 H2 Hs2 H3 H4.
  unfold get_page, _get_page_categories, _get_page_links, try_except, bind,
    lift, requests_get, raise_for_status.
  rewrite Hq, H1, Hs1. cbn -[_extract_text_from_html Urllib.quote].
  rewrite H2. apply Z.eqb_neq in Hs2. rewrite Hs2.
  cbn -[_extract_text_from_html Urllib.quote].
  rewrite H3. cbn -[_extract_text_from_html Urllib.quote].
  rewrite H4. reflexivity.
Qed.

End RetrievalClaims.

Lemma get_page_not_found_returns_none_witness :
  get_page scripted en_agent (lit "No such page") true
    (start [Requests.Responds (html_response 404 (lit "Not found."))])
  = (Py.Ok None, start []).
Proof.
  apply (get_page_not_found_returns_none scripted en_agent
           (lit "No such page") true
           (start [Requests.Responds (html_response 404 (lit "Not found."))])
           (lit "No%20such%20page") (html_response 404 (lit "Not found.")) []);
    reflexivity.
Defined.

(** C5 fails on the summary call: with the content fetched, a transport
    failure of the summary request is caught by the handler of the whole
    method and raised again; no record is returned. *)
Theorem get_page_summary_failure_is_raised :
  get_page scripted en_agent (lit "Alan Turing") true
    (start [Requests.Responds (html_response 200 (lit "<p>Alan Turing</p>"));
            Requests.Fails (lit "Read timed out")])
  = (Py.Raise (Py.mk_exn Py.Exception
                 (lit "Failed to retrieve page 'Alan Turing': Read timed out")),
     start []).
Proof. reflexivity. Qed.

Lemma get_page_title_and_url_witness :
  get_page scripted en_agent (lit "Alan Turing") true
    (start [Requests.Responds (html_response 200 (lit "<p>Alan Turing</p>"));
            Requests.Responds page_summary_response;
            Requests.Responds categories_response;
            Requests.Responds links_response])
  = (Py.Ok (Some turing_page), start [])
  /\ title turing_page = lit "Alan Turing"
  /\ exists q, Urllib.quote (lit "Alan Turing") = Py.Ok q
               /\ url turing_page
                  = lit "https://" ++ language en_agent
                        ++ lit ".wikipedia.org/wiki/" ++ q.
Proof.
  split; [reflexivity|].
  apply (get_page_title_and_url scripted en_agent (lit "Alan Turing") true
           (start [Requests.Responds (html_response 200 (lit "<p>Alan Turing</p>"));
                   Requests.Responds page_summary_response;
                   Requests.Responds categories_response;
                   Requests.Responds links_response])
           (start [])).
  reflexivity.
Defined.



(** * Slides: content, out-of-range indices, missing files *)

Section SlideClaims.
Import Py Pptx PowerPointTool.

(** C7, amended: on a presentation whose layout 1 is the template's
    "Title and Content", for a title and points made of characters that
    python-pptx stores unchanged, the points holding no line feed,
    [add_content_slide] appends one slide, and [get_slide_text] on its
    index returns the title, a line feed, and the points joined by line
    feeds: the title and every point, in order.  Each point is one
    paragraph of the body, at level 0. *)
Theorem content_slide_text_round_trip
        (t : str) (points : list str) (st : state) :
  nth_error (slide_layouts (prs st)) 1 = Some title_and_content ->
  forallb title_char t = true ->
  Forall (fun p => forallb point_char p = true) points ->
  exists st' title_frame body,
    add_content_slide t points st = (Ok (length (slides (prs st))), st')
    /\ slides (prs st')
       = slides (prs st)
           ++ [mk_slide [Placeholder 0 Title title_frame;
                         Placeholder 1 Object body]]
    /\ get_slide_text (Z.of_nat (length (slides (prs st)))) st'
       = (Ok (t ++ chr_nl :: join [chr_nl] points), st')
    /\ occurs_in_order (t :: points) (t ++ chr_nl :: join [chr_nl] points)
    /\ Forall (fun p => p_level p = 0%Z) body
    /\ (points <> [] -> map paragraph_text body = points).
Proof.
  intros Hlayout Ht Hpoints.
  set (sl := slides (prs st)).
  set (title_frame := map stored_paragraph (split_on is_nl t)).
  set (body := match points with
               | [] => [empty_paragraph]
               | _ => map stored_paragraph points
               end).
  exists (put_slides (sl ++ [mk_slide [Placeholder 0 Title title_frame;
                                       Placeholder 1 Object body]]) st),
    title_frame, body.
  pose proof (proj2 (PptxFacts.set_frame_text_title t [empty_paragraph] Ht))
    as Htext.
  split; [|split; [reflexivity|split; [|split; [|split]]]].
  - unfold add_content_slide, bind, slide_layout_at.
    pose proof (PptxFacts.list_index_nat "slide layout" _ 1 _ Hlayout) as HL.
    change (Z.of_nat 1) with 1%Z in HL. rewrite HL.
    unfold add_slide. fold sl.
    set (st1 := put_slides (sl ++ [new_slide title_and_content]) st).
    assert (E1 : slides (prs st1) = sl ++ [new_slide title_and_content])
      by reflexivity.
    unfold shapes_title.
    rewrite (PptxFacts.on_slide_last _ st1 _ _ E1). cbn [fst snd].
    change (put_slides (sl ++ [new_slide title_and_content]) st1) with st1.
    unfold placeholder_at.
    rewrite (PptxFacts.on_slide_last _ st1 _ _ E1).
    rewrite PptxFacts.new_content_slide.
    cbn [shapes find_placeholder ph_idx Nat.eqb option_map fst snd].
    unfold set_shape_text.
    rewrite <- PptxFacts.new_content_slide.
    change (put_slides (sl ++ [new_slide title_and_content]) st1) with st1.
    rewrite (PptxFacts.on_slide_last _ st1 _ _ E1).
    rewrite PptxFacts.new_content_slide, (PptxFacts.set_title_text _ _ Ht).
    cbn [fst snd]. fold title_frame.
    set (s2 := mk_slide [Placeholder 0 Title title_frame;
                         Placeholder 1 Object [empty_paragraph]]).
    set (st2 := put_slides (sl ++ [s2]) st1).
    assert (E2 : slides (prs st2) = sl ++ [s2]) by reflexivity.
    rewrite (PptxFacts.on_slide_last _ st2 _ _ E2).
    unfold s2. rewrite (PptxFacts.set_body_points _ _ Hpoints).
    reflexivity.
  - unfold get_slide_text. cbn [put_slides prs slides]. fold sl.
    assert (E : (Z.of_nat (length (sl ++ [mk_slide
                   [Placeholder 0 Title title_frame;
                    Placeholder 1 Object body]]))
                 <=? Z.of_nat (length sl))%Z = false).
    { apply Z.leb_gt. rewrite length_app. cbn [length]. lia. }
    rewrite E.
    rewrite (PptxFacts.list_index_nat "slide" _ (length sl) _
               (PptxFacts.nth_error_app_end sl _)).
    cbn [shapes shape_texts shape_text shape_frame option_map join].
    unfold title_frame. rewrite Htext.
    now rewrite (PptxFacts.body_text _ Hpoints
                 : frame_text body = join [chr_nl] points).
  - apply PptxFacts.occurs_in_order_join.
  - unfold body. destruct points as [|p rest].
    + repeat constructor.
    + apply Forall_forall. intros x Hx.
      apply in_map_iff in Hx as (y & <- & Hy).
      rewrite Forall_forall in Hpoints.
      exact (proj2 (proj2 (PptxFacts.stored_paragraph_text y (Hpoints y Hy)))).
  - intros Hne. unfold body. destruct points as [|p rest]; [congruence|].
    apply (PptxFacts.map_stored_text _ Hpoints).
Qed.


(** At or above the slide count the sentinel is returned. *)
Lemma get_slide_text_at_or_above_count (i : Z) (st : state) :
  (Z.of_nat (length (slides (prs st))) <= i)%Z ->
  get_slide_text i st = (Ok out_of_range_message, st).
Proof.
  intros H. unfold get_slide_text.
  apply Z.leb_le in H. now rewrite H.
Qed.
End SlideClaims.

Lemma content_slide_text_round_trip_witness :
  exists st' title_frame body,
    PowerPointTool.add_content_slide (lit "Topics") [lit "A"; lit "B"; lit "C"]
      fresh
    = (Py.Ok (length (Pptx.slides (PowerPointTool.prs fresh))), st')
    /\ Pptx.slides (PowerPointTool.prs st')
       = Pptx.slides (PowerPointTool.prs fresh)
           ++ [Pptx.mk_slide [Pptx.Placeholder 0 Pptx.Title title_frame;
                              Pptx.Placeholder 1 Pptx.Object body]]
    /\ PowerPointTool.get_slide_text
         (Z.of_nat (length (Pptx.slides (PowerPointTool.prs fresh)))) st'
       = (Py.Ok (lit "Topics" ++ chr_nl
                     :: Py.join [chr_nl] [lit "A"; lit "B"; lit "C"]), st')
    /\ occurs_in_order (lit "Topics" :: [lit "A"; lit "B"; lit "C"])
         (lit "Topics" ++ chr_nl
              :: Py.join [chr_nl] [lit "A"; lit "B"; lit "C"])
    /\ Forall (fun p => Pptx.p_level p = 0%Z) body
    /\ ([lit "A"; lit "B"; lit "C"] <> [] ->
        map Pptx.paragraph_text body = [lit "A"; lit "B"; lit "C"]).
Proof.
  apply (content_slide_text_round_trip (lit "Topics")
           [lit "A"; lit "B"; lit "C"] fresh).
  - reflexivity.
  - reflexivity.
  - repeat constructor.
Defined.

(** C7, as stated, fails: a point that holds a line feed is stored with
    a line break in its place, which reads back as a vertical tab, so the
    text of the slide does not contain the point. *)
Lemma content_slide_rewrites_line_feed_in_point :
  fst (PowerPointTool.add_content_slide (lit "T") [two_line_point] fresh)
  = Py.Ok 0
  /\ PowerPointTool.get_slide_text 0 after_two_line_point
     = (Py.Ok [84; 10; 97; 11; 98]%N, after_two_line_point)
  /\ ~ occurs_in_order [lit "T"; two_line_point] [84; 10; 97; 11; 98]%N.
Proof.
  split; [reflexivity|]. split; [reflexivity|].
  intros (a & b & E & a' & b' & E' & _). subst b.
  pose proof (PptxFacts.is_infix_complete two_line_point
                (a ++ lit "T" ++ a') b') as H.
  rewrite <- !app_assoc in H. rewrite <- E in H.
  vm_compute in H. discriminate H.
Qed.

(** C8 fails below the range: on a presentation without slides the
    index -1 passes the guard, the slide lookup raises [IndexError], and
    no sentinel is returned. *)
Theorem get_slide_text_below_range_raises :
  PowerPointTool.get_slide_text (-1) fresh
  = (Py.Raise (Py.mk_exn Py.IndexError (lit "slide index out of range")),
     fresh).
Proof. reflexivity. Qed.



(** * Further properties of the cleaners *)

(** X1: both cleaners return trimmed text: the result neither begins
    nor ends with a whitespace character. *)
Theorem cleaned_text_is_trimmed (s : str) :
  head_nonspace (_extract_text_from_html s)
  /\ head_nonspace (rev (_extract_text_from_html s))
  /\ head_nonspace (_clean_html s)
  /\ head_nonspace (rev (_clean_html s)).
Proof.
  unfold _extract_text_from_html, _clean_html.
  split; [apply ReFacts.strip_trimmed|].
  split; [apply ReFacts.strip_trimmed|].
  split; apply ReFacts.strip_trimmed.
Qed.

(** X2: the only whitespace character in the output of
    [_extract_text_from_html] is the space: tabs, line feeds and the
    other Unicode spaces of the page are all replaced. *)
Theorem extracted_text_whitespace_is_space (s : str) (c : char) :
  In c (_extract_text_from_html s) -> Unicode.isspace c = true ->
  c = chr_space.
Proof. apply ReFacts.extract_spaces. Qed.

Lemma extracted_text_whitespace_is_space_witness :
  In chr_space (_extract_text_from_html [65; 9; 10; 66]%N)
  /\ Unicode.isspace chr_space = true
  /\ chr_space = chr_space.
Proof.
  split; [vm_compute; tauto|]. split; [reflexivity|].
  apply (extracted_text_whitespace_is_space [65; 9; 10; 66]%N chr_space).
  - vm_compute; tauto.
  - reflexivity.
Defined.

(** X3: neither cleaner returns more characters than it was given. *)
Theorem cleaners_never_lengthen (s : str) :
  length (_extract_text_from_html s) <= length s
  /\ length (_clean_html s) <= length s.
Proof.
  split; [apply ReFacts.extract_length | apply ReFacts.clean_length].
Qed.

(** X4: the cleaners invent no text.  Every character
    [_extract_text_from_html] returns occurs in its input or is a space;
    every character [_clean_html] returns occurs in its input or is one
    of the four characters its entities stand for. *)
Theorem cleaners_invent_no_character (s : str) (c : char) :
  (In c (_extract_text_from_html s) -> In c s \/ c = chr_space)
  /\ (In c (_clean_html s) ->
      In c s \/ In c [chr_quote; chr_amp; chr_lt; chr_gt]).
Proof.
  split; [apply ReFacts.extract_In | apply ReFacts.clean_In].
Qed.

Lemma cleaners_invent_no_character_witness :
  (In chr_space [65; 9; 66]%N \/ chr_space = chr_space)
  /\ (In chr_lt (lit "&lt;") \/ In chr_lt [chr_quote; chr_amp; chr_lt; chr_gt]).
Proof.
  split.
  - apply (cleaners_invent_no_character [65; 9; 66]%N chr_space).
    vm_compute; tauto.
  - apply (cleaners_invent_no_character (lit "&lt;") chr_lt).
    vm_compute; tauto.
Defined.

(** X5: text that needs no cleaning passes through unchanged.  A string
    with no tag span, no whitespace other than single spaces between
    words, no reference marker and no whitespace at either end is a fixed
    point of [_extract_text_from_html]; a string with no tag span, none
    of the four entities and no whitespace at either end is a fixed point
    of [_clean_html]. *)
Theorem clean_text_passes_through (s : str) :
  head_nonspace s -> head_nonspace (rev s) -> tag_free s = true ->
  (ws_normal s = true -> ref_free s = true ->
   _extract_text_from_html s = s)
  /\ (entity_free s = true -> _clean_html s = s).
Proof.
  intros H1 H2 Ht. split.
  - intros Hw Hr. now apply ReFacts.extract_id.
  - intros He. now apply ReFacts.clean_id.
Qed.

Lemma clean_text_passes_through_witness :
  _extract_text_from_html (lit "2 > 1 and a[i] < b") = lit "2 > 1 and a[i] < b"
  /\ _clean_html (lit "2 > 1 and a[i] < b") = lit "2 > 1 and a[i] < b".
Proof.
  destruct (clean_text_passes_through (lit "2 > 1 and a[i] < b"))
    as [He Hc]; try reflexivity.
  split; [apply He; reflexivity | apply Hc; reflexivity].
Defined.

(** * Further properties of the retrieval methods *)

Section RetrievalExtras.
Import Py Requests.
Context {World : Type}.
Variable http_get : request -> World -> outcome * World.

(** X6: no [requests] exception leaves the agent.  Whatever [search],
    [get_page] and [get_summary] raise is not a [RequestException] (they
    raise a plain [Exception] in its place), and neither is anything
    [get_page_links] or [get_page_categories] raise. *)
Theorem no_request_exception_escapes
        (self : WikipediaAgent) (st st' : wiki_state World) (e : exn) :
  (forall query limit,
      search http_get self query limit st = (Raise e, st') ->
      is_request_exception e = false)
  /\ (forall t include_links,
         get_page http_get self t include_links st = (Raise e, st') ->
         is_request_exception e = false)
  /\ (forall t sentences,
         get_summary http_get self t sentences st = (Raise e, st') ->
         is_request_exception e = false)
  /\ (forall t limit,
         get_page_links http_get self t limit st = (Raise e, st') ->
         is_request_exception e = false)
  /\ (forall t,
         get_page_categories http_get self t st = (Raise e, st') ->
         is_request_exception e = false).
Proof.
  split; [|split; [|split; [|split]]]; intros *;
    apply WikiMore.try_except_filters; intros e0 s0 e1 s1;
    first [ apply WikiMore.raise_Exception_no_request
          | apply WikiMore.ret_no_raise ].
Qed.

(** X7: when the one request of [search] or [get_summary] fails (the
    transport raises, or the answer has an error status), the method
    raises an [Exception] whose message names the method's purpose and
    the cause, and nothing is printed. *)
Theorem query_failure_is_wrapped
        (self : WikipediaAgent) (st : wiki_state World) (cause : str)
        (w : World) :
  (forall query limit,
      request_fails http_get (search_request self query limit) (world st)
                    cause w ->
      search http_get self query limit st
      = (Raise (mk_exn Exception (lit "Search failed: " ++ cause)),
         mk_wiki_state w (stdout st)))
  /\ (forall t sentences,
         request_fails http_get (extract_request self t sentences) (world st)
                       cause w ->
         get_summary http_get self t sentences st
         = (Raise (mk_exn Exception
                     (lit "Failed to get summary for '" ++ t ++ lit "': "
                          ++ cause)),
            mk_wiki_state w (stdout st))).
Proof.
  split.
  - intros query limit H. unfold search, try_except.
    fold (search_request self query limit).
    now rewrite (WikiMore.request_fails_raises _ _ _ _ _ _ H).
  - intros t sentences H. unfold get_summary, try_except.
    fold (extract_request self t sentences).
    now rewrite (WikiMore.request_fails_raises _ _ _ _ _ _ H).
Qed.

(** X8: when the content request of [get_page] fails (the transport
    raises, or the answer has an error status other than 404), the
    method raises an [Exception] naming the title and the cause, and
    sends no further request. *)
Theorem get_page_content_failure_is_wrapped
        (self : WikipediaAgent) (t q : str) (include_links : bool)
        (st : wiki_state World) (cause : str) (w : World) :
  Urllib.quote t = Ok q ->
  request_fails http_get (content_request self q) (world st) cause w ->
  (forall r, http_get (content_request self q) (world st) = (Responds r, w) ->
             status_code r <> 404%Z) ->
  get_page http_get self t include_links st
  = (Raise (mk_exn Exception
              (lit "Failed to retrieve page '" ++ t ++ lit "': " ++ cause)),
     mk_wiki_state w (stdout st)).
Proof.
  intros Hq H H404. unfold get_page, try_except, bind at 1, lift at 1.
  rewrite Hq.
  destruct H as [H|(r & H & Hs & Hm)]; unfold bind at 1.
  - now rewrite (WikiMore.requests_get_fails _ _ _ _ _ H).
  - rewrite (WikiMore.requests_get_responds _ _ _ _ _ H).
    specialize (H404 r H). apply Z.eqb_neq in H404. rewrite H404.
    unfold bind at 1, lift at 1.
    now rewrite (WikiMore.raise_for_status_error _ Hs), Hm.
Qed.

(** X9: [get_page_links] and [get_page_categories] answer a failed
    request (the transport raises, or the answer has an error status)
    with the empty list. *)
Theorem links_and_categories_degrade_to_empty
        (self : WikipediaAgent) (t : str) (st : wiki_state World)
        (cause : str) (w : World) :
  (forall limit,
      request_fails http_get (links_request self t limit) (world st) cause w ->
      get_page_links http_get self t limit st
      = (Ok [], mk_wiki_state w (stdout st)))
  /\ (request_fails http_get (categories_request self t) (world st) cause w ->
      get_page_categories http_get self t st
      = (Ok [], mk_wiki_state w (stdout st))).
Proof.
  split.
  - intros limit H. unfold get_page_links, _get_page_links, try_except.
    fold (links_request self t limit).
    now rewrite (WikiMore.request_fails_raises _ _ _ _ _ _ H).
  - intros H. unfold get_page_categories, _get_page_categories, try_except.
    fold (categories_request self t).
    now rewrite (WikiMore.request_fails_raises _ _ _ _ _ _ H).
Qed.

(** X10: [get_summary] reads the page mapping of the answer in order.
    When every page id is the sentinel "-1" (or there is no page) it
    returns [None]; otherwise it returns the extract of the first page
    whose id is not the sentinel, and the empty string when that page has
    no extract. *)
Theorem get_summary_skips_sentinel_pages
        (self : WikipediaAgent) (t : str) (sentences : Z)
        (st : wiki_state World) (r : response) (w : World)
        (data query : list (str * json)) (pages : list (str * json)) :
  http_get (extract_request self t sentences) (world st) = (Responds r, w) ->
  ~ error_status (status_code r) ->
  json_body r = inr (JDict data) ->
  lookup data (lit "query") = Some (JDict query) ->
  lookup query (lit "pages") = Some (JDict pages) ->
  (Forall is_sentinel pages ->
   get_summary http_get self t sentences st
   = (Ok None, mk_wiki_state w (stdout st)))
  /\ (forall pre id d rest,
         pages = pre ++ (id, JDict d) :: rest ->
         Forall is_sentinel pre -> id <> lit "-1" ->
         get_summary http_get self t sentences st
         = (Ok (Some (match lookup d (lit "extract") with
                      | Some x => x
                      | None => JStr []
                      end)),
            mk_wiki_state w (stdout st))).
Proof.
  intros Hget Hs Hj Hq Hp.
  assert (E : forall res,
             first_extract pages = Ok res ->
             get_summary http_get self t sentences st
             = (Ok res, mk_wiki_state w (stdout st))).
  { intros res Hres. unfold get_summary, try_except.
    fold (extract_request self t sentences). unfold bind, lift.
    rewrite (WikiMore.requests_get_responds _ _ _ _ _ Hget).
    rewrite (WikiMore.raise_for_status_ok _ Hs).
    unfold response_json. rewrite Hj. cbn [get]. rewrite Hq.
    cbn [get]. rewrite Hp. cbn [items]. now rewrite Hres. }
  split.
  - intros H. apply E. now apply WikiMore.first_extract_sentinel.
  - intros pre id d rest -> Hpre Hid. apply E.
    now apply WikiMore.first_extract_first.
Qed.

(** X11: every result [search] returns is well formed: its url is the
    page address of its own title, percent-encoded, and its snippet is
    the image of [_clean_html]. *)
Theorem search_results_are_well_formed
        (self : WikipediaAgent) (query : str) (limit : Z)
        (st st' : wiki_state World) (results : list SearchResult) :
  search http_get self query limit st = (Ok results, st') ->
  Forall (result_well_formed self) results.
Proof.
  unfold search, try_except. intros H.
  match type of H with
  | context [match ?body st with _ => _ end] =>
      destruct (body st) as [[a|e] st1] eqn:E
  end.
  2:{ destruct (is_request_exception e); discriminate H. }
  injection H as -> ->.
  apply WikiFacts.bind_Ok in E as (r & s1 & _ & E).
  apply WikiFacts.bind_Ok in E as (? & s2 & _ & E).
  apply WikiFacts.bind_Ok in E as (data & s3 & _ & E).
  apply WikiFacts.bind_Ok in E as (qv & s4 & _ & E).
  apply WikiFacts.bind_Ok in E as (sv & s5 & _ & E).
  apply WikiFacts.bind_Ok in E as (its & s6 & _ & E).
  exact (proj1 (WikiMore.search_loop self its [] _ _ _ E (Forall_nil _))).
Qed.

(** X12: the content of every record [get_page] returns is cleaned text:
    it contains no tag span, no whitespace at either end and no
    whitespace character other than the space.  A record asked for
    without links has none. *)
Theorem get_page_content_is_cleaned
        (self : WikipediaAgent) (t : str) (include_links : bool)
        (st st' : wiki_state World) (page : WikipediaPage) :
  get_page http_get self t include_links st = (Ok (Some page), st') ->
  CleanSpec.contains_no CleanSpec.is_tag (content page)
  /\ head_nonspace (content page)
  /\ head_nonspace (rev (content page))
  /\ only_spaces (content page)
  /\ (include_links = false -> links page = []).
Proof.
  intros H.
  destruct (WikiMore.get_page_record _ _ _ _ _ _ _ H)
    as (_ & _ & (html & ->) & Hl).
  split; [apply ReFacts.tag_free_iff, ReFacts.tag_free_extract|].
  split; [apply ReFacts.strip_trimmed|].
  split; [apply ReFacts.strip_trimmed|].
  split; [intros c; apply ReFacts.extract_spaces | exact Hl].
Qed.

(** X13: the dict [create_knowledge_base] returns holds no topic twice,
    however often a topic is asked for, and the page under a topic is the
    page of that topic: its title is the topic and its url the topic's
    page address. *)
Theorem knowledge_base_entries_are_well_formed
        (agent : WikipediaAgent) (topics : list str)
        (st st' : wiki_state World) (kb : list (str * WikipediaPage)) :
  create_knowledge_base http_get agent topics st = (Ok kb, st') ->
  NoDup (map fst kb) /\ Forall (entry_well_formed agent) kb.
Proof.
  intros H.
  apply (WikiMore.knowledge_base_invariant http_get agent topics [] st kb st');
    [|exact H].
  split; constructor.
Qed.
End RetrievalExtras.

Lemma no_request_exception_escapes_witness :
  Py.is_request_exception
    (Py.mk_exn Py.Exception (lit "Search failed: Read timed out")) = false
  /\ Py.is_request_exception
       (Py.mk_exn Py.Exception
          (lit "Failed to retrieve page 'Alan Turing': Read timed out")) = false
  /\ Py.is_request_exception
       (Py.mk_exn Py.Exception
          (lit "Failed to get summary for 'Alan Turing': Read timed out")) = false.
Proof.
  split; [|split].
  - apply (proj1 (no_request_exception_escapes scripted en_agent
                    unreachable (start []) _) (lit "turing") 3%Z).
    reflexivity.
  - apply (proj1 (proj2 (no_request_exception_escapes scripted en_agent
                           unreachable (start []) _)) (lit "Alan Turing") true).
    reflexivity.
  - apply (proj1 (proj2 (proj2 (no_request_exception_escapes scripted en_agent
                                  unreachable (start []) _)))
             (lit "Alan Turing") 3%Z).
    reflexivity.
Defined.

Lemma query_failure_is_wrapped_witness :
  search scripted en_agent (lit "turing") 5 unreachable
  = (Py.Raise (Py.mk_exn Py.Exception (lit "Search failed: Read timed out")),
     start [])
  /\ get_summary scripted en_agent (lit "Alan Turing") 3 unavailable
     = (Py.Raise (Py.mk_exn Py.Exception
                    (lit "Failed to get summary for 'Alan Turing': HTTP error")),
        start []).
Proof.
  split.
  - apply (proj1 (query_failure_is_wrapped scripted en_agent unreachable
                    (lit "Read timed out") [])).
    left. reflexivity.
  - apply (proj2 (query_failure_is_wrapped scripted en_agent unavailable
                    (lit "HTTP error") [])).
    right. exists (html_response 503 (lit "Service Unavailable")).
    split; [reflexivity|]. split; [|reflexivity].
    unfold error_status. cbn. lia.
Defined.

Lemma get_page_content_failure_is_wrapped_witness :
  get_page scripted en_agent (lit "Alan Turing") true unavailable
  = (Py.Raise (Py.mk_exn Py.Exception
                 (lit "Failed to retrieve page 'Alan Turing': HTTP error")),
     start []).
Proof.
  apply (get_page_content_failure_is_wrapped scripted en_agent
           (lit "Alan Turing") (lit "Alan%20Turing") true unavailable
           (lit "HTTP error") []).
  - reflexivity.
  - right. exists (html_response 503 (lit "Service Unavailable")).
    split; [reflexivity|]. split; [|reflexivity].
    unfold error_status. cbn. lia.
  - intros r [= <-]. discriminate.
Defined.

Lemma links_and_categories_degrade_to_empty_witness :
  get_page_links scripted en_agent (lit "Alan Turing") 50 unreachable
  = (Py.Ok [], start [])
  /\ get_page_categories scripted en_agent (lit "Alan Turing") unavailable
     = (Py.Ok [], start []).
Proof.
  split.
  - apply (proj1 (links_and_categories_degrade_to_empty scripted en_agent
                    (lit "Alan Turing") unreachable (lit "Read timed out") [])).
    left. reflexivity.
  - apply (proj2 (links_and_categories_degrade_to_empty scripted en_agent
                    (lit "Alan Turing") unavailable (lit "HTTP error") [])).
    right. exists (html_response 503 (lit "Service Unavailable")).
    split; [reflexivity|]. split; [|reflexivity].
    unfold error_status. cbn. lia.
Defined.

Lemma get_summary_skips_sentinel_pages_witness :
  get_summary scripted en_agent (lit "Nosuch") 3
    (start [Requests.Responds missing_page_response])
  = (Py.Ok None, start [])
  /\ get_summary scripted en_agent (lit "Alan Turing") 3
       (start [Requests.Responds summary_response])
     = (Py.Ok (Some (Py.JStr (lit "Alan Turing was a mathematician."))),
        start []).
Proof.
  split.
  - apply (proj1 (get_summary_skips_sentinel_pages scripted en_agent
                    (lit "Nosuch") 3
                    (start [Requests.Responds missing_page_response])
                    missing_page_response [] _ _ _
                    eq_refl (fun H => ltac:(unfold error_status in H; cbn in H; lia))
                    eq_refl eq_refl eq_refl)).
    repeat constructor.
  - apply (proj2 (get_summary_skips_sentinel_pages scripted en_agent
                    (lit "Alan Turing") 3
                    (start [Requests.Responds summary_response])
                    summary_response [] _ _ _
                    eq_refl (fun H => ltac:(unfold error_status in H; cbn in H; lia))
                    eq_refl eq_refl eq_refl)
             [] (lit "1208")
             [(lit "extract", Py.JStr (lit "Alan Turing was a mathematician."))]
             []).
    + reflexivity.
    + constructor.
    + discriminate.
Defined.

Lemma search_results_are_well_formed_witness :
  search scripted en_agent (lit "turing") 5
    (start [Requests.Responds search_response])
  = (Py.Ok [turing_result], start [])
  /\ Forall (result_well_formed en_agent) [turing_result].
Proof.
  split; [reflexivity|].
  apply (search_results_are_well_formed scripted en_agent (lit "turing") 5
           (start [Requests.Responds search_response]) (start [])).
  reflexivity.
Defined.

Lemma get_page_content_is_cleaned_witness :
  CleanSpec.contains_no CleanSpec.is_tag (content turing_page)
  /\ head_nonspace (content turing_page)
  /\ head_nonspace (rev (content turing_page))
  /\ only_spaces (content turing_page)
  /\ (true = false -> links turing_page = []).
Proof.
  apply (get_page_content_is_cleaned scripted en_agent (lit "Alan Turing") true
           (start [Requests.Responds (html_response 200 (lit "<p>Alan Turing</p>"));
                   Requests.Responds page_summary_response;
                   Requests.Responds categories_response;
                   Requests.Responds links_response])
           (start [])).
  reflexivity.
Defined.

Lemma knowledge_base_entries_are_well_formed_witness :
  NoDup (map fst [(lit "Alan Turing", turing_page)])
  /\ Forall (entry_well_formed en_agent) [(lit "Alan Turing", turing_page)].
Proof.
  apply (knowledge_base_entries_are_well_formed scripted en_agent
           [lit "Alan Turing"; lit "Alan Turing"]
           (start [Requests.Responds (html_response 200 (lit "<p>Alan Turing</p>"));
                   Requests.Responds page_summary_response;
                   Requests.Responds categories_response;
                   Requests.Responds links_response;
                   Requests.Responds (html_response 200 (lit "<p>Alan Turing</p>"));
                   Requests.Responds page_summary_response;
                   Requests.Responds categories_response;
                   Requests.Responds links_response])
           (mk_wiki_state []
              [lit "Added: Alan Turing"; lit "Added: Alan Turing"])).
  reflexivity.
Defined.

(** * Slides: further properties *)

Section SlideExtras.
Import Py Pptx PowerPointTool PowerPointMore.

(** X14: on a presentation whose layout 0 is the template's "Title
    Slide", for a title and a subtitle made of characters python-pptx
    stores unchanged, [add_title_slide] returns the new slide, appended
    as the last one with its two placeholders, and [get_slide_text] on
    its index gives back the title, a line feed and the subtitle. *)
Theorem title_slide_text_round_trip (t sub : str) (st : state) :
  nth_error (slide_layouts (prs st)) 0 = Some title_slide_layout ->
  forallb title_char t = true ->
  forallb title_char sub = true ->
  exists st' title_frame subtitle_frame,
    add_title_slide t sub st = (Ok (length (slides (prs st))), st')
    /\ slides (prs st')
       = slides (prs st)
           ++ [mk_slide [Placeholder 0 CenterTitle title_frame;
                         Placeholder 1 Subtitle subtitle_frame]]
    /\ frame_text title_frame = t
    /\ frame_text subtitle_frame = sub
    /\ get_slide_text (Z.of_nat (length (slides (prs st)))) st'
       = (Ok (t ++ chr_nl :: sub), st').
Proof.
  intros Hlayout Ht Hsub.
  set (sl := slides (prs st)).
  set (tf := map stored_paragraph (split_on is_nl t)).
  set (sf := map stored_paragraph (split_on is_nl sub)).
  set (final := mk_slide [Placeholder 0 CenterTitle tf;
                          Placeholder 1 Subtitle sf]).
  exists (put_slides (sl ++ [final]) st), tf, sf.
  pose proof (proj2 (PptxFacts.set_frame_text_title t [empty_paragraph] Ht))
    as Htext.
  pose proof (proj2 (PptxFacts.set_frame_text_title sub [empty_paragraph] Hsub))
    as Hsubtext.
  split; [|split; [reflexivity|split; [exact Htext|split; [exact Hsubtext|]]]].
  - unfold add_title_slide, bind, slide_layout_at.
    pose proof (PptxFacts.list_index_nat "slide layout" _ 0 _ Hlayout) as HL.
    change (Z.of_nat 0) with 0%Z in HL. rewrite HL.
    unfold add_slide. fold sl.
    set (st1 := put_slides (sl ++ [new_slide title_slide_layout]) st).
    assert (E1 : slides (prs st1) = sl ++ [new_slide title_slide_layout])
      by reflexivity.
    unfold shapes_title.
    rewrite (PptxFacts.on_slide_last _ st1 _ _ E1). cbn [fst snd].
    change (put_slides (sl ++ [new_slide title_slide_layout]) st1) with st1.
    unfold placeholder_at.
    rewrite (PptxFacts.on_slide_last _ st1 _ _ E1).
    rewrite PptxMore.new_title_slide.
    cbn [shapes find_placeholder ph_idx Nat.eqb option_map fst snd].
    unfold set_shape_text.
    rewrite <- PptxMore.new_title_slide.
    change (put_slides (sl ++ [new_slide title_slide_layout]) st1) with st1.
    rewrite (PptxFacts.on_slide_last _ st1 _ _ E1).
    rewrite PptxMore.new_title_slide, (PptxMore.set_text_first _ _ _ _ _ Ht).
    cbn [fst snd]. fold tf.
    set (s2 := mk_slide [Placeholder 0 CenterTitle tf;
                         Placeholder 1 Subtitle [empty_paragraph]]).
    set (st2 := put_slides (sl ++ [s2]) st1).
    assert (E2 : slides (prs st2) = sl ++ [s2]) by reflexivity.
    rewrite (PptxFacts.on_slide_last _ st2 _ _ E2).
    unfold s2. rewrite (PptxMore.set_text_second _ _ _ _ _ Hsub).
    reflexivity.
  - assert (E : nth_error (slides (prs (put_slides (sl ++ [final]) st)))
                          (length sl) = Some final)
      by apply PptxFacts.nth_error_app_end.
    rewrite (PptxMore.get_slide_text_at _ _ _ E).
    unfold slide_text, final.
    cbn [shapes shape_texts shape_text shape_frame option_map join].
    fold tf in Htext. fold sf in Hsubtext. now rewrite Htext, Hsubtext.
Qed.

(** X15: [get_slide_text] indexes the slides as Python indexes a list.
    A position [k] that holds a slide gives the texts of its shapes
    joined by line feeds, and so does [k - n] for [n] slides, counting
    from the end; an index below [-n] raises IndexError.  In each case
    the tool is left as it was. *)
Theorem get_slide_text_follows_list_indexing (st : state) :
  (forall k s,
      nth_error (slides (prs st)) k = Some s ->
      get_slide_text (Z.of_nat k) st = (Ok (slide_text s), st)
      /\ get_slide_text (Z.of_nat k - Z.of_nat (length (slides (prs st)))) st
         = (Ok (slide_text s), st))
  /\ (forall i,
         (i < - Z.of_nat (length (slides (prs st))))%Z ->
         get_slide_text i st
         = (Raise (mk_exn IndexError (lit "slide index out of range")), st)).
Proof.
  split.
  - intros k s H. split.
    + now apply PptxMore.get_slide_text_at.
    + now apply PptxMore.get_slide_text_from_end.
  - intros i H. now apply PptxMore.get_slide_text_below.
Qed.

(** X16: [add_title_slide], [add_content_slide] and [add_blank_slide]
    only ever append.  Whether the method returns or raises, the files,
    the output and the layouts are as before and the slides are the old
    ones, followed by at most one new slide; when it returns, exactly
    one slide was added and the result is that slide, the last one. *)
Theorem slide_methods_only_append
        (t sub : str) (points : list str) (st : state) :
  (at_most_one_slide_added st (snd (add_title_slide t sub st))
   /\ (forall h, fst (add_title_slide t sub st) = Ok h ->
                 h = length (slides (prs st))
                 /\ one_slide_added st (snd (add_title_slide t sub st))))
  /\ (at_most_one_slide_added st (snd (add_content_slide t points st))
      /\ (forall h, fst (add_content_slide t points st) = Ok h ->
                    h = length (slides (prs st))
                    /\ one_slide_added st
                         (snd (add_content_slide t points st))))
  /\ (at_most_one_slide_added st (snd (add_blank_slide st))
      /\ (forall h, fst (add_blank_slide st) = Ok h ->
                    h = length (slides (prs st))
                    /\ one_slide_added st (snd (add_blank_slide st)))).
Proof.
  split; [apply PptxMore.add_title_slide_appends|].
  split; [apply PptxMore.add_content_slide_appends|].
  apply PptxMore.add_blank_slide_appends.
Qed.

(** X17: adding a slide never changes what [get_slide_text] returns for
    a slide that was there before, whichever of the three methods adds
    it and whether the method returns or raises. *)
Theorem earlier_slides_keep_their_text
        (t sub : str) (points : list str) (st : state) (k : nat) (s : slide) :
  nth_error (slides (prs st)) k = Some s ->
  fst (get_slide_text (Z.of_nat k) st) = Ok (slide_text s)
  /\ fst (get_slide_text (Z.of_nat k) (snd (add_title_slide t sub st)))
     = Ok (slide_text s)
  /\ fst (get_slide_text (Z.of_nat k) (snd (add_content_slide t points st)))
     = Ok (slide_text s)
  /\ fst (get_slide_text (Z.of_nat k) (snd (add_blank_slide st)))
     = Ok (slide_text s).
Proof.
  intros H.
  split; [now rewrite (PptxMore.get_slide_text_at _ _ _ H)|].
  split; [|split].
  - rewrite (PptxMore.get_slide_text_at k s); [reflexivity|].
    exact (PptxMore.at_most_keeps_slide _ _ _ _
             (proj1 (PptxMore.add_title_slide_appends t sub st)) H).
  - rewrite (PptxMore.get_slide_text_at k s); [reflexivity|].
    exact (PptxMore.at_most_keeps_slide _ _ _ _
             (proj1 (PptxMore.add_content_slide_appends t points st)) H).
  - rewrite (PptxMore.get_slide_text_at k s); [reflexivity|].
    exact (PptxMore.at_most_keeps_slide _ _ _ _
             (proj1 (PptxMore.add_blank_slide_appends st)) H).
Qed.

(** X18: a presentation that lacks the layout a method asks for (layout
    0 for the title slide, 1 for the content slide, 6 for the blank
    slide) makes the method raise IndexError, "slide layout index out
    of range", and leaves the tool as it was: no slide is added. *)
Theorem missing_layout_adds_no_slide
        (t sub : str) (points : list str) (st : state) :
  (length (slide_layouts (prs st)) <= 0 ->
   add_title_slide t sub st
   = (Raise (mk_exn IndexError (lit "slide layout index out of range")), st))
  /\ (length (slide_layouts (prs st)) <= 1 ->
      add_content_slide t points st
      = (Raise (mk_exn IndexError (lit "slide layout index out of range")),
         st))
  /\ (length (slide_layouts (prs st)) <= 6 ->
      add_blank_slide st
      = (Raise (mk_exn IndexError (lit "slide layout index out of range")),
         st)).
Proof.
  split; [|split]; intros H.
  - unfold add_title_slide, bind at 1, slide_layout_at.
    rewrite PptxMore.list_index_missing by lia. reflexivity.
  - unfold add_content_slide, bind at 1, slide_layout_at.
    rewrite PptxMore.list_index_missing by lia. reflexivity.
  - unfold add_blank_slide, bind at 1, slide_layout_at.
    rewrite PptxMore.list_index_missing by lia. reflexivity.
Qed.

(** X19: when the layout exists but gives the new slide no placeholder
    with idx 1, [add_title_slide] and [add_content_slide] raise
    KeyError, and the slide they had already added stays in the
    presentation, as the layout made it: neither title nor text was
    set. *)
Theorem missing_placeholder_leaves_empty_slide
        (t sub : str) (points : list str) (st : state) (l : slide_layout) :
  find_placeholder 1 (shapes (new_slide l)) = None ->
  (nth_error (slide_layouts (prs st)) 0 = Some l ->
   add_title_slide t sub st
   = (Raise (mk_exn KeyError
               (lit "'no placeholder on this slide with idx == 1'")),
      put_slides (slides (prs st) ++ [new_slide l]) st))
  /\ (nth_error (slide_layouts (prs st)) 1 = Some l ->
      add_content_slide t points st
      = (Raise (mk_exn KeyError
                  (lit "'no placeholder on this slide with idx == 1'")),
         put_slides (slides (prs st) ++ [new_slide l]) st)).
Proof.
  intros Hnone.
  set (sl := slides (prs st)).
  set (st1 := put_slides (sl ++ [new_slide l]) st).
  assert (E1 : slides (prs st1) = sl ++ [new_slide l]) by reflexivity.
  split; intros Hlayout.
  - unfold add_title_slide, bind, slide_layout_at.
    pose proof (PptxFacts.list_index_nat "slide layout" _ 0 _ Hlayout) as HL.
    change (Z.of_nat 0) with 0%Z in HL. rewrite HL.
    unfold add_slide. fold sl. fold st1.
    unfold shapes_title.
    rewrite (PptxFacts.on_slide_last _ st1 _ _ E1). cbn [fst snd].
    change (put_slides (sl ++ [new_slide l]) st1) with st1.
    unfold placeholder_at.
    rewrite (PptxFacts.on_slide_last _ st1 _ _ E1).
    rewrite Hnone. reflexivity.
  - unfold add_content_slide, bind, slide_layout_at.
    pose proof (PptxFacts.list_index_nat "slide layout" _ 1 _ Hlayout) as HL.
    change (Z.of_nat 1) with 1%Z in HL. rewrite HL.
    unfold add_slide. fold sl. fold st1.
    unfold shapes_title.
    rewrite (PptxFacts.on_slide_last _ st1 _ _ E1). cbn [fst snd].
    change (put_slides (sl ++ [new_slide l]) st1) with st1.
    unfold placeholder_at.
    rewrite (PptxFacts.on_slide_last _ st1 _ _ E1).
    rewrite Hnone. reflexivity.
Qed.

(** X20: [extract_all_text] never raises and leaves the tool as it was.
    Its dictionary has one entry per slide, in slide order and under
    distinct keys: the entry of the slide at position [i] has the key
    "Slide " followed by [i + 1] in decimal, and holds the texts that
    [get_slide_text] joins for that slide, in the same order, without
    those that are empty or all whitespace. *)
Theorem extract_all_text_lists_every_slide (st : state) :
  exists all_text,
    extract_all_text st = (Ok all_text, st)
    /\ length all_text = length (slides (prs st))
    /\ NoDup (map fst all_text)
    /\ (forall i s,
           nth_error (slides (prs st)) i = Some s ->
           nth_error all_text i
           = Some (slide_label i,
                   filter (fun t => negb (blank t))
                          (shape_texts (shapes s)))).
Proof.
  exists (map text_entry (enumerate (slides (prs st)))).
  assert (Hlen : length (enumerate (slides (prs st)))
                 = length (slides (prs st))).
  { unfold enumerate. rewrite length_combine, length_seq. lia. }
  split; [|split; [|split]].
  - unfold extract_all_text, enumerate.
    rewrite (PptxMore.collect_texts_appends (slides (prs st)) 0 []);
      [reflexivity | intros key []].
  - now rewrite length_map.
  - rewrite map_map.
    apply NoDup_nth_error. intros i j Hi E.
    rewrite length_map, Hlen in Hi.
    rewrite !nth_error_map in E.
    destruct (nth_error (slides (prs st)) i) as [s|] eqn:Es;
      [|apply nth_error_None in Es; lia].
    rewrite (PptxMore.nth_error_enumerate _ _ _ Es) in E.
    destruct (nth_error (enumerate (slides (prs st))) j) as [[j' s']|] eqn:Ej;
      [|discriminate].
    assert (Hj : j < length (slides (prs st))).
    { rewrite <- Hlen. apply nth_error_Some. congruence. }
    destruct (nth_error (slides (prs st)) j) as [s2|] eqn:Es2;
      [|apply nth_error_None in Es2; lia].
    rewrite (PptxMore.nth_error_enumerate _ _ _ Es2) in Ej.
    injection Ej as <- <-. cbn [option_map text_entry fst] in E.
    injection E as E. apply PptxMore.decimal_inj in E. lia.
  - intros i s H. rewrite nth_error_map.
    rewrite (PptxMore.nth_error_enumerate _ _ _ H). cbn [option_map].
    unfold text_entry. cbn [fst snd].
    now rewrite PptxMore.nonblank_texts_filter.
Qed.

End SlideExtras.

Lemma title_slide_text_round_trip_witness :
  exists st' title_frame subtitle_frame,
    PowerPointTool.add_title_slide (lit "Hi") (lit "there") fresh = (Py.Ok 0, st')
    /\ Pptx.slides (PowerPointTool.prs st')
       = [Pptx.mk_slide [Pptx.Placeholder 0 Pptx.CenterTitle title_frame;
                         Pptx.Placeholder 1 Pptx.Subtitle subtitle_frame]]
    /\ Pptx.frame_text title_frame = lit "Hi"
    /\ Pptx.frame_text subtitle_frame = lit "there"
    /\ PowerPointTool.get_slide_text 0 st' = (Py.Ok hi_there, st').
Proof.
  apply (title_slide_text_round_trip (lit "Hi") (lit "there") fresh);
    reflexivity.
Defined.

Lemma get_slide_text_follows_list_indexing_witness :
  PowerPointTool.get_slide_text 0 titled = (Py.Ok hi_there, titled)
  /\ PowerPointTool.get_slide_text (-1) titled = (Py.Ok hi_there, titled)
  /\ PowerPointTool.get_slide_text (-2) titled
     = (Py.Raise (Py.mk_exn Py.IndexError (lit "slide index out of range")),
        titled).
Proof.
  destruct (get_slide_text_follows_list_indexing titled) as [H1 H2].
  destruct (H1 0 (nth 0 (Pptx.slides (PowerPointTool.prs titled))
                      (Pptx.mk_slide [])) eq_refl) as [Ha Hb].
  split; [exact Ha | split; [exact Hb | apply H2; reflexivity]].
Defined.

Lemma slide_methods_only_append_witness :
  (0 = length (Pptx.slides (PowerPointTool.prs fresh))
   /\ one_slide_added fresh
        (snd (PowerPointTool.add_title_slide (lit "Hi") (lit "there") fresh)))
  /\ (0 = length (Pptx.slides (PowerPointTool.prs fresh))
      /\ one_slide_added fresh
           (snd (PowerPointTool.add_content_slide (lit "Hi") [lit "there"]
                   fresh)))
  /\ (0 = length (Pptx.slides (PowerPointTool.prs fresh))
      /\ one_slide_added fresh (snd (PowerPointTool.add_blank_slide fresh))).
Proof.
  destruct (slide_methods_only_append (lit "Hi") (lit "there") [lit "there"]
              fresh) as [[_ H1] [[_ H2] [_ H3]]].
  split; [exact (H1 0 eq_refl) | split; [exact (H2 0 eq_refl)|]].
  exact (H3 0 eq_refl).
Defined.

Lemma earlier_slides_keep_their_text_witness :
  fst (PowerPointTool.get_slide_text 0 titled) = Py.Ok hi_there
  /\ fst (PowerPointTool.get_slide_text 0
            (snd (PowerPointTool.add_title_slide (lit "a") (lit "b") titled)))
     = Py.Ok hi_there
  /\ fst (PowerPointTool.get_slide_text 0
            (snd (PowerPointTool.add_content_slide (lit "a") [lit "b"] titled)))
     = Py.Ok hi_there
  /\ fst (PowerPointTool.get_slide_text 0
            (snd (PowerPointTool.add_blank_slide titled)))
     = Py.Ok hi_there.
Proof.
  exact (earlier_slides_keep_their_text (lit "a") (lit "b") [lit "b"] titled 0
           (nth 0 (Pptx.slides (PowerPointTool.prs titled)) (Pptx.mk_slide []))
           eq_refl).
Defined.

Lemma missing_layout_adds_no_slide_witness :
  PowerPointTool.add_title_slide (lit "Hi") (lit "there") no_layouts
  = (Py.Raise (Py.mk_exn Py.IndexError (lit "slide layout index out of range")),
     no_layouts)
  /\ PowerPointTool.add_content_slide (lit "Hi") [lit "there"] no_layouts
     = (Py.Raise (Py.mk_exn Py.IndexError
                    (lit "slide layout index out of range")),
        no_layouts)
  /\ PowerPointTool.add_blank_slide title_only_tool
     = (Py.Raise (Py.mk_exn Py.IndexError
                    (lit "slide layout index out of range")),
        title_only_tool).
Proof.
  destruct (missing_layout_adds_no_slide (lit "Hi") (lit "there") [lit "there"]
              no_layouts) as [H1 [H2 _]].
  destruct (missing_layout_adds_no_slide (lit "Hi") (lit "there") [lit "there"]
              title_only_tool) as [_ [_ H3]].
  split; [apply H1; cbn; lia | split; [apply H2; cbn; lia | apply H3; cbn; lia]].
Defined.

Lemma missing_placeholder_leaves_empty_slide_witness :
  PowerPointTool.add_title_slide (lit "Hi") (lit "there") title_only_tool
  = (Py.Raise (Py.mk_exn Py.KeyError
                 (lit "'no placeholder on this slide with idx == 1'")),
     PowerPointTool.put_slides [Pptx.new_slide title_only_layout]
       title_only_tool)
  /\ PowerPointTool.add_content_slide (lit "Hi") [lit "there"] title_only_tool
     = (Py.Raise (Py.mk_exn Py.KeyError
                    (lit "'no placeholder on this slide with idx == 1'")),
        PowerPointTool.put_slides [Pptx.new_slide title_only_layout]
          title_only_tool).
Proof.
  destruct (missing_placeholder_leaves_empty_slide (lit "Hi") (lit "there")
              [lit "there"] title_only_tool title_only_layout eq_refl)
    as [H1 H2].
  split; [exact (H1 eq_refl) | exact (H2 eq_refl)].
Defined.

Lemma extract_all_text_lists_every_slide_witness :
  exists all_text,
    PowerPointMore.extract_all_text titled = (Py.Ok all_text, titled)
    /\ nth_error all_text 0 = Some (lit "Slide 1", [lit "Hi"; lit "there"]).
Proof.
  destruct (extract_all_text_lists_every_slide titled)
    as (all_text & H1 & _ & _ & H4).
  exists all_text. split; [exact H1|].
  exact (H4 0 (nth 0 (Pptx.slides (PowerPointTool.prs titled))
                   (Pptx.mk_slide [])) eq_refl).
Defined.
